(** * Optimus: DAO lending and BNPL activities

    A shallow embedding of the Temporal activities under
    [src/backend/activities] and the properties of the governance tally,
    the installment scheduler, the proportional distribution and the
    risk-score policy that are stated about them.

    Conventions of the embedding.
    - Python [int] is [Z]; [//] and [%] are [Z.div] and [Z.modulo] (both
      round towards minus infinity, like Python's).
    - Python [float] is IEEE 754 binary64.  A finite float is represented by
      its exact rational value; every arithmetic operation rounds the exact
      result to the nearest binary64 value, ties to even ([PyFloat.round64]).
    - An activity that can raise returns a [result]; an activity that reads
      or writes the database, the clock or the chain takes them as
      arguments and returns the new state.
    - Services of the repository that the activities call but whose code is
      not part of the sources are parameters of the activities.
    - Python [str] is [string]; where an activity reads a string character
      by character ([validate_wallet_address]) the embedding covers the
      strings of ASCII characters. *)

From Stdlib Require Import ZArith QArith Qround Qpower Qabs Lia Lqa List Ascii String Bool.
From Stdlib Require Import Floats.
From stdpp Require Import gmap strings list pretty.

(** ** Part I: the embedding *)

(** *** Exceptions and results *)

Module Py.

(** The exception classes the activities raise or let through. *)
Inductive exn : Type :=
| ValueError (msg : string)
| OverflowError (msg : string)
| ZeroDivisionError (msg : string)
| Exception (msg : string).

Inductive result (A : Type) : Type :=
| Ok (a : A)
| Raise (e : exn).
Arguments Ok {A} a.
Arguments Raise {A} e.

Definition bind {A B : Type} (m : result A) (k : A -> result B) : result B :=
  match m with
  | Ok a => k a
  | Raise e => Raise e
  end.

Definition is_ok {A : Type} (m : result A) : bool :=
  match m with Ok _ => true | Raise _ => false end.

#[export] Instance result_fmap : FMap result :=
  fun A B f m => match m with Ok a => Ok (f a) | Raise e => Raise e end.

End Py.
Export Py.

Notation "x <- m ;; k" := (Py.bind m (fun x => k))
  (at level 100, m at next level, right associativity).

(** *** Python floats (IEEE 754 binary64) *)

Module PyFloat.
Local Open Scope Q_scope.

(** binary64: 53 significant bits, least exponent of a bit -1074,
    overflow at 2^1024. *)
Definition prec : Z := 53.
Definition emin : Z := -1074.
Definition emax : Z := 1024.

Definition pow2 (e : Z) : Q := (2 # 1) ^ e.

(** [ilog2 q] is floor(log2 q) for a positive rational [q]. *)
Definition ilog2 (q : Q) : Z :=
  let g := (Z.log2 (Qnum q) - Z.log2 (Zpos (Qden q)))%Z in
  if Qle_bool (pow2 g) q then g else (g - 1)%Z.

(** Exponent of the unit in the last place of the binade of [q]. *)
Definition ulp_exp (q : Q) : Z := Z.max (ilog2 (Qabs q) - (prec - 1)) emin.

(** Nearest integer, ties to even. *)
Definition rne (s : Q) : Z :=
  let f := Qfloor s in
  match Qcompare (s - inject_Z f) (1 # 2) with
  | Lt => f
  | Gt => (f + 1)%Z
  | Eq => if Z.even f then f else (f + 1)%Z
  end.

(** The binary64 value nearest to [q] (ties to even), before the overflow
    test. *)
Definition round64 (q : Q) : Q :=
  if Qeq_bool q 0 then 0
  else let u := ulp_exp q in inject_Z (rne (q / pow2 u)) * pow2 u.

Definition Qlt_bool (x y : Q) : bool := negb (Qle_bool y x).

(** A float is a finite binary64 value, given by its exact value, or an
    infinity.  (No expression of the activities produces a NaN.) *)
Inductive float : Type :=
| Finite (v : Q)
| Infinite (negative : bool).

Definition of_Q (q : Q) : float :=
  let r := round64 q in
  if Qle_bool (pow2 emax) (Qabs r) then Infinite (Qlt_bool r 0) else Finite r.

(** [float(n)] for an int [n]; also the implicit conversion of the int
    operand of [int * float]. *)
Definition int_to_float (n : Z) : result Q :=
  match of_Q (inject_Z n) with
  | Finite v => Ok v
  | Infinite _ => Raise (OverflowError "int too large to convert to float")
  end.

(** [a / b] on ints: the correctly rounded quotient. *)
Definition truediv (a b : Z) : result Q :=
  if (b =? 0)%Z then Raise (ZeroDivisionError "division by zero")
  else match of_Q (inject_Z a / inject_Z b) with
       | Finite v => Ok v
       | Infinite _ =>
           Raise (OverflowError "integer division result too large for a float")
       end.

(** [x * y] on finite floats. *)
Definition mul (x y : Q) : float := of_Q (x * y).

(** [x * n] and [n * x] for a finite float [x] and an int [n]. *)
Definition mul_int (x : Q) (n : Z) : result float :=
  y <- int_to_float n ;; Ok (mul x y).

(** Truncation towards zero. *)
Definition trunc (v : Q) : Z := if Qlt_bool v 0 then Qceiling v else Qfloor v.

(** [int(x)]. *)
Definition to_int (x : float) : result Z :=
  match x with
  | Finite v => Ok (trunc v)
  | Infinite _ => Raise (OverflowError "cannot convert float infinity to integer")
  end.

(** [n > x] for an int [n] and a finite float [x]: Python compares the
    exact values. *)
Definition int_gt (n : Z) (x : Q) : bool := Qlt_bool x (inject_Z n).

(** [x > n] for a float [x] and an int [n]. *)
Definition gt_int (x : float) (n : Z) : bool :=
  match x with
  | Finite v => Qlt_bool (inject_Z n) v
  | Infinite negative => negb negative
  end.

(** The literal [0.05]. *)
Definition lit_0_05 : Q := round64 (5 # 100).

(** Reading of Rocq's own binary64 values, to compare [round64] with the
    kernel's floating-point unit. *)
Definition of_spec_float (x : spec_float) : option Q :=
  match x with
  | S754_zero _ => Some 0
  | S754_finite s m e =>
      Some (Qred ((if s then -(1) else 1) * inject_Z (Zpos m) * pow2 e))
  | _ => None
  end.

(** The kernel's float for a small non-negative integer. *)
Definition prim (n : Z) : PrimFloat.float := PrimFloat.of_uint63 (Uint63.of_Z n).

Definition same_value (x : PrimFloat.float) (v : Q) : bool :=
  match of_spec_float (Prim2SF x) with
  | Some w => Qeq_bool w v
  | None => false
  end.

(** [a / b] and [(a / b) * c] computed by the kernel's floating-point unit
    and by [round64]. *)
Definition agrees_div (a b : Z) : bool :=
  same_value (PrimFloat.div (prim a) (prim b)) (round64 (inject_Z a / inject_Z b)).

Definition agrees_div_mul (a b c : Z) : bool :=
  same_value (PrimFloat.mul (PrimFloat.div (prim a) (prim b)) (prim c))
    (round64 (round64 (inject_Z a / inject_Z b) * round64 (inject_Z c))).

End PyFloat.

(** *** Governance tally ([loan_activities.count_votes],
        [bnpl_access_activities.count_application_votes]) *)

Module Voting.

Record VotingRecord : Type := {
  vr_dao_id : string;
  vr_proposal_id : string;
  vr_voter_id : string;
  vr_vote : bool
}.

Record VotingPeriod : Type := {
  vp_id : string;
  vp_dao_id : string;
  vp_proposal_id : string;
  vp_yes_votes : option Z;
  vp_no_votes : option Z
}.

Record DB : Type := {
  voting_records : list VotingRecord;
  voting_periods : list VotingPeriod
}.

(** [db.query(VotingRecord).filter(dao_id == .., proposal_id == ..,
    vote == v).count()] *)
Definition count_records (db : DB) (dao_id proposal_id : string) (v : bool) : Z :=
  Z.of_nat (length (filter
    (fun r => vr_dao_id r = dao_id /\ vr_proposal_id r = proposal_id /\ vr_vote r = v)
    (voting_records db))).

(** [yes_votes > total_votes / 2 if total_votes > 0 else False] *)
Definition supermajority (yes_votes total_votes : Z) : result bool :=
  if (0 <? total_votes)%Z
  then half <- PyFloat.truediv total_votes 2 ;; Ok (PyFloat.int_gt yes_votes half)
  else Ok false.

Record VoteCount : Type := {
  vc_proposal_id : string;
  vc_yes_votes : Z;
  vc_no_votes : Z;
  vc_total_votes : Z;
  supermajority_reached : bool
}.

Section CountVotes.
(** [VotingPeriodService.get_voting_period_by_proposal]: its code is not
    in the sources; [count_votes] only tests its result for presence. *)
Variable get_voting_period_by_proposal : DB -> string -> string -> option VotingPeriod.

Definition count_votes (db : DB) (dao_id proposal_id : string) : result VoteCount :=
  match get_voting_period_by_proposal db dao_id proposal_id with
  | None => Raise (ValueError ("Voting period not found for proposal " +:+ proposal_id))
  | Some _ =>
      let yes_votes := count_records db dao_id proposal_id true in
      let no_votes := count_records db dao_id proposal_id false in
      let total_votes := (yes_votes + no_votes)%Z in
      reached <- supermajority yes_votes total_votes ;;
      Ok {| vc_proposal_id := proposal_id;
            vc_yes_votes := yes_votes;
            vc_no_votes := no_votes;
            vc_total_votes := total_votes;
            supermajority_reached := reached |}
  end.
End CountVotes.

(** [x or 0] on a nullable integer column. *)
Definition or_0 (x : option Z) : Z := default 0%Z x.

Record ApplicationVoteCount : Type := {
  avc_yes_votes : Z;
  avc_no_votes : Z;
  avc_total_votes : Z;
  approved : bool
}.

(** [approved = False; if total_votes > 0: yes_percentage =
    (int(yes_votes) / total_votes) * 100; approved = yes_percentage > 50] *)
Definition application_approved (yes_votes total_votes : Z) : result bool :=
  if (0 <? total_votes)%Z
  then ratio <- PyFloat.truediv yes_votes total_votes ;;
       yes_percentage <- PyFloat.mul_int ratio 100 ;;
       Ok (PyFloat.gt_int yes_percentage 50)
  else Ok false.

Definition count_application_votes (db : DB) (voting_period_id : string)
  : result ApplicationVoteCount :=
  match find (fun p => bool_decide (vp_id p = voting_period_id)) (voting_periods db) with
  | None => Raise (ValueError ("Voting period " +:+ voting_period_id +:+ " not found"))
  | Some voting_period =>
      let yes_votes := or_0 (vp_yes_votes voting_period) in
      let no_votes := or_0 (vp_no_votes voting_period) in
      let total_votes := (yes_votes + no_votes)%Z in
      a <- application_approved yes_votes total_votes ;;
      Ok {| avc_yes_votes := yes_votes;
            avc_no_votes := no_votes;
            avc_total_votes := total_votes;
            approved := a |}
  end.

(** Ballot boxes used in the statements below. *)

Local Open Scope Z_scope.

Definition ballot (v : bool) (voter : string) : VotingRecord :=
  {| vr_dao_id := "dao"; vr_proposal_id := "p1"; vr_voter_id := voter; vr_vote := v |}.

(** Six yes and five no: the scenario of the specification. *)
Definition six_to_five : DB :=
  {| voting_records :=
       (ballot true <$> ["a"; "b"; "c"; "d"; "e"; "f"])
       ++ (ballot false <$> ["g"; "h"; "i"; "j"; "k"]);
     voting_periods :=
       [ {| vp_id := "vp1"; vp_dao_id := "dao"; vp_proposal_id := "p1";
            vp_yes_votes := Some 6%Z; vp_no_votes := Some 5%Z |} ] |}.

Definition by_proposal (db : DB) (dao_id proposal_id : string) : option VotingPeriod :=
  find (fun p => bool_decide (vp_dao_id p = dao_id /\ vp_proposal_id p = proposal_id))
       (voting_periods db).


End Voting.

(** *** BNPL installments ([bnpl_activities], [x402_activities]) *)

Module Bnpl.

Record Installments : Type := {
  installment_1 : Z;
  installment_2 : Z;
  installment_3 : Z;
  total : Z
}.

(** [calculate_bnpl_installments(amount_token)] *)
Definition calculate_bnpl_installments (amount_token : Z) : result Installments :=
  let installment_amount := (amount_token / 3)%Z in
  let remainder := (amount_token mod 3)%Z in
  let installment_1 := (installment_amount + remainder)%Z in
  let installment_2 := installment_amount in
  let installment_3 := installment_amount in
  let total := (installment_1 + installment_2 + installment_3)%Z in
  if negb (total =? amount_token)%Z
  then Raise (ValueError ("Installment calculation error: " +:+ pretty total
                          +:+ " != " +:+ pretty amount_token))
  else Ok {| installment_1 := installment_1;
             installment_2 := installment_2;
             installment_3 := installment_3;
             total := total |}.

(** The schedule in the words of the specification, for any number [n] of
    installments: [base = principal div n], [remainder = principal mod n],
    the first amount is [base + remainder], all others are [base]. *)
Definition schedule_spec (principal n : Z) : list Z :=
  (principal / n + principal mod n)%Z :: repeat (principal / n)%Z (Z.to_nat (n - 1)).

Definition amounts (i : Installments) : list Z :=
  [installment_1 i; installment_2 i; installment_3 i].

(** A [datetime] is a number of microseconds since the epoch. *)
Definition datetime : Type := Z.
Definition timedelta_days (days : Z) : Z := (days * 86400 * 1000000)%Z.

Inductive Status : Type := Pending | Paid | Late.

Record BNPLPayment : Type := {
  payment_request_id : string;
  installment_number : Z;
  amount : Z;
  due_date : datetime;
  status : Status;
  late_fee : Z;
  paid_date : option datetime
}.

Record Scheduled : Type := {
  bnpl_payment_2_id : string;
  bnpl_payment_3_id : string;
  installment_2_due_date : datetime;
  installment_3_due_date : datetime;
  scheduled : bool
}.

(** [schedule_bnpl_installments].  [now] is the reading of
    [datetime.now(timezone.utc)]; [id_2] and [id_3] are the primary keys the
    database gives the two new rows.  The first installment is paid at once
    by [process_first_bnpl_payment] and gets no row. *)
Definition schedule_bnpl_installments (now : datetime) (id_2 id_3 : string)
    (db : gmap string BNPLPayment)
    (payment_request_id payer_id recipient_id : string)
    (installment_2 installment_3 : Z)
  : result (Scheduled * gmap string BNPLPayment) :=
  let bnpl_payment_2 :=
    {| payment_request_id := payment_request_id;
       installment_number := 2;
       amount := installment_2;
       due_date := (now + timedelta_days 30)%Z;
       status := Pending;
       late_fee := 0;
       paid_date := None |} in
  let bnpl_payment_3 :=
    {| payment_request_id := payment_request_id;
       installment_number := 3;
       amount := installment_3;
       due_date := (now + timedelta_days 60)%Z;
       status := Pending;
       late_fee := 0;
       paid_date := None |} in
  Ok ({| bnpl_payment_2_id := id_2;
         bnpl_payment_3_id := id_3;
         installment_2_due_date := due_date bnpl_payment_2;
         installment_3_due_date := due_date bnpl_payment_3;
         scheduled := true |},
      <[id_3 := bnpl_payment_3]> (<[id_2 := bnpl_payment_2]> db)).

Record DAOMetadata : Type := {
  bnpl_payment_period_days : option Z;
  bnpl_num_installments : option Z
}.

Record PaymentTerms : Type := {
  pt_dao_id : string;
  payment_period_days : Z;
  num_installments : Z;
  days_between_installments : Z
}.

(** [not x] on a nullable integer column: true on [None] and on [0]. *)
Definition falsy (x : option Z) : bool :=
  match x with
  | None => true
  | Some v => (v =? 0)%Z
  end.

(** [get_dao_payment_terms(dao_id)] *)
Definition get_dao_payment_terms (daos : gmap string DAOMetadata) (dao_id : string)
  : result PaymentTerms :=
  match daos !! dao_id with
  | None => Raise (ValueError ("DAO metadata not found for DAO " +:+ dao_id))
  | Some dao_metadata =>
      if falsy (bnpl_payment_period_days dao_metadata)
         || falsy (bnpl_num_installments dao_metadata)
      then Raise (ValueError ("DAO " +:+ dao_id +:+ " has not configured BNPL payment terms"))
      else
        let period := default 0%Z (bnpl_payment_period_days dao_metadata) in
        let n := default 0%Z (bnpl_num_installments dao_metadata) in
        Ok {| pt_dao_id := dao_id;
              payment_period_days := period;
              num_installments := n;
              days_between_installments := (period / n)%Z |}
  end.

(** [int(payment.amount * 0.05)] *)
Definition late_fee_of (amount : Z) : result Z :=
  x <- PyFloat.mul_int PyFloat.lit_0_05 amount ;; PyFloat.to_int x.

Record LateFeeApplied : Type := {
  late_fee_applied : bool;
  late_fee_amount : Z;
  overdue_amount : option Z
}.

Definition set_late (payment : BNPLPayment) (fee : Z) : BNPLPayment :=
  {| payment_request_id := payment_request_id payment;
     installment_number := installment_number payment;
     amount := amount payment;
     due_date := due_date payment;
     status := Late;
     late_fee := fee;
     paid_date := paid_date payment |}.

Definition is_pending (s : Status) : bool :=
  match s with Pending => true | _ => false end.

(** [apply_bnpl_late_fee(bnpl_payment_id)], run when the clock reads [now].
    An exception leaves the table as it was (nothing is committed). *)
Definition apply_bnpl_late_fee (now : datetime) (db : gmap string BNPLPayment)
    (bnpl_payment_id : string)
  : result (LateFeeApplied * gmap string BNPLPayment) :=
  match db !! bnpl_payment_id with
  | None => Raise (ValueError ("BNPL payment " +:+ bnpl_payment_id +:+ " not found"))
  | Some payment =>
      if is_pending (status payment) && (due_date payment <? now)%Z
      then
        fee <- late_fee_of (amount payment) ;;
        Ok ({| late_fee_applied := true;
               late_fee_amount := fee;
               overdue_amount := Some (amount payment) |},
            <[bnpl_payment_id := set_late payment fee]> db)
      else
        Ok ({| late_fee_applied := false;
               late_fee_amount := 0;
               overdue_amount := None |}, db)
  end.

Record Tracked : Type := {
  tr_status : Status;
  tr_late_fee : Z;
  updated : bool
}.

(** [track_bnpl_payment_status(bnpl_payment_id)], run when the clock reads
    [now]. *)
Definition track_bnpl_payment_status (now : datetime) (db : gmap string BNPLPayment)
    (bnpl_payment_id : string)
  : result (Tracked * gmap string BNPLPayment) :=
  match db !! bnpl_payment_id with
  | None => Raise (ValueError ("BNPL payment " +:+ bnpl_payment_id +:+ " not found"))
  | Some payment =>
      if is_pending (status payment) && (due_date payment <? now)%Z
         && bool_decide (paid_date payment = None)
      then
        fee <- late_fee_of (amount payment) ;;
        Ok ({| tr_status := Late; tr_late_fee := fee; updated := true |},
            <[bnpl_payment_id := set_late payment fee]> db)
      else
        Ok ({| tr_status := status payment;
               tr_late_fee := late_fee payment;
               updated := true |}, db)
  end.

(** Auxiliary definitions and installments used in the statements below. *)

Local Open Scope Z_scope.

Definition sum_list (l : list Z) : Z := foldr Z.add 0 l.

Definition configured (period n : Z) : DAOMetadata :=
  {| bnpl_payment_period_days := Some period; bnpl_num_installments := Some n |}.



Definition overdue_installment : BNPLPayment :=
  {| payment_request_id := "req"; installment_number := 2; amount := 100;
     due_date := 10; status := Pending; late_fee := 0; paid_date := None |}.



End Bnpl.

(** *** The Movement network as the activities see it *)

Module Chain.

(** A request sent to the network through [MovementService]. *)
Inductive Call : Type :=
| TransferFunds (from_address to_address : string) (amount : Z)
| SubmitSignedTransaction (signed_tx_bcs : string)
| CallContract (contract_address function_name : string).

Record Member : Type := {
  address : string;
  voting_power : Z
}.

(** [MovementService]: the answer to a request is a function of the
    requests sent before it and of the request.  [Raise] is an exception
    thrown by the client. *)
Record MovementService : Type := {
  transfer_funds : list Call -> string -> string -> Z -> result string;
  (** the ["hash"] entry of the answer, [""] when it has none *)
  submit_signed_transaction : list Call -> string -> result string;
  (** the ["members"] entry of the answer of [get_members], [[]] when it
      has none *)
  get_members : list Call -> string -> result (list Member)
}.

Definition is_transfer (c : Call) : bool :=
  match c with
  | TransferFunds _ _ _ | SubmitSignedTransaction _ => true
  | CallContract _ _ => false
  end.

(** The fund movements among the requests sent. *)
Definition transfers (calls : list Call) : list Call := List.filter is_transfer calls.

(** Networks and members used in the statements below. *)

Local Open Scope Z_scope.

(** A network that accepts every request and reports [dao_members] as the
    members of every DAO. *)
Definition accepting (dao_members : list Member) : MovementService :=
  {| transfer_funds := fun _ _ _ _ => Ok "0xtx";
     submit_signed_transaction := fun _ _ => Ok "0xtx";
     get_members := fun _ _ => Ok dao_members |}.

(** A network on which the first fund movement fails and the later ones go
    through. *)
Definition failing_first (dao_members : list Member) : MovementService :=
  {| transfer_funds := fun calls _ _ _ =>
       if bool_decide (transfers calls = [])
       then Raise (Exception "network error") else Ok "0xtx";
     submit_signed_transaction := fun calls _ =>
       if bool_decide (transfers calls = [])
       then Raise (Exception "network error") else Ok "0xtx";
     get_members := fun _ _ => Ok dao_members |}.

Definition member (a : string) (p : Z) : Member := {| address := a; voting_power := p |}.

Definition halves : list Member := [member "A" 50; member "B" 50].

End Chain.

(** *** Loan disbursement ([loan_activities.disburse_funds]) *)

Module Loans.
Import Chain.

Inductive LoanStatus : Type :=
| Requested | VotingOpen | Approved | Rejected | Disbursed
| Repaying | Completed | Defaulted | Liquidated.

Record Loan : Type := {
  dao_id : string;
  borrower_id : string;
  principal : Z;
  loan_status : LoanStatus
}.

Record World : Type := {
  loans : gmap string Loan;
  calls : list Call
}.

Section DisburseFunds.
Variable movement_service : MovementService.
(** [LoanService.disburse_loan(db, loan_id)]: its code is not in the
    sources. *)
Variable disburse_loan : gmap string Loan -> string -> result (gmap string Loan).

(** [disburse_funds(loan_id, borrower_address, amount, dao_id)] *)
Definition disburse_funds (w : World) (loan_id borrower_address : string)
    (amount : Z) (dao_id : string) : result string * World :=
  let sent := calls w ++ [TransferFunds dao_id borrower_address amount] in
  match transfer_funds movement_service (calls w) dao_id borrower_address amount with
  | Raise e => (Raise e, {| loans := loans w; calls := sent |})
  | Ok tx_hash =>
      match disburse_loan (loans w) loan_id with
      | Raise e => (Raise e, {| loans := loans w; calls := sent |})
      | Ok loans' => (Ok tx_hash, {| loans := loans'; calls := sent |})
      end
  end.
End DisburseFunds.

(** Modelled from the spec: [LoanService.disburse_loan], whose code is not in
    the sources.  Section 4.2: on a confirmed transfer [Loan.status =
    Disbursed]; section 7: [InvalidState] for an operation that is illegal in
    the current state, such as disbursing twice. *)
Definition disburse_loan_spec (loans : gmap string Loan) (loan_id : string)
  : result (gmap string Loan) :=
  match loans !! loan_id with
  | None => Raise (ValueError ("Loan " +:+ loan_id +:+ " not found"))
  | Some loan =>
      match loan_status loan with
      | Approved =>
          Ok (<[loan_id := {| dao_id := dao_id loan;
                              borrower_id := borrower_id loan;
                              principal := principal loan;
                              loan_status := Disbursed |}]> loans)
      | _ => Raise (ValueError ("Loan " +:+ loan_id +:+ " cannot be disbursed"))
      end
  end.

(** A loan that has been disbursed once. *)

Local Open Scope Z_scope.

Definition disbursed_loan : Loan :=
  {| dao_id := "dao"; borrower_id := "borrower"; principal := 500;
     loan_status := Disbursed |}.

Definition after_disbursement : World :=
  {| loans := {[ "loan" := disbursed_loan ]};
     calls := [TransferFunds "dao" "0xborrower" 500] |}.

End Loans.

(** *** Proportional distribution ([bnpl_activities.distribute_bnpl_late_fees],
        [loan_activities.distribute_loan_interest],
        [loan_activities.distribute_liquidation_funds]) *)

Module Distribution.
Import Chain.

(** [int((voting_power / total_voting_power) * late_fee_amount)] *)
Definition member_share (voting_power total_voting_power late_fee_amount : Z) : result Z :=
  ratio <- PyFloat.truediv voting_power total_voting_power ;;
  x <- PyFloat.mul_int ratio late_fee_amount ;;
  PyFloat.to_int x.

Record Payout : Type := {
  member_address : string;
  payout_voting_power : Z;
  share_amount : Z;
  transaction_hash : string
}.

Record LateFeeDistribution : Type := {
  lf_dao_id : string;
  lf_late_fee_amount : Z;
  total_distributed : option Z;
  members_count : nat;
  distributions : option (list Payout);
  distributed : bool;
  error : option string
}.

Definition placeholder_transfer_tx : string := "0xplaceholder_transfer_tx".

Section LateFees.
Variable movement_service : MovementService.

(** The loop [for member in dao_members] of [distribute_bnpl_late_fees]:
    the requests sent so far, the payouts made so far and their sum are
    threaded through.  An exception of the share computation leaves the
    loop; an exception of the transfer is caught and the loop goes on. *)
Fixpoint distribute_loop (total_voting_power late_fee_amount : Z)
    (dao_members : list Member) (calls : list Call)
    (distributions : list Payout) (total_distributed : Z)
  : result (list Payout * Z) * list Call :=
  match dao_members with
  | [] => (Ok (distributions, total_distributed), calls)
  | member :: rest =>
      let voting_power := voting_power member in
      if (voting_power =? 0)%Z
      then distribute_loop total_voting_power late_fee_amount rest calls
             distributions total_distributed
      else
        match member_share voting_power total_voting_power late_fee_amount with
        | Raise e => (Raise e, calls)
        | Ok member_share =>
            if (member_share =? 0)%Z
            then distribute_loop total_voting_power late_fee_amount rest calls
                   distributions total_distributed
            else
              let sent := calls ++ [SubmitSignedTransaction placeholder_transfer_tx] in
              match submit_signed_transaction movement_service calls
                      placeholder_transfer_tx with
              | Ok transaction_hash =>
                  distribute_loop total_voting_power late_fee_amount rest sent
                    (distributions ++
                       [{| member_address := address member;
                           payout_voting_power := voting_power;
                           share_amount := member_share;
                           transaction_hash := transaction_hash |}])
                    (total_distributed + member_share)%Z
              | Raise _ =>
                  distribute_loop total_voting_power late_fee_amount rest sent
                    distributions total_distributed
              end
        end
  end.

Definition sum_voting_power (dao_members : list Member) : Z :=
  foldr Z.add 0%Z (voting_power <$> dao_members).

(** [distribute_bnpl_late_fees(dao_id, late_fee_amount)] *)
Definition distribute_bnpl_late_fees (calls : list Call) (dao_id : string)
    (late_fee_amount : Z) : result LateFeeDistribution * list Call :=
  let asked := calls ++ [CallContract dao_id "get_members"] in
  match get_members movement_service calls dao_id with
  | Raise e => (Raise e, asked)
  | Ok dao_members =>
      match dao_members with
      | [] =>
          (Ok {| lf_dao_id := dao_id;
                 lf_late_fee_amount := late_fee_amount;
                 total_distributed := None;
                 members_count := 0;
                 distributions := None;
                 distributed := false;
                 error := Some "No members found" |}, asked)
      | _ =>
          let total_voting_power := sum_voting_power dao_members in
          if (total_voting_power =? 0)%Z
          then
            (Ok {| lf_dao_id := dao_id;
                   lf_late_fee_amount := late_fee_amount;
                   total_distributed := None;
                   members_count := length dao_members;
                   distributions := None;
                   distributed := false;
                   error := Some "No voting power" |}, asked)
          else
            match distribute_loop total_voting_power late_fee_amount dao_members
                    asked [] 0%Z with
            | (Raise e, calls') => (Raise e, calls')
            | (Ok (distributions, total_distributed), calls') =>
                (Ok {| lf_dao_id := dao_id;
                       lf_late_fee_amount := late_fee_amount;
                       total_distributed := Some total_distributed;
                       members_count := length distributions;
                       distributions := Some distributions;
                       distributed := true;
                       error := None |}, calls')
            end
      end
  end.
End LateFees.

(** The calls of [InterestDistributionService] and of [DAOLiquidationService]
    that the two payout activities make; the code of both services is not in
    the sources.  [Pct] is whatever the voting-power percentage is. *)
Record PayoutService (DB Pct : Type) : Type := {
  get_member_voting_power_percentage : Z -> Z -> result Pct;
  calculate_member_share : Pct -> Z -> result Z;
  record_distribution : DB -> string -> string -> Z -> result DB;
  validate_distribution_sum : gmap string Z -> Z -> result bool
}.
Arguments get_member_voting_power_percentage {DB Pct} _ _ _.
Arguments calculate_member_share {DB Pct} _ _ _.
Arguments record_distribution {DB Pct} _ _ _ _ _.
Arguments validate_distribution_sum {DB Pct} _ _ _.

Record PayoutResult : Type := {
  total_amount : Z;
  payouts : gmap string Z;
  transaction_hashes : list string;
  members_paid : option nat
}.

Section Payouts.
Context {DB Pct : Type}.
Variable movement_service : MovementService.
Variable service : PayoutService DB Pct.

(** The loop [for member_address, member_investment in zip(member_addresses,
    member_investments)], the same in both payout activities.  [subject] is
    what the distribution is recorded under (the loan id or the DAO id).
    There is no handler in the loop: any exception leaves the activity. *)
Fixpoint pay_members (subject dao_id : string) (total_amount total_investment : Z)
    (members : list (string * Z)) (db : DB) (calls : list Call)
    (distributions : gmap string Z) (transaction_hashes : list string)
  : result (gmap string Z * list string) * (DB * list Call) :=
  match members with
  | [] => (Ok (distributions, transaction_hashes), (db, calls))
  | (member_address, member_investment) :: rest =>
      match get_member_voting_power_percentage service member_investment
              total_investment with
      | Raise e => (Raise e, (db, calls))
      | Ok voting_power_pct =>
          match calculate_member_share service voting_power_pct total_amount with
          | Raise e => (Raise e, (db, calls))
          | Ok member_share =>
              if (0 <? member_share)%Z
              then
                let distributions := <[member_address := member_share]> distributions in
                let sent := calls ++ [TransferFunds dao_id member_address member_share] in
                match transfer_funds movement_service calls dao_id member_address
                        member_share with
                | Raise e => (Raise e, (db, sent))
                | Ok tx_hash =>
                    match record_distribution service db subject member_address
                            member_share with
                    | Raise e => (Raise e, (db, sent))
                    | Ok db' =>
                        pay_members subject dao_id total_amount total_investment rest
                          db' sent distributions (transaction_hashes ++ [tx_hash])
                    end
                end
              else
                pay_members subject dao_id total_amount total_investment rest
                  db calls distributions transaction_hashes
          end
      end
  end.

Definition sum_investments (member_investments : list Z) : Z :=
  foldr Z.add 0%Z member_investments.

(** What both activities do once the total to distribute is known. *)
Definition distribute (zero_investment : string) (subject dao_id : string)
    (total_amount : Z) (member_addresses : list string) (member_investments : list Z)
    (db : DB) (calls : list Call)
  : result PayoutResult * (DB * list Call) :=
  if (total_amount =? 0)%Z
  then (Ok {| total_amount := 0;
              payouts := ∅;
              transaction_hashes := [];
              members_paid := None |}, (db, calls))
  else
    let total_investment := sum_investments member_investments in
    if (total_investment =? 0)%Z
    then (Raise (ValueError zero_investment), (db, calls))
    else
      match pay_members subject dao_id total_amount total_investment
              (zip member_addresses member_investments) db calls ∅ [] with
      | (Raise e, w) => (Raise e, w)
      | (Ok (distributions, transaction_hashes), w) =>
          match validate_distribution_sum service distributions total_amount with
          | Raise e => (Raise e, w)
          | Ok _ =>
              (Ok {| total_amount := total_amount;
                     payouts := distributions;
                     transaction_hashes := transaction_hashes;
                     members_paid := Some (size distributions) |}, w)
          end
      end.

(** [InterestDistributionService.calculate_total_interest(db, loan_id)] *)
Variable calculate_total_interest : DB -> string -> result Z.

(** [distribute_loan_interest(loan_id, dao_id, member_addresses,
    member_investments)] *)
Definition distribute_loan_interest (db : DB) (calls : list Call)
    (loan_id dao_id : string) (member_addresses : list string)
    (member_investments : list Z)
  : result PayoutResult * (DB * list Call) :=
  match calculate_total_interest db loan_id with
  | Raise e => (Raise e, (db, calls))
  | Ok total_interest =>
      distribute "Total investment is zero, cannot distribute interest"
        loan_id dao_id total_interest member_addresses member_investments db calls
  end.

(** [DAOLiquidationService.calculate_total_available_funds(db, dao_id,
    treasury_balance)] *)
Variable calculate_total_available_funds : DB -> string -> Z -> result Z.

(** [distribute_liquidation_funds(dao_id, member_addresses,
    member_investments, treasury_balance)] *)
Definition distribute_liquidation_funds (db : DB) (calls : list Call)
    (dao_id : string) (member_addresses : list string)
    (member_investments : list Z) (treasury_balance : Z)
  : result PayoutResult * (DB * list Call) :=
  match calculate_total_available_funds db dao_id treasury_balance with
  | Raise e => (Raise e, (db, calls))
  | Ok total_available_funds =>
      distribute "Total investment is zero, cannot distribute funds"
        dao_id dao_id total_available_funds member_addresses member_investments db calls
  end.
End Payouts.

(** Auxiliary definitions used in the statements below. *)

Local Open Scope Z_scope.

(** The members that are sent a transfer, with their shares: those of
    non-zero voting power whose share is not zero. *)
Fixpoint shares (total_voting_power late_fee_amount : Z) (dao_members : list Member)
  : result (list (Member * Z)) :=
  match dao_members with
  | [] => Ok []
  | member :: rest =>
      if voting_power member =? 0
      then shares total_voting_power late_fee_amount rest
      else
        s <- member_share (voting_power member) total_voting_power late_fee_amount ;;
        if s =? 0
        then shares total_voting_power late_fee_amount rest
        else (l <- shares total_voting_power late_fee_amount rest ;; Ok ((member, s) :: l))
  end.

Definition submitted (k : nat) : list Call :=
  repeat (SubmitSignedTransaction placeholder_transfer_tx) k.

(** The payouts recorded for the members that are sent a transfer: one for
    each transfer the network accepts, in order. *)
Fixpoint accepted (movement_service : MovementService) (calls : list Call)
    (l : list (Member * Z)) : list Payout :=
  match l with
  | [] => []
  | (member, s) :: rest =>
      let later := accepted movement_service
                     (calls ++ [SubmitSignedTransaction placeholder_transfer_tx]) rest in
      match submit_signed_transaction movement_service calls placeholder_transfer_tx with
      | Ok transaction_hash =>
          {| member_address := address member;
             payout_voting_power := voting_power member;
             share_amount := s;
             transaction_hash := transaction_hash |} :: later
      | Raise _ => later
      end
  end.

Definition paid (ps : list Payout) : Z := foldr Z.add 0 (share_amount <$> ps).

Definition payout (a : string) (p s : Z) : Payout :=
  {| member_address := a; payout_voting_power := p; share_amount := s;
     transaction_hash := "0xtx" |}.

(** Modelled from the spec: [InterestDistributionService] and
    [DAOLiquidationService], whose code is not in the sources.  Section 4.3:
    a party of weight [w] among weights of sum [s] receives
    [floor(w / s * total)]; the database keeps the list of recorded
    distributions. *)
Definition floor_share_service : PayoutService (list (string * string * Z)) (Z * Z) :=
  {| get_member_voting_power_percentage := fun investment total => Ok (investment, total);
     calculate_member_share := fun pct total => Ok (fst pct * total / snd pct);
     record_distribution := fun db subject member_address amount =>
       Ok (db ++ [(subject, member_address, amount)]);
     validate_distribution_sum := fun _ _ => Ok true |}.

Definition nothing : PayoutResult :=
  {| total_amount := 0; payouts := ∅; transaction_hashes := []; members_paid := None |}.

Definition not_distributed (dao_id : string) (late_fee_amount : Z) (n : nat)
    (why : string) : LateFeeDistribution :=
  {| lf_dao_id := dao_id; lf_late_fee_amount := late_fee_amount;
     total_distributed := None; members_count := n; distributions := None;
     distributed := false; error := Some why |}.

(** The total interest of the loans of the scenarios (the answer of
    [InterestDistributionService.calculate_total_interest]): the loan
    ["repaid"] has earned nothing, any other loan 500. *)
Definition scenario_interest (db : list (string * string * Z)) (loan_id : string) : result Z :=
  Ok (if bool_decide (loan_id = "repaid") then 0 else 500).

(** The funds available on liquidation in the scenarios (the answer of
    [DAOLiquidationService.calculate_total_available_funds]): the treasury
    balance. *)
Definition whole_treasury (db : list (string * string * Z)) (dao_id : string)
    (treasury_balance : Z) : result Z := Ok treasury_balance.

(** A payout service whose [validate_distribution_sum] answers [verdict]
    and whose other methods are those of [service]. *)
Definition with_verdict {DB Pct : Type} (service : PayoutService DB Pct)
    (verdict : gmap string Z -> Z -> bool) : PayoutService DB Pct :=
  {| get_member_voting_power_percentage := get_member_voting_power_percentage service;
     calculate_member_share := calculate_member_share service;
     record_distribution := record_distribution service;
     validate_distribution_sum := fun distributions total => Ok (verdict distributions total) |}.

End Distribution.

(** *** Risk profiles ([risk_activities], [payment_activities],
        [bnpl_activities.update_bnpl_risk_profile]) *)

Module Risk.

Record RiskProfile : Type := {
  participant_id : string;
  score : Z
}.

(** The methods of [RiskProfileService] the activities call, over a store
    [Store] of profiles.  A method returns the profile it wrote and the new
    store, or raises and leaves the store as it was. *)
Class RiskProfileService (Store : Type) : Type := {
  record_transaction : Store -> string -> result (RiskProfile * Store);
  record_bnpl_payment : Store -> string -> bool -> result (RiskProfile * Store);
  service_apply_decay : Store -> string -> result (RiskProfile * Store)
}.

Record DecayResult : Type := {
  users_affected : Z;
  total_decay_points : Z;
  completed : bool
}.

Record RiskUpdate : Type := {
  payer_new_score : option Z;
  recipient_new_score : option Z;
  risk_updated : bool;
  risk_error : option exn
}.

Record BnplRiskUpdate : Type := {
  new_score : option Z;
  on_time_payment : option bool;
  bnpl_risk_updated : bool;
  bnpl_risk_error : option exn
}.

Section Activities.
Context {Store : Type} `{RiskProfileService Store}.

(** The loop [for user_id in user_ids] of [apply_decay]. *)
Fixpoint decay_loop (user_ids : list string) (store : Store)
    (affected_count total_decay : Z) : result (Z * Z) * Store :=
  match user_ids with
  | [] => (Ok (affected_count, total_decay), store)
  | user_id :: rest =>
      match service_apply_decay store user_id with
      | Raise e => (Raise e, store)
      | Ok (profile, store') =>
          decay_loop rest store' (affected_count + 1)%Z (total_decay + 2)%Z
      end
  end.

(** [apply_decay(user_ids)] *)
Definition apply_decay (store : Store) (user_ids : list string) : result DecayResult * Store :=
  match decay_loop user_ids store 0%Z 0%Z with
  | (Raise e, store') => (Raise e, store')
  | (Ok (affected_count, total_decay), store') =>
      (Ok {| users_affected := affected_count;
             total_decay_points := total_decay;
             completed := true |}, store')
  end.

(** [update_risk_profiles(payer_id, recipient_id)]: an exception of the
    service is caught and reported in the result. *)
Definition update_risk_profiles (store : Store) (payer_id recipient_id : string)
  : RiskUpdate * Store :=
  match record_transaction store payer_id with
  | Raise e =>
      ({| payer_new_score := None; recipient_new_score := None;
          risk_updated := false; risk_error := Some e |}, store)
  | Ok (payer_profile, store1) =>
      match record_transaction store1 recipient_id with
      | Raise e =>
          ({| payer_new_score := None; recipient_new_score := None;
              risk_updated := false; risk_error := Some e |}, store1)
      | Ok (recipient_profile, store2) =>
          ({| payer_new_score := Some (score payer_profile);
              recipient_new_score := Some (score recipient_profile);
              risk_updated := true; risk_error := None |}, store2)
      end
  end.

(** [update_bnpl_risk_profile(payer_id, on_time)] *)
Definition update_bnpl_risk_profile (store : Store) (payer_id : string) (on_time : bool)
  : BnplRiskUpdate * Store :=
  match (if on_time
         then record_bnpl_payment store payer_id true
         else record_bnpl_payment store payer_id false) with
  | Raise e =>
      ({| new_score := None; on_time_payment := None;
          bnpl_risk_updated := false; bnpl_risk_error := Some e |}, store)
  | Ok (profile, store') =>
      ({| new_score := Some (score profile); on_time_payment := Some on_time;
          bnpl_risk_updated := true; bnpl_risk_error := None |}, store')
  end.
End Activities.

(** Modelled from the spec: [RiskProfileService], whose code
    ([services/risk_profile_service.py]) is not in the sources.  Section 4.5:
    every event applies [score = max(0, score + delta)]; a profile is created
    on the first scored event of a participant, with score 0 before it; decay
    is not applied to a score that is already 0. *)
Definition apply_delta (delta : Z) (store : gmap string Z) (user_id : string)
  : result (RiskProfile * gmap string Z) :=
  let new := Z.max 0 (default 0%Z (store !! user_id) + delta) in
  Ok ({| participant_id := user_id; score := new |}, <[user_id := new]> store).

Definition TRANSACTION_POINTS : Z := 1.
Definition BNPL_ON_TIME_POINTS : Z := 2.
Definition BNPL_LATE_PENALTY : Z := -3.
Definition DECAY_AMOUNT : Z := -2.

(** Modelled from the spec: [RiskProfileService.apply_decay].  Section 4.5:
    decay is not applied to a score that is already 0 (the docstring of the
    activity: "ensure decay only applies if profile > 0"). *)
Definition decay_spec (store : gmap string Z) (user_id : string)
  : result (RiskProfile * gmap string Z) :=
  let current := default 0%Z (store !! user_id) in
  if (0 <? current)%Z then apply_delta DECAY_AMOUNT store user_id
  else Ok ({| participant_id := user_id; score := current |}, store).

(** Modelled from the spec: the deltas of section 4.5, +1 for a payment, +2
    and -3 for an on-time and a late BNPL installment, -2 for decay. *)
#[export] Instance spec_service : RiskProfileService (gmap string Z) := {
  record_transaction := apply_delta TRANSACTION_POINTS;
  record_bnpl_payment store user_id on_time :=
    apply_delta (if on_time then BNPL_ON_TIME_POINTS else BNPL_LATE_PENALTY) store user_id;
  service_apply_decay := decay_spec
}.

(** The scored events of section 4.5, each with the activity that carries
    it.  The penalty of a rejected loan is set by policy; it is applied by
    [LoanService.reject_loan], called from [reject_loan_and_update_risk]. *)
Inductive Event : Type :=
| Payment (payer_id recipient_id : string)
| BnplInstallment (payer_id : string) (on_time : bool)
| Decay (user_ids : list string)
| LoanRejected (borrower_id : string) (penalty : Z).

Definition step (store : gmap string Z) (ev : Event) : gmap string Z :=
  match ev with
  | Payment payer_id recipient_id => snd (update_risk_profiles store payer_id recipient_id)
  | BnplInstallment payer_id on_time => snd (update_bnpl_risk_profile store payer_id on_time)
  | Decay user_ids => snd (apply_decay store user_ids)
  | LoanRejected borrower_id penalty =>
      match apply_delta penalty store borrower_id with
      | Ok (_, store') => store'
      | Raise _ => store
      end
  end.

Definition run (events : list Event) (store : gmap string Z) : gmap string Z :=
  foldl step store events.

Definition score_of (store : gmap string Z) (user_id : string) : Z :=
  default 0%Z (store !! user_id).

(** Auxiliary definitions used in the statements below. *)

Local Open Scope Z_scope.

Definition idle_and_active : gmap string Z := {[ "idle" := 0; "active" := 5 ]}.

Definition nonnegative (store : gmap string Z) : Prop :=
  forall user_id s, store !! user_id = Some s -> 0 <= s.

End Risk.

(** *** Users and payment requests as the activities read them *)

Module Accounts.

Record User : Type := {
  email : string
}.

Record PaymentRequest : Type := {
  payer_id : string
}.

End Accounts.

(** *** Installment reminders ([bnpl_activities.check_bnpl_installment_reminders]) *)

Module Reminders.
Import Bnpl Accounts.
Local Open Scope Z_scope.

Record ReminderCheck : Type := {
  reminders_sent : Z;
  checked_at : datetime
}.

(** The filter of the query for the upcoming payments:
    [status == "Pending"], [due_date >= now],
    [due_date <= now + reminder_window] with a window of three days. *)
Definition upcoming (now : datetime) (payment : BNPLPayment) : bool :=
  is_pending (status payment)
  && (now <=? due_date payment)
  && (due_date payment <=? now + timedelta_days 3).

Section Check.
Variable payment_requests : gmap string PaymentRequest.
Variable users : gmap string User.

(** The loop [for payment in upcoming_payments]: a payment whose request
    or whose payer is not found is skipped. *)
Fixpoint remind (upcoming_payments : list BNPLPayment) (reminders_sent : Z) : Z :=
  match upcoming_payments with
  | [] => reminders_sent
  | payment :: rest =>
      match payment_requests !! payment_request_id payment with
      | None => remind rest reminders_sent
      | Some payment_request =>
          match users !! payer_id payment_request with
          | None => remind rest reminders_sent
          | Some payer => remind rest (reminders_sent + 1)
          end
      end
  end.

(** [check_bnpl_installment_reminders()], run when the clock reads [now]
    over the table [payments] of BNPL payments. *)
Definition check_bnpl_installment_reminders (now : datetime)
    (payments : gmap string BNPLPayment) : ReminderCheck :=
  let upcoming_payments := filter (fun p => upcoming now p = true) (map_to_list payments).*2 in
  {| reminders_sent := remind upcoming_payments 0; checked_at := now |}.

(** The payments a reminder is sent for. *)
Definition reminded (now : datetime) (payment : BNPLPayment) : bool :=
  upcoming now payment
  && match payment_requests !! payment_request_id payment with
     | None => false
     | Some payment_request => bool_decide (is_Some (users !! payer_id payment_request))
     end.
End Check.

(** A payment request and its payer, used in the statements below. *)
Definition known_request : gmap string PaymentRequest :=
  {[ "req" := {| payer_id := "payer" |} ]}.

Definition known_payer : gmap string User := {[ "payer" := {| email := "payer@example.org" |} ]}.

End Reminders.

(** *** BNPL access applications ([bnpl_access_activities]) *)

Module Access.
Import Bnpl Accounts.

(** A row of [DAOMetadata], found by its [dao_id]. *)
Record DAORow : Type := {
  goal : string;
  terms : DAOMetadata
}.

Record Validated : Type := {
  valid : bool;
  validated_user_id : string;
  valid_daos : list string
}.

Record MembershipCheck : Type := {
  is_member : bool;
  member_of_daos : list string;
  user_address : string
}.

Section Applications.
(** How an f-string renders a list of [str] (its [repr]). *)
Variable repr : list string -> string.

(** The loop [for dao_id in dao_ids] of [validate_bnpl_application]. *)
Fixpoint check_daos (daos : gmap string DAORow) (dao_ids valid_daos invalid_daos : list string)
  : list string * list string :=
  match dao_ids with
  | [] => (valid_daos, invalid_daos)
  | dao_id :: rest =>
      match daos !! dao_id with
      | None => check_daos daos rest valid_daos (invalid_daos ++ [dao_id])
      | Some dao =>
          if negb (bool_decide (goal dao = "BNPL"))
          then check_daos daos rest valid_daos (invalid_daos ++ [dao_id])
          else if bool_decide (bnpl_payment_period_days (terms dao) = None)
                  || bool_decide (bnpl_num_installments (terms dao) = None)
          then check_daos daos rest valid_daos (invalid_daos ++ [dao_id])
          else check_daos daos rest (valid_daos ++ [dao_id]) invalid_daos
      end
  end.

(** [validate_bnpl_application(user_id, dao_ids)] *)
Definition validate_bnpl_application (users : gmap string User)
    (daos : gmap string DAORow) (user_id : string) (dao_ids : list string)
  : result Validated :=
  match users !! user_id with
  | None => Raise (ValueError ("User " +:+ user_id +:+ " not found"))
  | Some user =>
      let '(valid_daos, invalid_daos) := check_daos daos dao_ids [] [] in
      match invalid_daos with
      | _ :: _ =>
          Raise (ValueError ("Invalid or unconfigured DAOs: " +:+ repr invalid_daos))
      | [] =>
          Ok {| valid := true; validated_user_id := user_id; valid_daos := valid_daos |}
      end
  end.

(** [MovementService.get_account_resources(user_address)]: the answer to
    the query number [n] of the activity, as the ["type"] entries of its
    ["resources"] ([""] for a resource without one, [[]] for an answer
    without resources), or the exception it raises. *)
Variable get_account_resources : nat -> string -> result (list string).

(** The loop [for dao_id in dao_ids] of [check_dao_membership]; a query
    that raises is skipped. *)
Fixpoint membership_loop (user_address : string) (dao_ids : list string) (n : nat)
    (member_of_daos : list string) : list string :=
  match dao_ids with
  | [] => member_of_daos
  | dao_id :: rest =>
      match get_account_resources n user_address with
      | Raise _ => membership_loop user_address rest (S n) member_of_daos
      | Ok resources =>
          let member_resource_type := dao_id +:+ "::dao::MemberResource" in
          let is_member := existsb (String.prefix member_resource_type) resources in
          if is_member
          then membership_loop user_address rest (S n) (member_of_daos ++ [dao_id])
          else membership_loop user_address rest (S n) member_of_daos
      end
  end.

(** [check_dao_membership(user_id, dao_ids)]; [wallets] gives the address of
    the first wallet of a user. *)
Definition check_dao_membership (wallets : gmap string string) (user_id : string)
    (dao_ids : list string) : result MembershipCheck :=
  match wallets !! user_id with
  | None => Raise (ValueError ("No wallet found for user " +:+ user_id))
  | Some user_address =>
      match membership_loop user_address dao_ids 0 [] with
      | _ :: _ as member_of_daos =>
          Raise (ValueError ("User " +:+ user_id +:+ " is a member of DAOs: "
                             +:+ repr member_of_daos
                             +:+ ". Cannot apply for BNPL access to own DAOs."))
      | [] =>
          Ok {| is_member := false; member_of_daos := []; user_address := user_address |}
      end
  end.
End Applications.

(** Tables and networks used in the statements below. *)

Local Open Scope Z_scope.

(** The DAOs the loop of [validate_bnpl_application] takes for valid: found,
    of goal ["BNPL"], with both payment terms set. *)
Definition acceptable (daos : gmap string DAORow) (dao_id : string) : bool :=
  match daos !! dao_id with
  | None => false
  | Some dao =>
      bool_decide (goal dao = "BNPL")
      && negb (bool_decide (bnpl_payment_period_days (terms dao) = None))
      && negb (bool_decide (bnpl_num_installments (terms dao) = None))
  end.

Definition applicant : gmap string User := {[ "user" := {| email := "user@example.org" |} ]}.

(** A BNPL DAO whose terms are set to 28 days and 0 installments. *)
Definition zero_installments : gmap string DAORow :=
  {[ "dao" := {| goal := "BNPL"; terms := configured 28 0 |} ]}.

(** A rendering of a list of names, for the messages of the scenarios. *)
Definition comma_separated (l : list string) : string :=
  "[" +:+ String.concat ", " l +:+ "]".

(** A network that cannot be reached. *)
Definition unreachable (n : nat) (address : string) : result (list string) :=
  Raise (Exception "connection refused").

End Access.

(** *** Pre-signed treasury operations and balances ([x402_activities]) *)

Module Treasury.
Import Chain.

(** A row of [BNPLAccess]; the table is the list of its rows in the order
    in which a query returns them. *)
Record BNPLAccess : Type := {
  access_id : string;
  access_dao_id : string;
  access_user_id : string;
  access_status : string;
  treasury_operation_bcs : option string
}.

Record Stored : Type := {
  stored_application_id : string;
  stored_dao_id : string;
  stored_user_id : string;
  stored : bool
}.

Definition with_operation (bnpl_access : BNPLAccess) (treasury_operation_bcs : string)
  : BNPLAccess :=
  {| access_id := access_id bnpl_access;
     access_dao_id := access_dao_id bnpl_access;
     access_user_id := access_user_id bnpl_access;
     access_status := access_status bnpl_access;
     treasury_operation_bcs := Some treasury_operation_bcs |}.

(** [store_treasury_operation(application_id, dao_id, user_id,
    treasury_operation_bcs)] *)
Definition store_treasury_operation (table : list BNPLAccess)
    (application_id dao_id user_id treasury_operation_bcs : string)
  : result (Stored * list BNPLAccess) :=
  match list_find (fun row => access_id row = application_id
                              /\ access_dao_id row = dao_id
                              /\ access_user_id row = user_id) table with
  | None =>
      Raise (ValueError ("BNPLAccess record not found: app=" +:+ application_id
                         +:+ ", dao=" +:+ dao_id +:+ ", user=" +:+ user_id))
  | Some (i, bnpl_access) =>
      Ok ({| stored_application_id := application_id;
             stored_dao_id := dao_id;
             stored_user_id := user_id;
             stored := true |},
          <[i := with_operation bnpl_access treasury_operation_bcs]> table)
  end.

Record Executed : Type := {
  success : bool;
  executed_transaction_hash : string;
  executed_dao_id : string;
  executed_merchant_address : string;
  executed_amount_token : Z;
  timestamp : Z
}.

(** [execute_dao_merchant_payment(dao_id, merchant_address, amount_token,
    user_id, payment_request_id)], run when the clock reads [now]. *)
Definition execute_dao_merchant_payment (movement_service : MovementService) (now : Z)
    (table : list BNPLAccess) (calls : list Call)
    (dao_id merchant_address : string) (amount_token : Z)
    (user_id payment_request_id : string) : result Executed * list Call :=
  match list_find (fun row => access_dao_id row = dao_id
                              /\ access_user_id row = user_id
                              /\ access_status row = "Approved") table with
  | None =>
      (Raise (ValueError ("No approved BNPL access found for user " +:+ user_id
                          +:+ " and DAO " +:+ dao_id)), calls)
  | Some (_, bnpl_access) =>
      match treasury_operation_bcs bnpl_access with
      | None | Some "" =>
          (Raise (ValueError ("No pre-signed treasury operation found for BNPL access "
                              +:+ access_id bnpl_access)), calls)
      | Some operation =>
          let sent := calls ++ [SubmitSignedTransaction operation] in
          match submit_signed_transaction movement_service calls operation with
          | Raise e => (Raise e, sent)
          | Ok "" =>
              (Raise (Exception "No transaction hash returned from Movement Network"), sent)
          | Ok transaction_hash =>
              (Ok {| success := true;
                     executed_transaction_hash := transaction_hash;
                     executed_dao_id := dao_id;
                     executed_merchant_address := merchant_address;
                     executed_amount_token := amount_token;
                     timestamp := now |}, sent)
          end
      end
  end.

(** A resource of an account: its ["type"] ([""] when it has none) and the
    outcome of [int(coin.get("value", 0))] on its data: 0 for data without
    the entry, an exception for an entry that is no number. *)
Record Resource : Type := {
  resource_type : string;
  coin_value : result Z
}.

Record BalanceCheck : Type := {
  checked_payer_address : string;
  required_amount : Z;
  available_balance : Z;
  sufficient_balance : bool
}.

(** [sub in s] on strings. *)
Fixpoint contains (sub s : string) : bool :=
  String.prefix sub s
  || match s with
     | EmptyString => false
     | String _ rest => contains sub rest
     end.

(** The loop [for resource in resources["resources"]]: the balance of the
    first coin store of [AptosCoin], 0 when there is none. *)
Fixpoint find_move_balance (resources : list Resource) : result Z :=
  match resources with
  | [] => Ok 0%Z
  | resource :: rest =>
      if contains "CoinStore" (resource_type resource)
         && contains "AptosCoin" (resource_type resource)
      then coin_value resource
      else find_move_balance rest
  end.

(** [str(e)] *)
Definition str_of_exn (e : exn) : string :=
  match e with
  | ValueError msg | OverflowError msg | ZeroDivisionError msg | Exception msg => msg
  end.

(** [check_installment_balance(payer_address, amount_token)];
    [get_account_resources] gives the resources of the answer of the
    network ([[]] for an answer without any), or the exception raised. *)
Definition check_installment_balance
    (get_account_resources : string -> result (list Resource))
    (payer_address : string) (amount_token : Z) : result BalanceCheck :=
  let attempt :=
    resources <- get_account_resources payer_address ;;
    move_balance <- find_move_balance resources ;;
    if (move_balance <? amount_token)%Z
    then Raise (ValueError ("Insufficient balance: have " +:+ pretty move_balance
                            +:+ " tokens, need " +:+ pretty amount_token +:+ " tokens"))
    else Ok {| checked_payer_address := payer_address;
               required_amount := amount_token;
               available_balance := move_balance;
               sufficient_balance := true |} in
  match attempt with
  | Ok r => Ok r
  | Raise (ValueError msg) => Raise (ValueError msg)
  | Raise e => Raise (ValueError ("Failed to check balance: " +:+ str_of_exn e))
  end.

(** An access table and accounts used in the statements below. *)

Local Open Scope Z_scope.

Definition approved_access : BNPLAccess :=
  {| access_id := "app"; access_dao_id := "dao"; access_user_id := "user";
     access_status := "Approved"; treasury_operation_bcs := None |}.

Definition coin_store (value : Z) : Resource :=
  {| resource_type := "0x1::coin::CoinStore<0x1::aptos_coin::AptosCoin>";
     coin_value := Ok value |}.

End Treasury.

(** *** Wallet addresses ([privy_activities]) *)

Module Privy.
Local Open Scope char_scope.

(** [Py_ISSPACE]: the white space [int] skips in an ASCII string. *)
Definition py_isspace (c : ascii) : bool :=
  let n := nat_of_ascii c in (n =? 32)%nat || ((9 <=? n)%nat && (n <=? 13)%nat).

(** The characters with a digit value below 16. *)
Definition hex_digit (c : ascii) : bool :=
  let n := nat_of_ascii c in
  ((48 <=? n)%nat && (n <=? 57)%nat)
  || ((65 <=? n)%nat && (n <=? 70)%nat)
  || ((97 <=? n)%nat && (n <=? 102)%nat).

Fixpoint skip_spaces (str : string) : string :=
  match str with
  | String c rest => if py_isspace c then skip_spaces rest else str
  | EmptyString => str
  end.

(** The loop of [long_from_string_base] over digits and underscores:
    [None] on a double underscore, otherwise the last character read and
    what is left unread. *)
Fixpoint scan_digits (p : string) (prev : ascii) : option (ascii * string) :=
  match p with
  | String c rest =>
      if hex_digit c || Ascii.eqb c "_"
      then if Ascii.eqb c "_" && Ascii.eqb prev "_" then None
           else scan_digits rest c
      else Some (prev, p)
  | EmptyString => Some (prev, p)
  end.

(** [*str == c] and [++str] on the rest of a string. *)
Definition starts_with (c : ascii) (str : string) : bool :=
  match str with
  | String d _ => Ascii.eqb d c
  | EmptyString => false
  end.

Definition advance (str : string) : string :=
  match str with
  | String _ rest => rest
  | EmptyString => str
  end.

(** [long_from_string_base] for base 16, as far as it accepts or refuses:
    no leading, double or trailing underscore, at least one character
    read. *)
Definition long_from_string_base (str : string) : option string :=
  if starts_with "_" str then None
  else match scan_digits str "000" with
       | None => None
       | Some (prev, rest) =>
           if Ascii.eqb prev "_" then None
           else if (String.length rest =? String.length str)%nat then None
           else Some rest
       end.

(** Whether [int(s, 16)] returns for a string [s] of ASCII characters (it
    raises [ValueError] otherwise): white space, a sign, the prefix [0x]
    with one underscore after it, the digits, white space. *)
Definition int_16_returns (s : string) : bool :=
  let str := skip_spaces s in
  let str := if starts_with "+" str || starts_with "-" str then advance str else str in
  let str :=
    if starts_with "0" str
       && (starts_with "x" (advance str) || starts_with "X" (advance str))
    then let str := advance (advance str) in
         if starts_with "_" str then advance str else str
    else str in
  match long_from_string_base str with
  | None => false
  | Some rest =>
      match skip_spaces rest with
      | EmptyString => true
      | String _ _ => false
      end
  end.

Definition is_ascii (c : ascii) : bool := (nat_of_ascii c <? 128)%nat.

(** [validate_wallet_address(address, chain_id)] on an address of ASCII
    characters; [None] for an address with other characters, which [len]
    and [int] read as Unicode. *)
Definition validate_wallet_address (address : string) (chain_id : Z) : option bool :=
  if negb (forallb is_ascii (list_ascii_of_string address)) then None
  else if negb (String.prefix "0x" address) then Some false
  else if negb (String.length address =? 42)%nat then Some false
  else Some (int_16_returns address).

Record CreateEmbeddedWalletInput : Type := {
  user_id : string;
  privy_user_id : string;
  chain_id : Z
}.

Record WalletData : Type := {
  wallet_user_id : string;
  wallet_privy_user_id : option string;
  wallet_address : string;
  wallet_chain_id : Z;
  is_embedded : bool
}.

(** [s * n] on strings. *)
Fixpoint times (s : string) (n : nat) : string :=
  match n with
  | O => EmptyString
  | S n' => (s ++ times s n')%string
  end.

(** [create_embedded_wallet(input)] *)
Definition create_embedded_wallet (input : CreateEmbeddedWalletInput) : WalletData :=
  {| wallet_user_id := user_id input;
     wallet_privy_user_id := Some (privy_user_id input);
     wallet_address := ("0x" ++ times "0" 40)%string;
     wallet_chain_id := chain_id input;
     is_embedded := true |}.

End Privy.

(** *** The first installment and the collection of treasury operations
        ([bnpl_activities.process_first_bnpl_payment],
        [x402_activities.collect_dao_treasury_operation]) *)

Module Purchase.
Import Chain Treasury.

Definition placeholder_signed_tx : string := "0xplaceholder_signed_tx".

(** [process_first_bnpl_payment(payer_address, recipient_address,
    installment_amount)]: the hash of the answer, [""] when it has none. *)
Definition process_first_bnpl_payment (movement_service : MovementService)
    (calls : list Call) (payer_address recipient_address : string)
    (installment_amount : Z) : result string * list Call :=
  (submit_signed_transaction movement_service calls placeholder_signed_tx,
   calls ++ [SubmitSignedTransaction placeholder_signed_tx]).

Record Collected : Type := {
  collected_dao_id : string;
  collected_user_id : string;
  max_amount : Z;
  collected_operation_bcs : string;
  collected : bool
}.

(** [collect_dao_treasury_operation(dao_id, user_id, max_amount)];
    [get_treasury_operation] is the call of the DAO contract, giving the
    ["treasury_operation_bcs"] entry of its answer ([""] when it has none)
    or the exception raised. *)
Definition collect_dao_treasury_operation
    (get_treasury_operation : string -> string -> Z -> result string)
    (dao_id user_id : string) (max_amount : Z) : result Collected :=
  let attempt :=
    treasury_operation_bcs <- get_treasury_operation dao_id user_id max_amount ;;
    if bool_decide (treasury_operation_bcs = "")
    then Raise (Exception ("DAO " +:+ dao_id
                           +:+ " did not return pre-signed treasury operation for user "
                           +:+ user_id))
    else Ok {| collected_dao_id := dao_id;
               collected_user_id := user_id;
               max_amount := max_amount;
               collected_operation_bcs := treasury_operation_bcs;
               collected := true |} in
  match attempt with
  | Ok r => Ok r
  | Raise e =>
      Raise (Exception ("Failed to collect pre-signed treasury operation from DAO "
                        +:+ dao_id +:+ ": " +:+ str_of_exn e))
  end.

End Purchase.

(** ** Part II: properties *)

(** *** Rounding to binary64 *)

Section Binary64.
Import PyFloat.
Local Open Scope Q_scope.

Lemma pow2_pos e : 0 < pow2 e.
Proof. apply Qpower_0_lt. reflexivity. Qed.

Lemma pow2_add a b : pow2 (a + b) == pow2 a * pow2 b.
Proof. apply Qpower_plus. discriminate. Qed.

Lemma pow2_le a b : (a <= b)%Z -> pow2 a <= pow2 b.
Proof. intros H. apply Qpower_le_compat_l; [exact H | discriminate]. Qed.

Lemma pow2_lt_inv a b : pow2 a < pow2 b -> (a < b)%Z.
Proof.
  intros H. destruct (Z_lt_le_dec a b) as [|Hle]; [assumption|].
  apply pow2_le in Hle. lra.
Qed.

Lemma pow2_Z e : (0 <= e)%Z -> pow2 e == inject_Z (2 ^ e).
Proof. intros H. unfold pow2. rewrite Zpower_Qpower by exact H. reflexivity. Qed.

Lemma pow2_sub a b : pow2 (a - b) == pow2 a / pow2 b.
Proof.
  assert (Hb := pow2_pos b).
  assert (E : pow2 a == pow2 (a - b) * pow2 b).
  { rewrite <- pow2_add. replace (a - b + b)%Z with a by lia. reflexivity. }
  rewrite E. field. lra.
Qed.

Lemma Q_num_den (q : Q) : q * inject_Z (Zpos (Qden q)) == inject_Z (Qnum q).
Proof.
  destruct q as [n d]. unfold Qeq, Qmult, inject_Z. simpl. lia.
Qed.

Lemma ilog2_spec q : 0 < q -> pow2 (ilog2 q) <= q /\ q < pow2 (ilog2 q + 1).
Proof.
  intros Hq.
  pose proof (Q_num_den q) as E.
  set (n := Qnum q) in *. set (d := Zpos (Qden q)) in *.
  assert (Hd : (0 < d)%Z) by (subst d; lia).
  assert (Hn : (0 < n)%Z).
  { subst n. destruct q as [qn qd]. unfold Qlt in Hq. simpl in *. lia. }
  destruct (Z.log2_spec n Hn) as [Hn1 Hn2].
  destruct (Z.log2_spec d Hd) as [Hd1 Hd2].
  pose proof (Z.log2_nonneg n) as Ln. pose proof (Z.log2_nonneg d) as Ld.
  set (ln := Z.log2 n) in *. set (ld := Z.log2 d) in *.
  (* bounds on numerator and denominator as rationals *)
  assert (Bn1 : pow2 ln <= inject_Z n) by (rewrite pow2_Z by lia; rewrite <- Zle_Qle; exact Hn1).
  assert (Bn2 : inject_Z n < pow2 (ln + 1)).
  { rewrite pow2_Z by lia. rewrite <- Zlt_Qlt. replace (ln + 1)%Z with (Z.succ ln) by lia. exact Hn2. }
  assert (Bd1 : pow2 ld <= inject_Z d) by (rewrite pow2_Z by lia; rewrite <- Zle_Qle; exact Hd1).
  assert (Bd2 : inject_Z d < pow2 (ld + 1)).
  { rewrite pow2_Z by lia. rewrite <- Zlt_Qlt. replace (ld + 1)%Z with (Z.succ ld) by lia. exact Hd2. }
  assert (Up : q < pow2 (ln - ld + 1)).
  { apply (Qmult_lt_r _ _ (pow2 ld) (pow2_pos ld)).
    rewrite <- pow2_add. replace (ln - ld + 1 + ld)%Z with (ln + 1)%Z by lia.
    apply Qle_lt_trans with (q * inject_Z d); [|rewrite E; exact Bn2].
    apply Qmult_le_l; [exact Hq | exact Bd1]. }
  assert (Lo : pow2 (ln - ld - 1) <= q).
  { apply (Qmult_le_r _ _ (pow2 (ld + 1)) (pow2_pos (ld + 1))).
    rewrite <- pow2_add. replace (ln - ld - 1 + (ld + 1))%Z with ln by lia.
    apply Qle_trans with (q * inject_Z d); [rewrite E; exact Bn1|].
    apply Qmult_le_l; [exact Hq | apply Qlt_le_weak; exact Bd2]. }
  unfold ilog2. fold n d ln ld.
  destruct (Qle_bool (pow2 (ln - ld)) q) eqn:T.
  - apply Qle_bool_iff in T. split; assumption.
  - split; [exact Lo|].
    replace (ln - ld - 1 + 1)%Z with (ln - ld)%Z by lia.
    apply Qnot_le_lt. intros C. apply Qle_bool_iff in C. congruence.
Qed.

Lemma ilog2_unique q e : pow2 e <= q -> q < pow2 (e + 1) -> ilog2 q = e.
Proof.
  intros H1 H2.
  assert (Hq : 0 < q) by (pose proof (pow2_pos e); lra).
  destruct (ilog2_spec q Hq) as [S1 S2].
  assert (e < ilog2 q + 1)%Z by (apply pow2_lt_inv; lra).
  assert (ilog2 q < e + 1)%Z by (apply pow2_lt_inv; lra).
  lia.
Qed.

Lemma ilog2_comp q q' : 0 < q -> q == q' -> ilog2 q = ilog2 q'.
Proof.
  intros Hq E. assert (Hq' : 0 < q') by (rewrite <- E; exact Hq).
  destruct (ilog2_spec q' Hq') as [S1 S2].
  apply ilog2_unique; rewrite E; assumption.
Qed.

(** Round-half-even on rationals. *)
Lemma rne_floor_bounds s : (Qfloor s <= rne s <= Qfloor s + 1)%Z.
Proof.
  unfold rne. destruct (Qcompare _ _); [destruct (Z.even _)| |]; lia.
Qed.

Lemma rne_err s : inject_Z (rne s) - s <= 1 # 2 /\ s - inject_Z (rne s) <= 1 # 2.
Proof.
  pose proof (Qfloor_le s) as F1. pose proof (Qlt_floor s) as F2.
  rewrite inject_Z_plus in F2. change (inject_Z 1) with 1 in F2. unfold rne.
  destruct (Qcompare_spec (s - inject_Z (Qfloor s)) (1 # 2)) as [E|E|E].
  - destruct (Z.even (Qfloor s));
      [|rewrite inject_Z_plus; change (inject_Z 1) with 1]; split; lra.
  - split; lra.
  - rewrite inject_Z_plus. change (inject_Z 1) with 1. split; lra.
Qed.

Lemma rne_le_int s N : s <= inject_Z N -> (rne s <= N)%Z.
Proof.
  intros H.
  pose proof (Qfloor_le s) as F1.
  assert (FN : (Qfloor s <= N)%Z) by (rewrite Zle_Qle; lra).
  destruct (Z.eq_dec (Qfloor s) N) as [EN|NE].
  - (* then s is the integer N itself *)
    assert (E : s - inject_Z (Qfloor s) < 1 # 2) by (rewrite EN in *; lra).
    unfold rne. destruct (Qcompare_spec (s - inject_Z (Qfloor s)) (1 # 2)); try lra. lia.
  - pose proof (rne_floor_bounds s). lia.
Qed.

Lemma rne_ge_int s N : inject_Z N <= s -> (N <= rne s)%Z.
Proof.
  intros H. apply Qfloor_resp_le in H. rewrite Qfloor_Z in H.
  pose proof (rne_floor_bounds s). lia.
Qed.

Lemma rne_Z n : rne (inject_Z n) = n.
Proof.
  apply Z.le_antisymm; [apply rne_le_int | apply rne_ge_int]; lra.
Qed.

Lemma rne_comp s t : s == t -> rne s = rne t.
Proof.
  intros E. unfold rne.
  assert (F : Qfloor s = Qfloor t) by (apply Qfloor_comp; exact E).
  assert (C : Qcompare (s - inject_Z (Qfloor s)) (1 # 2)
              = Qcompare (t - inject_Z (Qfloor t)) (1 # 2)).
  { apply Qcompare_comp; [rewrite F, E|]; reflexivity. }
  rewrite C, F. reflexivity.
Qed.

Lemma scaled_repr r n k u :
  r == inject_Z n * pow2 k -> (u <= k)%Z ->
  r / pow2 u == inject_Z (n * 2 ^ (k - u)).
Proof.
  intros E Hu. pose proof (pow2_pos u) as Pu.
  rewrite inject_Z_mult, <- pow2_Z by lia.
  rewrite E, pow2_sub. field. lra.
Qed.

Lemma ulp_exp_pos q : 0 < q -> ulp_exp q = Z.max (ilog2 q - 52) emin.
Proof.
  intros Hq. unfold ulp_exp, prec.
  rewrite (ilog2_comp (Qabs q) q); [reflexivity| |apply Qabs_pos; lra].
  rewrite Qabs_pos; lra.
Qed.

Lemma round64_pos q :
  0 < q -> round64 q == inject_Z (rne (q / pow2 (ulp_exp q))) * pow2 (ulp_exp q).
Proof.
  intros Hq. unfold round64.
  destruct (Qeq_bool q 0) eqn:Z0; [|reflexivity].
  apply Qeq_bool_eq in Z0. lra.
Qed.

Lemma round64_0 q : q == 0 -> round64 q == 0.
Proof.
  intros E. unfold round64. apply Qeq_bool_iff in E. rewrite E. reflexivity.
Qed.

Lemma ulp_exp_le_repr q n k :
  0 < q -> q <= inject_Z n * pow2 k -> (n < 2 ^ 53)%Z -> (emin <= k)%Z ->
  (ulp_exp q <= k)%Z.
Proof.
  intros Hq Hr Hn Hk. rewrite ulp_exp_pos by exact Hq.
  destruct (ilog2_spec q Hq) as [S1 _].
  assert (B : inject_Z n * pow2 k < pow2 (53 + k)).
  { rewrite pow2_add. apply Qmult_lt_r; [apply pow2_pos|].
    rewrite pow2_Z by lia. rewrite <- Zlt_Qlt. exact Hn. }
  assert (ilog2 q < 53 + k)%Z by (apply pow2_lt_inv; lra).
  lia.
Qed.

(** Rounding never crosses a representable value: upper bounds. *)
Lemma round64_le q r n k :
  0 < q -> q <= r -> r == inject_Z n * pow2 k -> (n < 2 ^ 53)%Z -> (emin <= k)%Z ->
  round64 q <= r.
Proof.
  intros Hq Hr E Hn Hk.
  assert (Hu : (ulp_exp q <= k)%Z) by (apply (ulp_exp_le_repr q n k); try assumption; lra).
  rewrite round64_pos by exact Hq.
  set (u := ulp_exp q) in *. pose proof (pow2_pos u) as Pu.
  pose proof (scaled_repr r n k u E Hu) as Sr.
  assert (Hs : q / pow2 u <= inject_Z (n * 2 ^ (k - u))).
  { rewrite <- Sr. apply Qmult_le_r with (z := pow2 u); [exact Pu|].
    field_simplify; lra. }
  apply rne_le_int in Hs. rewrite Zle_Qle in Hs.
  apply Qle_trans with (inject_Z (n * 2 ^ (k - u)) * pow2 u).
  - apply Qmult_le_r; assumption.
  - rewrite <- Sr. field_simplify; lra.
Qed.

(** Rounding never crosses a representable value: lower bounds. *)
Lemma round64_ge q r n k :
  0 < q -> r <= q -> r == inject_Z n * pow2 k -> (0 < n < 2 ^ 53)%Z -> (emin <= k)%Z ->
  r <= round64 q.
Proof.
  intros Hq Hr E Hn Hk.
  assert (Pr : 0 < r).
  { rewrite E. apply Qmult_lt_0_compat; [|apply pow2_pos].
    change 0 with (inject_Z 0). rewrite <- Zlt_Qlt. lia. }
  rewrite round64_pos by exact Hq. rewrite ulp_exp_pos by exact Hq.
  destruct (ilog2_spec q Hq) as [Q1 Q2]. destruct (ilog2_spec r Pr) as [R1 R2].
  set (eq := ilog2 q) in *. set (er := ilog2 r) in *.
  set (u := Z.max (eq - 52) emin). pose proof (pow2_pos u) as Pu.
  assert (Her : (er <= eq)%Z) by (assert (er < eq + 1)%Z by (apply pow2_lt_inv; lra); lia).
  assert (Hk' : (er - 52 <= k)%Z).
  { pose proof (ulp_exp_le_repr r n k Pr) as U. rewrite ulp_exp_pos in U by exact Pr.
    fold er in U. assert (Z.max (er - 52) emin <= k)%Z by (apply U; try lia; lra). lia. }
  (* r >= 2^emin, hence so is q and its binade starts at or above emin *)
  assert (Hmin : (emin <= eq)%Z).
  { assert (pow2 k <= r).
    { rewrite E. rewrite <- (Qmult_1_l (pow2 k)) at 1.
      apply Qmult_le_r; [apply pow2_pos|]. change 1 with (inject_Z 1).
      rewrite <- Zle_Qle. lia. }
    assert (k < eq + 1)%Z by (apply pow2_lt_inv; lra). lia. }
  assert (Hu : (u <= eq)%Z) by (subst u; lia).
  destruct (Z.eq_dec er eq) as [Same|Diff].
  - (* same binade: r is on the grid of q *)
    assert (Hku : (u <= k)%Z) by (subst u; lia).
    pose proof (scaled_repr r n k u E Hku) as Sr.
    assert (Hs : inject_Z (n * 2 ^ (k - u)) <= q / pow2 u).
    { rewrite <- Sr. apply Qmult_le_r with (z := pow2 u); [exact Pu|].
      field_simplify; lra. }
    apply rne_ge_int in Hs. rewrite Zle_Qle in Hs.
    apply Qle_trans with (inject_Z (n * 2 ^ (k - u)) * pow2 u).
    + rewrite <- Sr. field_simplify; lra.
    + apply Qmult_le_r; assumption.
  - (* r lies below the start 2^eq of the binade of q, which is on the grid *)
    assert (Sb : pow2 eq / pow2 u == inject_Z (1 * 2 ^ (eq - u))).
    { apply scaled_repr; [rewrite Qmult_1_l; reflexivity | exact Hu]. }
    assert (Hs : inject_Z (1 * 2 ^ (eq - u)) <= q / pow2 u).
    { rewrite <- Sb. apply Qmult_le_r with (z := pow2 u); [exact Pu|].
      field_simplify; lra. }
    apply rne_ge_int in Hs. rewrite Zle_Qle in Hs.
    assert (r <= pow2 eq).
    { apply Qle_trans with (pow2 (er + 1)); [lra | apply pow2_le; lia]. }
    apply Qle_trans with (inject_Z (1 * 2 ^ (eq - u)) * pow2 u).
    + rewrite <- Sb. field_simplify; lra.
    + apply Qmult_le_r; assumption.
Qed.

Lemma round64_nonneg q : 0 <= q -> 0 <= round64 q.
Proof.
  intros Hq. destruct (Qeq_dec q 0) as [Z0|NZ].
  - rewrite round64_0 by exact Z0. lra.
  - assert (P : 0 < q) by (apply Qlt_leneq; split; [exact Hq | intros C; apply NZ; symmetry; exact C]).
    rewrite round64_pos by exact P.
    apply Qmult_le_0_compat; [|apply Qlt_le_weak, pow2_pos].
    change 0 with (inject_Z 0). rewrite <- Zle_Qle. apply rne_ge_int.
    apply Qle_shift_div_l; [apply pow2_pos|]. change (inject_Z 0) with 0. lra.
Qed.

(** A non-negative binary64 value is its own rounding. *)
Lemma round64_exact r n k :
  r == inject_Z n * pow2 k -> (0 <= n < 2 ^ 53)%Z -> (emin <= k)%Z -> round64 r == r.
Proof.
  intros E Hn Hk. destruct (Z.eq_dec n 0%Z) as [N0|NN].
  - assert (Z0 : r == 0) by (rewrite E, N0; change (inject_Z 0) with 0; lra).
    rewrite (round64_0 r Z0). symmetry. exact Z0.
  - assert (Pr : 0 < r).
    { rewrite E. apply Qmult_lt_0_compat; [|apply pow2_pos].
      change 0 with (inject_Z 0). rewrite <- Zlt_Qlt. lia. }
    apply Qle_antisym.
    + apply (round64_le r r n k); try assumption; try lia; lra.
    + apply (round64_ge r r n k); try assumption; try lia; lra.
Qed.

(** Inside a normal binade the rounding is explicit. *)
Lemma round64_binade q e :
  pow2 e <= q -> q < pow2 (e + 1) -> (emin <= e - 52)%Z ->
  round64 q == inject_Z (rne (q / pow2 (e - 52))) * pow2 (e - 52).
Proof.
  intros H1 H2 He. assert (Hq : 0 < q) by (pose proof (pow2_pos e); lra).
  rewrite round64_pos by exact Hq. rewrite ulp_exp_pos by exact Hq.
  rewrite (ilog2_unique q e H1 H2). replace (Z.max (e - 52) emin) with (e - 52)%Z by lia.
  reflexivity.
Qed.

End Binary64.

Section Binary64Use.
Import PyFloat.
Local Open Scope Q_scope.

Lemma round64_le0 q r n k :
  0 <= q -> q <= r -> r == inject_Z n * pow2 k -> (0 <= n < 2 ^ 53)%Z -> (emin <= k)%Z ->
  round64 q <= r.
Proof.
  intros Hq Hr E Hn Hk. destruct (Qeq_dec q 0) as [Z0|NZ].
  - rewrite round64_0 by exact Z0. lra.
  - apply (round64_le q r n k); try assumption; try lia.
    apply Qlt_leneq; split; [exact Hq | intros C; apply NZ; symmetry; exact C].
Qed.

Lemma Qlt_bool_iff x y : Qlt_bool x y = true <-> x < y.
Proof.
  unfold Qlt_bool. rewrite negb_true_iff. split.
  - intros F. apply Qnot_le_lt. intros C. apply Qle_bool_iff in C. congruence.
  - intros L. destruct (Qle_bool y x) eqn:T; [|reflexivity].
    apply Qle_bool_iff in T. lra.
Qed.

Lemma pow2_53 : pow2 53 == 9007199254740992.
Proof. reflexivity. Qed.

Lemma pow2_53_emax : pow2 53 < pow2 emax.
Proof.
  apply Qlt_le_trans with (pow2 54); [|apply pow2_le; unfold emax; lia].
  reflexivity.
Qed.

(** A rounded value between 0 and 2^53 does not overflow. *)
Lemma of_Q_finite q :
  0 <= round64 q -> round64 q <= pow2 53 -> of_Q q = Finite (round64 q).
Proof.
  intros H0 H1. unfold of_Q.
  destruct (Qle_bool (pow2 emax) (Qabs (round64 q))) eqn:T; [|reflexivity].
  apply Qle_bool_iff in T. rewrite Qabs_pos in T by exact H0.
  pose proof pow2_53_emax. lra.
Qed.

Lemma Qfloor_unique v k : inject_Z k <= v -> v < inject_Z (k + 1) -> Qfloor v = k.
Proof.
  intros H1 H2. pose proof (Qfloor_le v) as F1. pose proof (Qlt_floor v) as F2.
  assert (Qfloor v < k + 1)%Z by (rewrite Zlt_Qlt; lra).
  assert (k < Qfloor v + 1)%Z by (rewrite Zlt_Qlt; lra).
  lia.
Qed.

Lemma trunc_nonneg v k :
  (0 <= k)%Z -> inject_Z k <= v -> v < inject_Z (k + 1) -> trunc v = k.
Proof.
  intros Hk H1 H2. unfold trunc.
  assert (0 <= v).
  { apply Qle_trans with (inject_Z k); [|exact H1].
    change 0 with (inject_Z 0). rewrite <- Zle_Qle. exact Hk. }
  destruct (Qlt_bool v 0) eqn:T.
  - apply Qlt_bool_iff in T. lra.
  - apply Qfloor_unique; assumption.
Qed.

(** An int below 2^53 in absolute value converts to a float exactly. *)
Lemma int_to_float_exact n :
  (0 <= n < 2 ^ 53)%Z -> exists v, int_to_float n = Ok v /\ v == inject_Z n.
Proof.
  intros Hn.
  assert (E : round64 (inject_Z n) == inject_Z n).
  { apply (round64_exact _ n 0); [|exact Hn|unfold emin; lia].
    change (pow2 0) with 1. lra. }
  assert (B : inject_Z n <= pow2 53).
  { rewrite pow2_Z by lia. rewrite <- Zle_Qle. lia. }
  assert (P : 0 <= inject_Z n).
  { change 0 with (inject_Z 0). rewrite <- Zle_Qle. lia. }
  exists (round64 (inject_Z n)). split; [|exact E].
  unfold int_to_float. rewrite of_Q_finite; [reflexivity|lra|lra].
Qed.

End Binary64Use.

(** The model of binary64 agrees with the floating-point unit of the kernel
    on the operations the activities perform. *)
Example round64_agrees_div_29_100 :
  PyFloat.of_spec_float (Prim2SF (29 / 100)%float)
  = Some (Qred (PyFloat.round64 (29 # 100))).
Proof. vm_compute. reflexivity. Qed.

Example round64_agrees_mul_29_100 :
  PyFloat.of_spec_float (Prim2SF (29 / 100 * 100)%float)
  = Some (Qred (PyFloat.round64 (PyFloat.round64 (29 # 100) * 100))).
Proof. vm_compute. reflexivity. Qed.

Example round64_agrees_div_1_3 :
  PyFloat.of_spec_float (Prim2SF (1 / 3)%float)
  = Some (Qred (PyFloat.round64 (1 # 3))).
Proof. vm_compute. reflexivity. Qed.

Example round64_agrees_literal_0_05 :
  PyFloat.of_spec_float (Prim2SF (5 / 100)%float) = Some (Qred PyFloat.lit_0_05).
Proof. vm_compute. reflexivity. Qed.

(** The same on every quotient [a / b] with [a < 128] and [0 < b < 128], and
    on every share [(a / b) * c] with [a <= b < 48] of the totals 100, 1000
    and 12345. *)
Example round64_agrees_on_small_quotients :
  forallb (fun a => forallb (fun b => PyFloat.agrees_div a b) (seqZ 1 127)) (seqZ 0 128)
  = true.
Proof. vm_compute. reflexivity. Qed.

Example round64_agrees_on_small_shares :
  forallb (fun b =>
    forallb (fun a =>
      forallb (fun c => PyFloat.agrees_div_mul a b c) [100; 1000; 12345]%Z)
      (seqZ 0 (b + 1)))
    (seqZ 1 47)
  = true.
Proof. vm_compute. reflexivity. Qed.

Example round64_agrees_tie_to_even :
  PyFloat.of_spec_float (Prim2SF (4503599627370497 * 1.5)%float)
  = Some (Qred (PyFloat.round64 (4503599627370497 * (3 # 2)))).
Proof. vm_compute. reflexivity. Qed.

(** *** C1: the tally approves on a strict majority *)

Section Tally.
Import PyFloat Voting.
Local Open Scope Q_scope.

Lemma bool_eq_iff (a b : bool) : (a = true <-> b = true) -> a = b.
Proof. destruct a, b; intuition congruence. Qed.

(** Below 2^53 votes, half the total is a binary64 value and the comparison
    of [count_votes] is the exact one. *)
Lemma supermajority_exact (yes_votes total_votes : Z) :
  (0 < total_votes < 2 ^ 53)%Z ->
  supermajority yes_votes total_votes = Ok (total_votes <? 2 * yes_votes)%Z.
Proof.
  intros Ht. unfold supermajority.
  destruct (0 <? total_votes)%Z eqn:T; [|apply Z.ltb_ge in T; lia].
  unfold truediv. simpl (2 =? 0)%Z. cbv iota.
  set (q := inject_Z total_votes / inject_Z 2).
  assert (Eq : q == inject_Z total_votes * pow2 (-1)).
  { unfold q. change (pow2 (-1)) with (/ (2 # 1)). reflexivity. }
  assert (E : round64 q == q).
  { apply (round64_exact q total_votes (-1) Eq); [lia | unfold emin; lia]. }
  assert (P : 0 < inject_Z total_votes).
  { change 0 with (inject_Z 0). rewrite <- Zlt_Qlt. lia. }
  assert (B : inject_Z total_votes <= pow2 53).
  { rewrite pow2_Z by lia. rewrite <- Zle_Qle. lia. }
  change (pow2 (-1)) with (1 # 2) in Eq.
  rewrite of_Q_finite by lra. simpl. f_equal.
  apply bool_eq_iff. unfold int_gt. rewrite Qlt_bool_iff, Z.ltb_lt, E, Eq.
  rewrite Zlt_Qlt, inject_Z_mult. change (inject_Z 2) with 2. split; intros; lra.
Qed.





End Tally.

Section TallyClaim.
Import PyFloat Voting.
Local Open Scope Z_scope.

(** [yes > total / 2] over the rationals is [total < 2 * yes] over the
    integers. *)
Lemma strict_majority_rational (yes_votes total_votes : Z) :
  (total_votes <? 2 * yes_votes)%Z = true
  <-> (inject_Z total_votes / 2 < inject_Z yes_votes)%Q.
Proof.
  rewrite Z.ltb_lt, Zlt_Qlt, inject_Z_mult. change (inject_Z 2) with 2%Q.
  split; intros H.
  - apply Qlt_shift_div_r; [reflexivity|]. lra.
  - apply (Qmult_lt_r _ _ 2) in H; [|reflexivity]. field_simplify in H. lra.
Qed.



(** The tie of the specification, evaluated: five to five is rejected by
    both tests, and so is an empty ballot box. *)
Example tally_tie_and_empty :
  supermajority 5 10 = Ok false /\ application_approved 5 10 = Ok false
  /\ supermajority 0 0 = Ok false /\ application_approved 0 0 = Ok false
  /\ supermajority 6 11 = Ok true /\ application_approved 6 11 = Ok true.
Proof. vm_compute. repeat split; reflexivity. Qed.


End TallyClaim.

(** *** C2: the installments add up to the principal *)

Section Installments.
Import Bnpl.
Local Open Scope Z_scope.

Lemma sum_list_repeat (x : Z) (k : nat) : sum_list (repeat x k) = Z.of_nat k * x.
Proof.
  induction k as [|k IH]; [reflexivity|].
  cbn [repeat sum_list foldr]. fold (sum_list (repeat x k)). rewrite IH. lia.
Qed.

Lemma schedule_spec_sum (principal n : Z) :
  1 <= n -> sum_list (schedule_spec principal n) = principal.
Proof.
  intros Hn. unfold schedule_spec. cbn [sum_list foldr].
  fold (sum_list (repeat (principal / n) (Z.to_nat (n - 1)))).
  rewrite sum_list_repeat, Z2Nat.id by lia.
  pose proof (Z.div_mod principal n ltac:(lia)) as D.
  set (q := principal / n) in *. set (r := principal mod n) in *.
  replace ((n - 1) * q) with (n * q - q) by ring. clearbody q r. lia.
Qed.

(** C2.  For every principal and every number [n >= 1] of installments the
    schedule [base + remainder, base, ..., base] has [n] amounts that add up
    to the principal; [calculate_bnpl_installments] computes that schedule
    for [n = 3], never takes its error branch, and reports the principal as
    the total. *)
Theorem installments_reconstruct_principal (principal n : Z) :
  1 <= n ->
  sum_list (schedule_spec principal n) = principal
  /\ length (schedule_spec principal n) = Z.to_nat n
  /\ exists i : Installments,
       calculate_bnpl_installments principal = Ok i
       /\ amounts i = schedule_spec principal 3
       /\ sum_list (amounts i) = principal
       /\ total i = principal.
Proof.
  intros Hn. split; [apply schedule_spec_sum; exact Hn|]. split.
  - unfold schedule_spec. cbn [length]. rewrite repeat_length. lia.
  - pose proof (Z.div_mod principal 3 ltac:(lia)) as D.
    unfold calculate_bnpl_installments.
    destruct (principal / 3 + principal mod 3 + principal / 3 + principal / 3
              =? principal) eqn:T; [|apply Z.eqb_neq in T; lia].
    apply Z.eqb_eq in T. cbn [negb].
    eexists. split; [reflexivity|]. cbn [amounts installment_1 installment_2
      installment_3 total]. split; [reflexivity|]. split; [|exact T].
    unfold amounts, sum_list.
    cbn [foldr installment_1 installment_2 installment_3]. lia.
Qed.

Lemma installments_reconstruct_principal_witness :
  sum_list (schedule_spec 100 3) = 100
  /\ length (schedule_spec 100 3) = Z.to_nat 3
  /\ exists i : Installments,
       calculate_bnpl_installments 100 = Ok i
       /\ amounts i = schedule_spec 100 3
       /\ sum_list (amounts i) = 100
       /\ total i = 100.
Proof. apply (installments_reconstruct_principal 100 3). lia. Defined.

(** The scenario of the specification: 100 in three installments. *)
Example installments_of_100 :
  calculate_bnpl_installments 100
  = Ok {| installment_1 := 34; installment_2 := 33; installment_3 := 33; total := 100 |}
  /\ schedule_spec 100 3 = [34; 33; 33].
Proof. split; reflexivity. Qed.

End Installments.

(** *** C6: due dates *)

Section DueDates.
Import Bnpl.
Local Open Scope Z_scope.




End DueDates.

(** *** C7: the late fee *)

Section LateFee.
Import PyFloat Bnpl.

Lemma lit_0_05_value : (lit_0_05 == 3602879701896397 # 72057594037927936)%Q.
Proof. vm_compute. reflexivity. Qed.

(** Below 2^52 tokens the late fee [int(amount * 0.05)] is the twentieth of
    the amount, rounded down. *)
Lemma late_fee_of_exact (amount : Z) :
  (0 <= amount < 2 ^ 52)%Z -> late_fee_of amount = Ok (amount / 20)%Z.
Proof.
  intros Ha. unfold late_fee_of, mul_int.
  destruct (int_to_float_exact amount) as (a & Ea & Va); [lia|].
  rewrite Ea. cbn [Py.bind]. unfold mul.
  pose proof lit_0_05_value as C. set (c := lit_0_05) in *.
  pose proof (Z.div_mod amount 20 ltac:(lia)) as D.
  pose proof (Z.mod_pos_bound amount 20 ltac:(lia)) as Br.
  set (k := (amount / 20)%Z) in *. set (r := (amount mod 20)%Z) in *.
  assert (Hk : (0 <= k < 2 ^ 48)%Z) by lia.
  assert (Qa : (inject_Z amount == 20 * inject_Z k + inject_Z r)%Q).
  { rewrite D at 1. rewrite inject_Z_plus, inject_Z_mult. reflexivity. }
  assert (Qr : (0 <= inject_Z r <= 19)%Q).
  { split; [change 0%Q with (inject_Z 0)|change 19%Q with (inject_Z 19)];
      rewrite <- Zle_Qle; lia. }
  assert (Qk0 : (0 <= inject_Z k)%Q).
  { change 0%Q with (inject_Z 0). rewrite <- Zle_Qle. lia. }
  assert (Qk1 : (inject_Z k <= 281474976710655)%Q).
  { change 281474976710655%Q with (inject_Z (2 ^ 48 - 1)). rewrite <- Zle_Qle. lia. }
  set (P := (c * a)%Q).
  assert (EP : (P == (3602879701896397 # 72057594037927936) * inject_Z amount)%Q).
  { unfold P. rewrite C, Va. reflexivity. }
  assert (Lo : (inject_Z k <= P)%Q) by (rewrite EP, Qa; lra).
  assert (Up : (P <= inject_Z k + (31 # 32))%Q) by (rewrite EP, Qa; lra).
  assert (Z0 : (inject_Z k <= round64 P)%Q).
  { destruct (Z.eq_dec k 0%Z) as [K0|KN].
    - rewrite K0. apply round64_nonneg. lra.
    - apply (round64_ge P _ k 0); try lia; try lra.
      + apply Qlt_le_trans with (inject_Z k); [|exact Lo].
        change 0%Q with (inject_Z 0). rewrite <- Zlt_Qlt. lia.
      + change (pow2 0) with 1%Q. lra.
      + unfold emin. lia. }
  assert (Z1 : (round64 P <= inject_Z k + (31 # 32))%Q).
  { apply (round64_le0 P _ (32 * k + 31) (-5)); try lia; try lra.
    - change (pow2 (-5)) with (1 # 32)%Q.
      rewrite inject_Z_plus, inject_Z_mult. change (inject_Z 32) with 32%Q.
      change (inject_Z 31) with 31%Q. field.
    - unfold emin. lia. }
  pose proof pow2_53 as P53.
  rewrite of_Q_finite by lra. cbn [to_int]. f_equal.
  apply trunc_nonneg; [lia|exact Z0|].
  rewrite inject_Z_plus. change (inject_Z 1) with 1%Q. lra.
Qed.

End LateFee.

Section LateFeeClaim.
Import Bnpl.
Local Open Scope Z_scope.





End LateFeeClaim.

(** *** C3, C5, C8: proportional distribution *)

Section LateFeeShares.
Import PyFloat Chain Distribution.
Local Open Scope Z_scope.

(** The loop sends one transfer to every member with a share, whether the
    transfers before it failed or not, and records the accepted ones. *)
Lemma distribute_loop_all (movement_service : MovementService)
    (total_voting_power late_fee_amount : Z) (dao_members : list Member) :
  forall (l : list (Member * Z)) (calls : list Call) (ds : list Payout) (td : Z),
    shares total_voting_power late_fee_amount dao_members = Ok l ->
    distribute_loop movement_service total_voting_power late_fee_amount
      dao_members calls ds td
    = (Ok (ds ++ accepted movement_service calls l,
           td + paid (accepted movement_service calls l)),
       calls ++ submitted (length l)).
Proof.
  induction dao_members as [|member rest IH]; intros l calls ds td Hs.
  - injection Hs as <-. cbn [distribute_loop accepted length submitted repeat].
    unfold paid. cbn [fmap list_fmap foldr]. rewrite !app_nil_r, Z.add_0_r. reflexivity.
  - cbn [shares] in Hs. cbn [distribute_loop].
    destruct (voting_power member =? 0); [apply IH; exact Hs|].
    destruct (member_share _ _ _) as [s|e]; [|discriminate].
    cbn [Py.bind] in Hs. destruct (s =? 0); [apply IH; exact Hs|].
    destruct (shares total_voting_power late_fee_amount rest) as [l'|e]; [|discriminate].
    injection Hs as <-. cbn [accepted length].
    destruct (submit_signed_transaction movement_service calls placeholder_transfer_tx)
      as [h|e].
    + rewrite (IH l' _ _ _ eq_refl). unfold submitted. cbn [repeat].
      rewrite <- !app_assoc. cbn [app]. f_equal. f_equal.
      unfold paid. cbn [fmap list_fmap foldr share_amount]. f_equal. lia.
    + rewrite (IH l' _ _ _ eq_refl). unfold submitted. cbn [repeat].
      rewrite <- !app_assoc. reflexivity.
Qed.

(** A member's share of nothing is nothing. *)
Lemma member_share_of_zero (voting_power total_voting_power : Z) :
  0 <= voting_power <= total_voting_power -> 0 < total_voting_power ->
  member_share voting_power total_voting_power 0 = Ok 0.
Proof.
  intros Hv Ht. unfold member_share, truediv.
  destruct (total_voting_power =? 0) eqn:T0; [apply Z.eqb_eq in T0; lia|].
  set (x := (inject_Z voting_power / inject_Z total_voting_power)%Q).
  assert (Pt : (0 < inject_Z total_voting_power)%Q).
  { change 0%Q with (inject_Z 0). rewrite <- Zlt_Qlt. lia. }
  assert (Pv : (0 <= inject_Z voting_power <= inject_Z total_voting_power)%Q).
  { split; [change 0%Q with (inject_Z 0)|]; rewrite <- Zle_Qle; lia. }
  assert (X0 : (0 <= x)%Q) by (unfold x; apply Qle_shift_div_l; lra).
  assert (X1 : (x <= 1)%Q) by (unfold x; apply Qle_shift_div_r; lra).
  assert (Y0 : (0 <= round64 x)%Q) by (apply round64_nonneg; exact X0).
  assert (Y1 : (round64 x <= 1)%Q).
  { apply (round64_le0 x 1 1 0); try lia; try lra; [reflexivity | unfold emin; lia]. }
  pose proof pow2_53 as P53.
  rewrite of_Q_finite by lra. cbn [Py.bind]. unfold mul_int.
  destruct (int_to_float_exact 0) as (c & Ec & Vc); [lia|].
  rewrite Ec. cbn [Py.bind]. unfold mul. change (inject_Z 0) with 0%Q in Vc.
  assert (Z0 : (round64 (round64 x * c) == 0)%Q) by (apply round64_0; rewrite Vc; lra).
  rewrite of_Q_finite by lra. cbn [to_int]. f_equal.
  apply trunc_nonneg; [lia| |]; rewrite Z0; [apply Qle_refl | reflexivity].
Qed.

Lemma voting_power_le_sum (dao_members : list Member) (member : Member) :
  Forall (fun m => 0 <= voting_power m) dao_members -> member ∈ dao_members ->
  0 <= voting_power member <= sum_voting_power dao_members.
Proof.
  unfold sum_voting_power. induction 1 as [|m ms Hm Hms IH]; intros Hin.
  - inversion Hin.
  - cbn [fmap list_fmap foldr].
    assert (0 <= foldr Z.add 0 (voting_power <$> ms)).
    { clear IH Hin. induction Hms as [|m' ms' Hm' _ IH']; cbn; [lia|]. cbn in IH'. lia. }
    apply elem_of_cons in Hin as [->|Hin]; [lia|].
    specialize (IH Hin). cbn in IH. lia.
Qed.

(** With nothing to distribute nobody has a share. *)
Lemma shares_of_zero (total_voting_power : Z) (dao_members : list Member) :
  0 < total_voting_power ->
  Forall (fun m => 0 <= voting_power m <= total_voting_power) dao_members ->
  shares total_voting_power 0 dao_members = Ok [].
Proof.
  intros Ht. induction 1 as [|m ms Hm _ IH]; [reflexivity|].
  cbn [shares]. destruct (voting_power m =? 0); [exact IH|].
  rewrite member_share_of_zero by assumption. cbn [Py.bind Z.eqb]. exact IH.
Qed.

End LateFeeShares.

Section DistributionClaims.
Import Chain Distribution.
Local Open Scope Z_scope.

(** C3 at the failing input.  Of a late fee of 100, the member with 29 of
    100 voting power is paid 28, not floor(29 / 100 * 100) = 29:
    [29 / 100] is the float just below 0.29, its product with 100 is
    28.999999999999996, and [int] truncates it; one token of the fee is
    distributed to nobody although the shares divide it exactly.  The
    scenario of the specification, 1000 over 30 and 70, does yield 300 and
    700. *)
Lemma late_fee_share_below_floor :
  distribute_bnpl_late_fees (accepting [member "A" 29; member "B" 71]) [] "dao" 100
  = (Ok {| lf_dao_id := "dao";
           lf_late_fee_amount := 100;
           total_distributed := Some 99;
           members_count := 2;
           distributions := Some [payout "A" 29 28; payout "B" 71 71];
           distributed := true;
           error := None |},
     [CallContract "dao" "get_members";
      SubmitSignedTransaction placeholder_transfer_tx;
      SubmitSignedTransaction placeholder_transfer_tx])
  /\ 29 * 100 / 100 = 29
  /\ fst (distribute_bnpl_late_fees (accepting [member "A" 30; member "B" 70]) []
            "dao" 1000)
     = Ok {| lf_dao_id := "dao";
             lf_late_fee_amount := 1000;
             total_distributed := Some 1000;
             members_count := 2;
             distributions := Some [payout "A" 30 300; payout "B" 70 700];
             distributed := true;
             error := None |}.
Proof. vm_compute. repeat split; reflexivity. Qed.

Lemma sum_voting_power_nonzero (dao_members : list Member) :
  sum_voting_power dao_members <> 0 -> dao_members <> [].
Proof. intros H ->. apply H. reflexivity. Qed.

(** The activity, once the members are known and every share computes. *)
Lemma distribute_bnpl_late_fees_all (movement_service : MovementService)
    (calls : list Call) (dao_id : string) (late_fee_amount : Z)
    (dao_members : list Member) (l : list (Member * Z)) :
  get_members movement_service calls dao_id = Ok dao_members ->
  sum_voting_power dao_members <> 0 ->
  shares (sum_voting_power dao_members) late_fee_amount dao_members = Ok l ->
  let asked := calls ++ [CallContract dao_id "get_members"] in
  distribute_bnpl_late_fees movement_service calls dao_id late_fee_amount
  = (Ok {| lf_dao_id := dao_id;
           lf_late_fee_amount := late_fee_amount;
           total_distributed := Some (paid (accepted movement_service asked l));
           members_count := length (accepted movement_service asked l);
           distributions := Some (accepted movement_service asked l);
           distributed := true;
           error := None |},
     asked ++ submitted (length l)).
Proof.
  intros Hm Hsum Hs asked. unfold distribute_bnpl_late_fees. rewrite Hm.
  pose proof (sum_voting_power_nonzero _ Hsum) as Hne.
  destruct dao_members as [|m ms]; [congruence|].
  destruct (sum_voting_power (m :: ms) =? 0) eqn:T; [apply Z.eqb_eq in T; congruence|].
  fold asked. rewrite (distribute_loop_all _ _ _ _ l asked [] 0 Hs).
  cbn [app]. reflexivity.
Qed.

End DistributionClaims.

Section PayoutClaims.
Import Chain Distribution.
Local Open Scope Z_scope.

(** C5, as amended.  With a total of 0 the interest payout and the
    liquidation payout return an empty distribution and send nothing; with a
    non-zero total and investments that add up to 0 they raise [ValueError].
    The late-fee redistribution never raises for lack of something to
    distribute: without members, or with voting powers that add up to 0, it
    returns a result marked [distributed = False] that carries an error
    message and no distribution; with a late fee of 0 (and non-negative
    voting powers) it returns an empty distribution.  In none of these cases
    is a transfer sent. *)
Theorem nothing_to_distribute {DB Pct : Type}
    (movement_service : MovementService) (service : PayoutService DB Pct)
    (calculate_total_interest : DB -> string -> result Z)
    (calculate_total_available_funds : DB -> string -> Z -> result Z)
    (db : DB) (calls : list Call) (loan_id dao_id : string)
    (member_addresses : list string) (member_investments : list Z)
    (treasury_balance late_fee_amount : Z) :
  let interest :=
    distribute_loan_interest movement_service service calculate_total_interest
      db calls loan_id dao_id member_addresses member_investments in
  let liquidation :=
    distribute_liquidation_funds movement_service service
      calculate_total_available_funds db calls dao_id member_addresses
      member_investments treasury_balance in
  let asked := calls ++ [CallContract dao_id "get_members"] in
  (calculate_total_interest db loan_id = Ok 0 -> interest = (Ok nothing, (db, calls)))
  /\ (forall t, calculate_total_interest db loan_id = Ok t -> t <> 0 ->
      sum_investments member_investments = 0 ->
      interest = (Raise (ValueError "Total investment is zero, cannot distribute interest"),
                  (db, calls)))
  /\ (calculate_total_available_funds db dao_id treasury_balance = Ok 0 ->
      liquidation = (Ok nothing, (db, calls)))
  /\ (forall t, calculate_total_available_funds db dao_id treasury_balance = Ok t ->
      t <> 0 -> sum_investments member_investments = 0 ->
      liquidation = (Raise (ValueError "Total investment is zero, cannot distribute funds"),
                     (db, calls)))
  /\ (get_members movement_service calls dao_id = Ok [] ->
      distribute_bnpl_late_fees movement_service calls dao_id late_fee_amount
      = (Ok (not_distributed dao_id late_fee_amount 0 "No members found"), asked))
  /\ (forall dao_members,
      get_members movement_service calls dao_id = Ok dao_members ->
      dao_members <> [] -> sum_voting_power dao_members = 0 ->
      distribute_bnpl_late_fees movement_service calls dao_id late_fee_amount
      = (Ok (not_distributed dao_id late_fee_amount (length dao_members)
               "No voting power"), asked))
  /\ (forall dao_members,
      get_members movement_service calls dao_id = Ok dao_members ->
      Forall (fun m => 0 <= voting_power m) dao_members ->
      sum_voting_power dao_members <> 0 ->
      distribute_bnpl_late_fees movement_service calls dao_id 0
      = (Ok {| lf_dao_id := dao_id; lf_late_fee_amount := 0;
               total_distributed := Some 0; members_count := 0;
               distributions := Some []; distributed := true; error := None |},
         asked)).
Proof.
  intros interest liquidation asked.
  split; [|split; [|split; [|split; [|split; [|split]]]]].
  - intros H. unfold interest, distribute_loan_interest. rewrite H. reflexivity.
  - intros t H Ht Hs. unfold interest, distribute_loan_interest. rewrite H.
    unfold distribute. destruct (t =? 0) eqn:T; [apply Z.eqb_eq in T; lia|].
    rewrite Hs. reflexivity.
  - intros H. unfold liquidation, distribute_liquidation_funds. rewrite H. reflexivity.
  - intros t H Ht Hs. unfold liquidation, distribute_liquidation_funds. rewrite H.
    unfold distribute. destruct (t =? 0) eqn:T; [apply Z.eqb_eq in T; lia|].
    rewrite Hs. reflexivity.
  - intros H. unfold distribute_bnpl_late_fees. rewrite H. reflexivity.
  - intros dao_members H Hne Hs. unfold distribute_bnpl_late_fees. rewrite H, Hs.
    destruct dao_members; [congruence|reflexivity].
  - intros dao_members H Hpos Hs.
    assert (Hall : Forall (fun m => 0 <= voting_power m <= sum_voting_power dao_members)
                     dao_members).
    { apply Forall_forall. intros m Hin. apply voting_power_le_sum; assumption. }
    assert (Ht : 0 < sum_voting_power dao_members).
    { destruct dao_members as [|m ms]; [exfalso; apply Hs; reflexivity|].
      assert (m ∈ m :: ms) as Hin by (apply elem_of_cons; left; reflexivity).
      pose proof (voting_power_le_sum _ _ Hpos Hin). lia. }
    rewrite (distribute_bnpl_late_fees_all movement_service calls dao_id 0 dao_members []
               H Hs (shares_of_zero _ _ Ht Hall)).
    cbn [accepted length submitted repeat paid fmap list_fmap foldr].
    rewrite app_nil_r. reflexivity.
Qed.

(** C5 as stated fails for the interest payout and for the liquidation
    payout: 500 to distribute among members whose investments add up to 0
    is a [ValueError], not an empty distribution. *)
Lemma zero_investment_raises :
  fst (distribute_loan_interest (accepting []) floor_share_service scenario_interest
         [] [] "loan" "dao" ["A"; "B"] [0; 0])
  = Raise (ValueError "Total investment is zero, cannot distribute interest")
  /\ fst (distribute_liquidation_funds (accepting []) floor_share_service whole_treasury
            [] [] "dao" ["A"; "B"] [0; 0] 500)
     = Raise (ValueError "Total investment is zero, cannot distribute funds").
Proof. vm_compute. split; reflexivity. Qed.

Lemma nothing_to_distribute_witness :
  distribute_loan_interest (accepting []) floor_share_service scenario_interest
    [] [] "repaid" "dao" ["A"; "B"] [60; 40]
  = (Ok nothing, ([], []))
  /\ distribute_liquidation_funds (accepting []) floor_share_service whole_treasury
       [] [] "dao" ["A"; "B"] [60; 40] 0
     = (Ok nothing, ([], []))
  /\ distribute_bnpl_late_fees (accepting []) [] "dao" 100
     = (Ok (not_distributed "dao" 100 0 "No members found"),
        [CallContract "dao" "get_members"])
  /\ distribute_bnpl_late_fees (accepting [member "A" 0; member "B" 0]) [] "dao" 100
     = (Ok (not_distributed "dao" 100 2 "No voting power"),
        [CallContract "dao" "get_members"])
  /\ distribute_bnpl_late_fees (accepting [member "A" 30; member "B" 70]) [] "dao" 0
     = (Ok {| lf_dao_id := "dao"; lf_late_fee_amount := 0;
              total_distributed := Some 0; members_count := 0;
              distributions := Some []; distributed := true; error := None |},
        [CallContract "dao" "get_members"]).
Proof.
  pose proof (nothing_to_distribute (accepting []) floor_share_service scenario_interest
                whole_treasury [] [] "repaid" "dao" ["A"; "B"] [60; 40] 0 100)
    as (I & _ & L & _ & M & _).
  pose proof (nothing_to_distribute (accepting [member "A" 0; member "B" 0])
                floor_share_service scenario_interest whole_treasury [] [] "repaid" "dao"
                ["A"; "B"] [60; 40] 0 100)
    as (_ & _ & _ & _ & _ & P & _).
  pose proof (nothing_to_distribute (accepting [member "A" 30; member "B" 70])
                floor_share_service scenario_interest whole_treasury [] [] "repaid" "dao"
                ["A"; "B"] [60; 40] 0 100)
    as (_ & _ & _ & _ & _ & _ & Z).
  split; [apply I; reflexivity|].
  split; [apply L; reflexivity|].
  split; [apply M; reflexivity|].
  split; [apply (P [member "A" 0; member "B" 0]); [reflexivity|discriminate|reflexivity]|].
  apply (Z [member "A" 30; member "B" 70]); [reflexivity| |discriminate].
  repeat constructor; cbn; lia.
Defined.

End PayoutClaims.

Section FailureIsolation.
Import Chain Distribution.
Local Open Scope Z_scope.





End FailureIsolation.

(** *** C4: disbursement *)

Section Disbursement.
Import Chain Loans.
Local Open Scope Z_scope.

(** C4, as amended.  Every invocation of [disburse_funds] sends a transfer
    of the amount from the DAO to the borrower, and does so before the loan
    is looked at: the activity has no test of the loan's status, so this
    holds for a loan that is already [Disbursed] too, and invoking it again
    sends the transfer again.  Only after an accepted transfer is
    [LoanService.disburse_loan] run; what it raises is raised by the
    activity, with the transfer already sent. *)
Theorem disburse_funds_always_transfers
    (movement_service : MovementService)
    (disburse_loan : gmap string Loan -> string -> result (gmap string Loan))
    (w : World) (loan_id borrower_address : string) (amount : Z) (dao_id : string) :
  let run := disburse_funds movement_service disburse_loan in
  let once := run w loan_id borrower_address amount dao_id in
  let twice := run (snd once) loan_id borrower_address amount dao_id in
  let request := TransferFunds dao_id borrower_address amount in
  calls (snd once) = calls w ++ [request]
  /\ calls (snd twice) = calls w ++ [request; request]
  /\ (forall loan, loans w !! loan_id = Some loan -> loan_status loan = Disbursed ->
      transfers (calls (snd once)) = transfers (calls w) ++ [request])
  /\ (forall e,
      transfer_funds movement_service (calls w) dao_id borrower_address amount = Raise e ->
      fst once = Raise e /\ loans (snd once) = loans w)
  /\ (forall tx_hash e,
      transfer_funds movement_service (calls w) dao_id borrower_address amount
        = Ok tx_hash ->
      disburse_loan (loans w) loan_id = Raise e ->
      fst once = Raise e /\ loans (snd once) = loans w)
  /\ (forall tx_hash loans',
      transfer_funds movement_service (calls w) dao_id borrower_address amount
        = Ok tx_hash ->
      disburse_loan (loans w) loan_id = Ok loans' ->
      fst once = Ok tx_hash /\ loans (snd once) = loans').
Proof.
  intros run once twice request.
  assert (Hcalls : forall w', calls (snd (run w' loan_id borrower_address amount dao_id))
                              = calls w' ++ [request]).
  { intros w'. unfold run, disburse_funds.
    destruct (transfer_funds _ _ _ _ _); [destruct (disburse_loan _ _)|]; reflexivity. }
  split; [apply Hcalls|]. split.
  { unfold twice, once. rewrite !Hcalls. rewrite <- app_assoc. reflexivity. }
  split.
  { intros loan _ _. unfold once. rewrite (Hcalls w). unfold transfers.
    rewrite List.filter_app. reflexivity. }
  unfold once, run, disburse_funds. split; [|split].
  - intros e ->. split; reflexivity.
  - intros tx_hash e -> ->. split; reflexivity.
  - intros tx_hash loans' -> ->. split; reflexivity.
Qed.

Lemma disburse_funds_always_transfers_witness :
  let once := disburse_funds (accepting []) disburse_loan_spec after_disbursement
                "loan" "0xborrower" 500 "dao" in
  transfers (calls (snd once))
  = transfers (calls after_disbursement) ++ [TransferFunds "dao" "0xborrower" 500]
  /\ fst once = Raise (ValueError "Loan loan cannot be disbursed")
  /\ loans (snd once) = loans after_disbursement.
Proof.
  intros once.
  pose proof (disburse_funds_always_transfers (accepting []) disburse_loan_spec
                after_disbursement "loan" "0xborrower" 500 "dao")
    as (_ & _ & T & _ & R & _).
  split.
  - apply (T disbursed_loan); reflexivity.
  - apply (R "0xtx"); reflexivity.
Defined.

(** C4 as stated fails: invoked for a loan that is already [Disbursed],
    the activity sends the 500 a second time (and only then is the
    invocation refused by the loan service). *)
Lemma disbursed_loan_is_paid_again :
  (loan_status <$> loans after_disbursement !! "loan") = Some Disbursed
  /\ transfers (calls after_disbursement) = [TransferFunds "dao" "0xborrower" 500]
  /\ transfers (calls (snd (disburse_funds (accepting []) disburse_loan_spec
                              after_disbursement "loan" "0xborrower" 500 "dao")))
     = [TransferFunds "dao" "0xborrower" 500; TransferFunds "dao" "0xborrower" 500].
Proof. vm_compute. repeat split; reflexivity. Qed.

End Disbursement.

(** *** C9, C10: risk profiles *)

Section DecayCounts.
Import Risk.
Local Open Scope Z_scope.
Context {Store : Type} `{RiskProfileService Store}.

Lemma decay_loop_counts (user_ids : list string) :
  forall (store : Store) (affected_count total_decay : Z),
    match decay_loop user_ids store affected_count total_decay with
    | (Ok (a, t), _) =>
        a = affected_count + Z.of_nat (length user_ids)
        /\ t = total_decay + 2 * Z.of_nat (length user_ids)
    | (Raise e, store') =>
        exists user_id, user_id ∈ user_ids /\ service_apply_decay store' user_id = Raise e
    end.
Proof.
  induction user_ids as [|u us IH]; intros store a t.
  - cbn. lia.
  - cbn [decay_loop]. destruct (service_apply_decay store u) as [[profile store']|e] eqn:E.
    + specialize (IH store' (a + 1) (t + 2)).
      destruct (decay_loop us store' (a + 1) (t + 2)) as [[[a' t']|e] store''].
      * cbn [length]. lia.
      * destruct IH as (v & Hin & Hv). exists v. split; [|exact Hv].
        apply elem_of_cons. right. exact Hin.
    + exists u. split; [apply elem_of_cons; left; reflexivity | exact E].
Qed.

Lemma decay_loop_returns (user_ids : list string) :
  (forall store user_id, is_ok (service_apply_decay store user_id) = true) ->
  forall (store : Store) (affected_count total_decay : Z),
    is_ok (fst (decay_loop user_ids store affected_count total_decay)) = true.
Proof.
  intros Hok. induction user_ids as [|u us IH]; intros store a t; [reflexivity|].
  cbn [decay_loop]. specialize (Hok store u).
  destruct (service_apply_decay store u) as [[profile store']|e]; [apply IH|discriminate].
Qed.

(** C10.  Whatever the risk service does to the scores, a result returned
    by [apply_decay] reports as many affected users as the list has entries
    and two decay points for each of them; the activity raises only an
    exception of the service, and returns whenever the service does. *)
Theorem decay_counts_every_listed_user (store : Store) (user_ids : list string) :
  match apply_decay store user_ids with
  | (Ok r, _) =>
      users_affected r = Z.of_nat (length user_ids)
      /\ total_decay_points r = 2 * Z.of_nat (length user_ids)
      /\ completed r = true
  | (Raise e, store') =>
      exists user_id, user_id ∈ user_ids /\ service_apply_decay store' user_id = Raise e
  end
  /\ ((forall store' user_id, is_ok (service_apply_decay store' user_id) = true) ->
      is_ok (fst (apply_decay store user_ids)) = true).
Proof.
  split.
  - unfold apply_decay. pose proof (decay_loop_counts user_ids store 0 0) as L.
    destruct (decay_loop user_ids store 0 0) as [[[a t]|e] store'].
    + cbn [users_affected total_decay_points completed]. lia.
    + exact L.
  - intros Hok. unfold apply_decay.
    pose proof (decay_loop_returns user_ids Hok store 0 0) as L.
    destruct (decay_loop user_ids store 0 0) as [[[a t]|e] store']; [reflexivity|].
    discriminate.
Qed.

End DecayCounts.

Section DecayCountsWitness.
Import Risk.
Local Open Scope Z_scope.

Lemma decay_spec_returns (store : gmap string Z) (user_id : string) :
  is_ok (service_apply_decay store user_id) = true.
Proof.
  cbn [service_apply_decay spec_service]. unfold decay_spec.
  destruct (0 <? default 0 (store !! user_id)); reflexivity.
Qed.

Lemma decay_counts_every_listed_user_witness :
  match apply_decay idle_and_active ["idle"; "active"] with
  | (Ok r, _) =>
      users_affected r = 2 /\ total_decay_points r = 4 /\ completed r = true
  | (Raise e, store') =>
      exists user_id,
        user_id ∈ ["idle"; "active"] /\ service_apply_decay store' user_id = Raise e
  end
  /\ is_ok (fst (apply_decay idle_and_active ["idle"; "active"])) = true.
Proof.
  destruct (decay_counts_every_listed_user idle_and_active ["idle"; "active"]) as [C R].
  split; [exact C | apply R; apply decay_spec_returns].
Defined.

(** A user whose score is 0 already is counted with the others: two users
    listed, four decay points reported, one score lowered. *)
Example decay_counts_idle_user :
  let r := apply_decay idle_and_active ["idle"; "active"] in
  fst r = Ok {| users_affected := 2; total_decay_points := 4; completed := true |}
  /\ snd r !! "idle" = Some 0 /\ snd r !! "active" = Some 3.
Proof. vm_compute. repeat split; reflexivity. Qed.

End DecayCountsWitness.

Section StoreInvariant.
Import Risk.
Context {Store : Type} `{RiskProfileService Store}.
Variable keeps : Store -> Prop.
Hypothesis record_transaction_keeps : forall store user_id profile store',
  record_transaction store user_id = Ok (profile, store') -> keeps store -> keeps store'.
Hypothesis record_bnpl_payment_keeps : forall store user_id on_time profile store',
  record_bnpl_payment store user_id on_time = Ok (profile, store') ->
  keeps store -> keeps store'.
Hypothesis service_apply_decay_keeps : forall store user_id profile store',
  service_apply_decay store user_id = Ok (profile, store') -> keeps store -> keeps store'.

(** What every method of the service keeps, every activity keeps, whether
    it returns or raises. *)
Lemma update_risk_profiles_keeps (store : Store) (payer_id recipient_id : string) :
  keeps store -> keeps (snd (update_risk_profiles store payer_id recipient_id)).
Proof.
  intros K. unfold update_risk_profiles.
  destruct (record_transaction store payer_id) as [[p1 s1]|e] eqn:E1; [|exact K].
  pose proof (record_transaction_keeps _ _ _ _ E1 K) as K1.
  destruct (record_transaction s1 recipient_id) as [[p2 s2]|e] eqn:E2; [|exact K1].
  exact (record_transaction_keeps _ _ _ _ E2 K1).
Qed.

Lemma update_bnpl_risk_profile_keeps (store : Store) (payer_id : string) (on_time : bool) :
  keeps store -> keeps (snd (update_bnpl_risk_profile store payer_id on_time)).
Proof.
  intros K. unfold update_bnpl_risk_profile.
  destruct on_time.
  - destruct (record_bnpl_payment store payer_id true) as [[p s]|e] eqn:E; [|exact K].
    exact (record_bnpl_payment_keeps _ _ _ _ _ E K).
  - destruct (record_bnpl_payment store payer_id false) as [[p s]|e] eqn:E; [|exact K].
    exact (record_bnpl_payment_keeps _ _ _ _ _ E K).
Qed.

Lemma decay_loop_keeps (user_ids : list string) :
  forall (store : Store) (a t : Z),
    keeps store -> keeps (snd (decay_loop user_ids store a t)).
Proof.
  induction user_ids as [|u us IH]; intros store a t K; [exact K|].
  cbn [decay_loop].
  destruct (service_apply_decay store u) as [[p s]|e] eqn:E; [|exact K].
  apply IH. exact (service_apply_decay_keeps _ _ _ _ E K).
Qed.

Lemma apply_decay_keeps (store : Store) (user_ids : list string) :
  keeps store -> keeps (snd (apply_decay store user_ids)).
Proof.
  intros K. unfold apply_decay. pose proof (decay_loop_keeps user_ids store 0%Z 0%Z K) as L.
  destruct (decay_loop user_ids store 0%Z 0%Z) as [[[a t]|e] store']; exact L.
Qed.

End StoreInvariant.

Section ScoreFloor.
Import Risk.
Local Open Scope Z_scope.

Lemma apply_delta_nonnegative (delta : Z) (store : gmap string Z) (user_id : string)
    (profile : RiskProfile) (store' : gmap string Z) :
  apply_delta delta store user_id = Ok (profile, store') ->
  nonnegative store -> nonnegative store'.
Proof.
  unfold apply_delta. intros E K. injection E as _ <-. intros u s Hu.
  destruct (decide (user_id = u)) as [->|Hne].
  - rewrite lookup_insert_eq in Hu. injection Hu as <-. lia.
  - rewrite lookup_insert_ne in Hu by exact Hne. exact (K u s Hu).
Qed.

Lemma decay_spec_nonnegative (store : gmap string Z) (user_id : string)
    (profile : RiskProfile) (store' : gmap string Z) :
  decay_spec store user_id = Ok (profile, store') ->
  nonnegative store -> nonnegative store'.
Proof.
  unfold decay_spec. destruct (0 <? default 0 (store !! user_id)).
  - apply apply_delta_nonnegative.
  - intros E K. injection E as _ <-. exact K.
Qed.

Lemma step_nonnegative (store : gmap string Z) (ev : Event) :
  nonnegative store -> nonnegative (step store ev).
Proof.
  intros K. destruct ev as [payer recipient|payer on_time|user_ids|borrower penalty];
    cbn [step].
  - apply (update_risk_profiles_keeps nonnegative); [|exact K].
    intros st u p st'. apply apply_delta_nonnegative.
  - apply (update_bnpl_risk_profile_keeps nonnegative); [|exact K].
    intros st u on_time' p st'. apply apply_delta_nonnegative.
  - apply (apply_decay_keeps nonnegative); [|exact K].
    intros st u p st'. apply decay_spec_nonnegative.
  - destruct (apply_delta penalty store borrower) as [[p st']|e] eqn:E; [|exact K].
    exact (apply_delta_nonnegative _ _ _ _ _ E K).
Qed.

Lemma run_nonnegative (events : list Event) :
  forall store, nonnegative store -> nonnegative (run events store).
Proof.
  unfold run. induction events as [|ev evs IH]; intros store K; [exact K|].
  cbn [foldl]. apply IH. apply step_nonnegative. exact K.
Qed.

Lemma score_of_nonnegative (store : gmap string Z) (user_id : string) :
  nonnegative store -> 0 <= score_of store user_id.
Proof.
  intros K. unfold score_of. destruct (store !! user_id) as [s|] eqn:E; cbn; [|lia].
  exact (K user_id s E).
Qed.

(** C9.  Starting from scores that are not negative, no sequence of scored
    events (a payment, an on-time or a late BNPL installment, a decay run, a
    rejected loan with whatever penalty) makes a score negative.  Each event
    sets the score of its participant to [max(0, score + delta)] with delta
    +1, +2, -3, -2 and the penalty, and a decay run leaves a participant
    whose score is 0 as it is. *)
Theorem score_never_negative (events : list Event) (store : gmap string Z)
    (user_id other_id : string) (penalty : Z) :
  nonnegative store ->
  (nonnegative (run events store) /\ 0 <= score_of (run events store) user_id)
  /\ (user_id <> other_id ->
      score_of (step store (Payment user_id other_id)) user_id
      = Z.max 0 (score_of store user_id + 1)
      /\ score_of (step store (Payment other_id user_id)) user_id
         = Z.max 0 (score_of store user_id + 1))
  /\ score_of (step store (BnplInstallment user_id true)) user_id
     = Z.max 0 (score_of store user_id + 2)
  /\ score_of (step store (BnplInstallment user_id false)) user_id
     = Z.max 0 (score_of store user_id + -3)
  /\ score_of (step store (Decay [user_id])) user_id
     = Z.max 0 (score_of store user_id + -2)
  /\ score_of (step store (LoanRejected user_id penalty)) user_id
     = Z.max 0 (score_of store user_id + penalty)
  /\ (score_of store user_id = 0 -> step store (Decay [user_id]) = store).
Proof.
  intros K. split.
  { pose proof (run_nonnegative events store K) as R.
    split; [exact R | apply score_of_nonnegative; exact R]. }
  pose proof (score_of_nonnegative store user_id K) as S0.
  unfold score_of in *.
  split; [|split; [|split; [|split; [|split]]]].
  - intros Hne. unfold step, update_risk_profiles.
    cbn [record_transaction spec_service]. unfold apply_delta. cbn [snd score].
    split.
    + rewrite lookup_insert_ne by congruence. rewrite lookup_insert_eq. reflexivity.
    + rewrite lookup_insert_eq. rewrite lookup_insert_ne by congruence. reflexivity.
  - unfold step, update_bnpl_risk_profile.
    cbn [record_bnpl_payment spec_service]. unfold apply_delta. cbn [snd score].
    rewrite lookup_insert_eq. reflexivity.
  - unfold step, update_bnpl_risk_profile.
    cbn [record_bnpl_payment spec_service]. unfold apply_delta. cbn [snd score].
    rewrite lookup_insert_eq. reflexivity.
  - unfold step, apply_decay. cbn [decay_loop service_apply_decay spec_service].
    unfold decay_spec.
    destruct (0 <? default 0 (store !! user_id)) eqn:T.
    + unfold apply_delta. cbn [snd decay_loop]. rewrite lookup_insert_eq. reflexivity.
    + apply Z.ltb_ge in T. cbn [snd decay_loop]. lia.
  - unfold step, apply_delta. rewrite lookup_insert_eq. reflexivity.
  - intros Z0. unfold step, apply_decay.
    cbn [decay_loop service_apply_decay spec_service].
    unfold decay_spec. rewrite Z0. reflexivity.
Qed.

Lemma score_never_negative_witness :
  let events := [Payment "ann" "bob"; BnplInstallment "ann" false;
                 Decay ["ann"; "bob"]; LoanRejected "bob" (-5)] in
  (nonnegative (run events ∅) /\ 0 <= score_of (run events ∅) "ann")
  /\ score_of (run events ∅) "ann" = 0
  /\ score_of (run events ∅) "bob" = 0.
Proof.
  intros events.
  destruct (score_never_negative events ∅ "ann" "bob" (-5)) as [N _].
  { intros u s Hu. rewrite lookup_empty in Hu. discriminate. }
  split; [exact N|]. split; vm_compute; reflexivity.
Defined.

End ScoreFloor.

(** ** Part III: further properties of the activities *)

(** *** The error of one rounding *)

Section Binary64Error.
Import PyFloat.
Local Open Scope Q_scope.

Lemma pow2_half e : pow2 (e - 1) == pow2 e * (1 # 2).
Proof.
  replace (e - 1)%Z with (e + -1)%Z by lia. rewrite pow2_add. reflexivity.
Qed.

(** Inside a normal binade the rounding moves a value by at most half a unit
    in the last place. *)
Lemma round64_near q e :
  pow2 e <= q -> q < pow2 (e + 1) -> (emin <= e - 52)%Z ->
  q - pow2 (e - 53) <= round64 q /\ round64 q <= q + pow2 (e - 53).
Proof.
  intros H1 H2 He. rewrite (round64_binade q e H1 H2 He).
  replace (e - 53)%Z with (e - 52 - 1)%Z by lia. rewrite pow2_half.
  set (g := pow2 (e - 52)). assert (Pg : 0 < g) by apply pow2_pos.
  set (s := q / g). destruct (rne_err s) as [E1 E2].
  assert (Eq : q == s * g) by (unfold s; field; lra).
  set (r := inject_Z (rne s)) in *.
  split.
  - assert (A : (s - (1 # 2)) * g <= r * g) by (apply Qmult_le_r; [exact Pg | lra]).
    rewrite Eq. lra.
  - assert (A : r * g <= (s + (1 # 2)) * g) by (apply Qmult_le_r; [exact Pg | lra]).
    rewrite Eq. lra.
Qed.

(** The relative error of rounding a normal value is at most 2^-53. *)
Lemma round64_rel q :
  pow2 (-1022) <= q ->
  q * (1 - (1 # 9007199254740992)) <= round64 q
  /\ round64 q <= q * (1 + (1 # 9007199254740992)).
Proof.
  intros Hq. assert (P : 0 < q) by (pose proof (pow2_pos (-1022)); lra).
  destruct (ilog2_spec q P) as [S1 S2]. set (e := ilog2 q) in *.
  assert (He : (-1022 < e + 1)%Z) by (apply pow2_lt_inv; lra).
  destruct (round64_near q e S1 S2) as [N1 N2]; [unfold emin; lia|].
  assert (G : pow2 (e - 53) <= q * (1 # 9007199254740992)).
  { replace (e - 53)%Z with (e + -53)%Z by lia. rewrite pow2_add.
    change (pow2 (-53)) with (1 # 9007199254740992).
    apply Qmult_le_r; [reflexivity | exact S1]. }
  split; lra.
Qed.

End Binary64Error.

(** *** The late-fee share of a member, to the unit *)

Section ShareBounds.
Import PyFloat Chain Distribution.

Ltac qreplace a b :=
  let H := fresh in assert (H : Qeq a b) by ring; rewrite H; clear H.

Lemma Qfloor_of_nonneg w : (0 <= w)%Q -> trunc w = Qfloor w.
Proof.
  intros H. unfold trunc. destruct (Qlt_bool w 0) eqn:T; [|reflexivity].
  apply Qlt_bool_iff in T. lra.
Qed.

Lemma inject_Z_pos n : (0 < n)%Z -> (0 < inject_Z n)%Q.
Proof. intros H. change 0%Q with (inject_Z 0). rewrite <- Zlt_Qlt. exact H. Qed.

Lemma inject_Z_nonneg n : (0 <= n)%Z -> (0 <= inject_Z n)%Q.
Proof. intros H. change 0%Q with (inject_Z 0). rewrite <- Zle_Qle. exact H. Qed.

Lemma inject_Z_sub a b : (inject_Z (a - b) == inject_Z a - inject_Z b)%Q.
Proof. unfold Z.sub. rewrite inject_Z_plus, inject_Z_opp. ring. Qed.

(** The float [(vp / T) * L] that [int] truncates: it lies less than one
    below and less than one above the floor of [vp * L / T], and not below
    that floor when [vp * L / T] is not an integer. *)
Lemma share_product (vp T L : Z) :
  (0 < vp <= T)%Z -> (0 <= L)%Z -> (T * (L + 1) <= 2 ^ 51)%Z ->
  exists w : Q,
    member_share vp T L = Ok (trunc w)
    /\ (0 <= w)%Q
    /\ (inject_Z (vp * L / T - 1) <= w)%Q
    /\ (w < inject_Z (vp * L / T + 1))%Q
    /\ (((vp * L) mod T <> 0)%Z -> (inject_Z (vp * L / T) <= w)%Q).
Proof.
  intros Hv HL Hb.
  assert (HT : (0 < T)%Z) by lia.
  assert (HL' : (L + 1 <= 2 ^ 51)%Z) by nia.
  assert (HT' : (T <= 2 ^ 51)%Z) by nia.
  set (N := (vp * L)%Z).
  assert (HN : (0 <= N <= 2 ^ 51 - T)%Z) by (unfold N; nia).
  pose proof (Z.div_mod N T ltac:(lia)) as D.
  pose proof (Z.mod_pos_bound N T HT) as Bm.
  assert (Hk0 : (0 <= N / T)%Z) by (apply Z.div_pos; lia).
  set (k := (N / T)%Z) in *. set (m := (N mod T)%Z) in *.
  (* the rationals involved *)
  pose proof (inject_Z_pos T HT) as QT.
  assert (QTb : (inject_Z T <= 2251799813685248)%Q).
  { change 2251799813685248%Q with (inject_Z (2 ^ 51)). rewrite <- Zle_Qle. exact HT'. }
  pose proof (inject_Z_pos vp ltac:(lia)) as Qv.
  assert (QvT : (inject_Z vp <= inject_Z T)%Q) by (rewrite <- Zle_Qle; lia).
  pose proof (inject_Z_nonneg L HL) as QL.
  pose proof (inject_Z_nonneg k Hk0) as Qk.
  pose proof (inject_Z_nonneg m ltac:(lia)) as Qm.
  assert (QN : (inject_Z N == inject_Z vp * inject_Z L)%Q)
    by (unfold N; rewrite inject_Z_mult; reflexivity).
  assert (QD : (inject_Z N == inject_Z T * inject_Z k + inject_Z m)%Q).
  { rewrite D at 1. rewrite inject_Z_plus, inject_Z_mult. reflexivity. }
  assert (QNb : (inject_Z N <= 2251799813685248)%Q).
  { change 2251799813685248%Q with (inject_Z (2 ^ 51)). rewrite <- Zle_Qle. lia. }
  assert (Qmb : (inject_Z m + 1 <= inject_Z T)%Q).
  { change 1%Q with (inject_Z 1). rewrite <- inject_Z_plus, <- Zle_Qle. lia. }
  set (t := (1 / inject_Z T)%Q).
  assert (Pt : (0 < t)%Q) by (unfold t; apply Qlt_shift_div_l; lra).
  assert (Tt : (inject_Z T * t == 1)%Q) by (unfold t; field; lra).
  assert (tb : ((1 # 2251799813685248) <= t)%Q).
  { unfold t. apply Qle_shift_div_l; [exact QT | lra]. }
  assert (t1 : (t <= 1)%Q).
  { unfold t. apply Qle_shift_div_r; [exact QT|].
    assert (1 <= inject_Z T)%Q; [|lra].
    change 1%Q with (inject_Z 1). rewrite <- Zle_Qle. lia. }
  set (x := (inject_Z vp / inject_Z T)%Q).
  assert (Ex : (x == inject_Z vp * t)%Q) by (unfold x, t; field; lra).
  set (E := (inject_Z N * t)%Q).
  set (f := (inject_Z m * t)%Q).
  assert (EE : (E == inject_Z k + f)%Q).
  { unfold E, f. rewrite QD.
    qreplace ((inject_Z T * inject_Z k + inject_Z m) * t)%Q (inject_Z k * (inject_Z T * t) + inject_Z m * t)%Q.
    rewrite Tt. ring. }
  assert (f0 : (0 <= f)%Q) by (unfold f; apply Qmult_le_0_compat; lra).
  assert (f1 : (f + t <= 1)%Q).
  { unfold f. qreplace (inject_Z m * t + t)%Q ((inject_Z m + 1) * t)%Q.
    apply Qle_trans with (inject_Z T * t)%Q; [|rewrite Tt; lra].
    apply Qmult_le_r; [exact Pt | exact Qmb]. }
  assert (fm : ((m <> 0)%Z -> t <= f)%Q).
  { intros Hm. unfold f. rewrite <- (Qmult_1_l t) at 1.
    apply Qmult_le_r; [exact Pt|]. change 1%Q with (inject_Z 1).
    rewrite <- Zle_Qle. lia. }
  assert (Eu : (E * (1 # 9007199254740992) <= t * (1 # 4))%Q).
  { unfold E.
    qreplace (inject_Z N * t * (1 # 9007199254740992))%Q (inject_Z N * (1 # 9007199254740992) * t)%Q.
    apply Qle_trans with ((1 # 4) * t)%Q; [|lra].
    apply Qmult_le_r; [exact Pt | lra]. }
  assert (E0 : (0 <= E)%Q).
  { unfold E. apply Qmult_le_0_compat; [apply inject_Z_nonneg; lia | lra]. }
  (* first rounding: the quotient *)
  assert (X0 : (pow2 (-1022) <= x)%Q).
  { apply Qle_trans with (pow2 (-51)); [apply pow2_le; lia|].
    change (pow2 (-51)) with (1 # 2251799813685248)%Q.
    rewrite Ex. apply Qle_trans with (1 * t)%Q; [lra|].
    apply Qmult_le_r; [exact Pt|]. change 1%Q with (inject_Z 1).
    rewrite <- Zle_Qle. lia. }
  assert (X1 : (x <= 1)%Q).
  { rewrite Ex. apply Qle_trans with (inject_Z T * t)%Q; [|rewrite Tt; lra].
    apply Qmult_le_r; [exact Pt | exact QvT]. }
  destruct (round64_rel x X0) as [Y1 Y2].
  assert (Y0 : (0 <= round64 x)%Q).
  { apply round64_nonneg. pose proof (pow2_pos (-1022)). lra. }
  assert (Y3 : (round64 x <= 1)%Q).
  { pose proof (pow2_pos (-1022)).
    apply (round64_le0 x 1 1%Z 0%Z);
      [lra | exact X1 | reflexivity | lia | unfold emin; lia]. }
  pose proof pow2_53 as P53.
  unfold member_share, truediv.
  destruct (T =? 0)%Z eqn:T0; [apply Z.eqb_eq in T0; lia|]. fold x.
  rewrite of_Q_finite by lra. cbn [Py.bind]. unfold mul_int.
  destruct (int_to_float_exact L) as (c & Ec & Vc); [lia|].
  rewrite Ec. cbn [Py.bind]. unfold mul.
  set (y := round64 x) in *. set (z := (y * c)%Q). set (w := round64 z).
  (* the product before the second rounding *)
  assert (XL : (x * inject_Z L == E)%Q).
  { unfold E. rewrite QN, Ex. ring. }
  assert (Zup : (z <= E + t * (1 # 4))%Q).
  { apply Qle_trans with (x * (1 + (1 # 9007199254740992)) * inject_Z L)%Q.
    - unfold z. rewrite Vc. apply Qmult_le_compat_r; [exact Y2 | exact QL].
    - qreplace (x * (1 + (1 # 9007199254740992)) * inject_Z L)%Q (x * inject_Z L + x * inject_Z L * (1 # 9007199254740992))%Q.
      rewrite XL. lra. }
  assert (Zlo : (E - t * (1 # 4) <= z)%Q).
  { apply Qle_trans with (x * (1 - (1 # 9007199254740992)) * inject_Z L)%Q.
    - qreplace (x * (1 - (1 # 9007199254740992)) * inject_Z L)%Q (x * inject_Z L - x * inject_Z L * (1 # 9007199254740992))%Q.
      rewrite XL. lra.
    - unfold z. rewrite Vc. apply Qmult_le_compat_r; [exact Y1 | exact QL]. }
  assert (Z0 : (0 <= z)%Q).
  { unfold z. rewrite Vc. apply Qmult_le_0_compat; assumption. }
  assert (W0 : (0 <= w)%Q) by (apply round64_nonneg; exact Z0).
  (* a float strictly between the product and k + 1 *)
  set (j := Z.log2_up (2 * T)).
  destruct (Z.log2_up_spec (2 * T) ltac:(lia)) as [J1 J2]. fold j in J1, J2.
  assert (Hj : (1 <= j <= 53)%Z).
  { split.
    - destruct (Z_lt_le_dec j 1) as [C|]; [|assumption].
      assert (2 ^ j <= 2 ^ 0)%Z by (apply Z.pow_le_mono_r; lia). simpl in *. lia.
    - destruct (Z_lt_le_dec 53 j) as [C|]; [|assumption].
      assert (2 ^ 53 <= 2 ^ Z.pred j)%Z by (apply Z.pow_le_mono_r; lia). lia. }
  assert (J3 : (2 ^ j < 4 * T)%Z).
  { replace j with (Z.succ (Z.pred j)) by lia. rewrite Z.pow_succ_r by lia. lia. }
  set (n := ((k + 1) * 2 ^ j - 1)%Z).
  assert (Pj : (0 < 2 ^ j)%Z) by (apply Z.pow_pos_nonneg; lia).
  assert (Hn : (0 <= n < 2 ^ 53)%Z).
  { unfold n. split; [nia|].
    assert ((k + 1) * 2 ^ j <= (k + 1) * (4 * T))%Z by (apply Z.mul_le_mono_nonneg_l; lia).
    assert (T * k <= N)%Z by lia. nia. }
  assert (Gj : (pow2 (- j) * inject_Z (2 ^ j) == 1)%Q).
  { rewrite <- pow2_Z by lia. rewrite <- pow2_add.
    replace (- j + j)%Z with 0%Z by lia. reflexivity. }
  assert (Gp : (0 < pow2 (- j))%Q) by apply pow2_pos.
  assert (Gt : (pow2 (- j) <= t * (1 # 2))%Q).
  { assert (A : (inject_Z 2 * inject_Z T <= inject_Z (2 ^ j))%Q).
    { rewrite <- inject_Z_mult, <- Zle_Qle. exact J2. }
    change (inject_Z 2) with 2%Q in A.
    assert (B : (pow2 (- j) * (2 * inject_Z T) <= pow2 (- j) * inject_Z (2 ^ j))%Q).
    { apply Qmult_le_l; [exact Gp | exact A]. }
    rewrite Gj in B.
    assert (C : (pow2 (- j) * (2 * inject_Z T) * t == pow2 (- j) * 2)%Q).
    { qreplace (pow2 (- j) * (2 * inject_Z T) * t)%Q (pow2 (- j) * 2 * (inject_Z T * t))%Q.
      rewrite Tt. ring. }
    assert (B' : (pow2 (- j) * (2 * inject_Z T) * t <= 1 * t)%Q).
    { apply Qmult_le_r; [exact Pt | exact B]. }
    rewrite C in B'. lra. }
  set (r := (inject_Z n * pow2 (- j))%Q).
  assert (Er : (r == inject_Z k + 1 - pow2 (- j))%Q).
  { unfold r, n. rewrite inject_Z_sub, inject_Z_mult, inject_Z_plus.
    change (inject_Z 1) with 1%Q.
    qreplace ((((inject_Z k + 1) * inject_Z (2 ^ j)) - 1) * pow2 (- j))%Q ((inject_Z k + 1) * (pow2 (- j) * inject_Z (2 ^ j)) - pow2 (- j))%Q.
    rewrite Gj. ring. }
  assert (Wup : (w <= r)%Q).
  { apply (round64_le0 z r n (- j)%Z); [exact Z0 | | reflexivity | exact Hn | unfold emin; lia].
    rewrite Er, EE in *. lra. }
  (* lower bounds through the integers below the product *)
  assert (Wlo : (inject_Z (k - 1) <= w)%Q).
  { destruct (Z_le_gt_dec k 1) as [K1|K1].
    - apply Qle_trans with 0%Q; [|exact W0].
      change 0%Q with (inject_Z 0). rewrite <- Zle_Qle. lia.
    - assert (Hz : (inject_Z (k - 1) <= z)%Q).
      { rewrite inject_Z_sub. change (inject_Z 1) with 1%Q. rewrite EE in Zlo. lra. }
      apply (round64_ge z _ (k - 1)%Z 0%Z); try lia.
      + apply Qlt_le_trans with (inject_Z (k - 1)); [apply inject_Z_pos; lia | exact Hz].
      + exact Hz.
      + change (pow2 0%Z) with 1%Q. ring.
      + unfold emin. lia. }
  assert (Wk : ((m <> 0)%Z -> inject_Z k <= w)%Q).
  { intros Hm. specialize (fm Hm).
    assert (Hz : (inject_Z k <= z)%Q) by (rewrite EE in Zlo; lra).
    destruct (Z.eq_dec k 0%Z) as [K0|K0]; [rewrite K0; exact W0|].
    apply (round64_ge z _ k 0%Z); try lia.
    - apply Qlt_le_trans with (inject_Z k); [apply inject_Z_pos; lia | exact Hz].
    - exact Hz.
    - change (pow2 0%Z) with 1%Q. ring.
    - unfold emin. lia. }
  assert (Rb : (r <= pow2 53)%Q).
  { unfold r. rewrite P53.
    assert (inject_Z n <= 9007199254740992)%Q.
    { change 9007199254740992%Q with (inject_Z (2 ^ 53)). rewrite <- Zle_Qle. lia. }
    assert (pow2 (- j) <= 1)%Q by lra.
    apply Qle_trans with (inject_Z n * 1)%Q; [|lra].
    apply Qmult_le_l_nonneg || (apply Qmult_le_compat_nonneg; split; try lra;
                                 apply inject_Z_nonneg; lia). }
  fold z. fold w. rewrite of_Q_finite by (fold z; fold w; lra).
  cbn [to_int]. exists w. split; [reflexivity|]. split; [exact W0|].
  split; [exact Wlo|]. split; [|exact Wk].
  rewrite inject_Z_plus. change (inject_Z 1) with 1%Q. lra.
Qed.

(** What [shares_bounded] needs of a share. *)
Lemma member_share_le_floor (vp T L : Z) :
  (0 < vp <= T)%Z -> (0 <= L)%Z -> (T * (L + 1) <= 2 ^ 51)%Z ->
  exists s : Z, member_share vp T L = Ok s /\ (0 <= s)%Z /\ (T * s <= vp * L)%Z.
Proof.
  intros Hv HL Hb.
  destruct (share_product vp T L Hv HL Hb) as (w & Es & W0 & _ & Wup & _).
  exists (trunc w). split; [exact Es|]. rewrite (Qfloor_of_nonneg w W0).
  assert (F0 : (0 <= Qfloor w)%Z).
  { apply Qfloor_resp_le in W0. change 0%Q with (inject_Z 0) in W0.
    rewrite Qfloor_Z in W0. exact W0. }
  split; [exact F0|].
  assert (F1 : (Qfloor w < vp * L / T + 1)%Z).
  { rewrite Zlt_Qlt. pose proof (Qfloor_le w). lra. }
  pose proof (Z.mul_div_le (vp * L) T ltac:(lia)). nia.
Qed.

End ShareBounds.

(** *** The late-fee redistribution as a whole *)

Section LateFeeTotals.
Import PyFloat Chain Distribution.
Local Open Scope Z_scope.

(** X1.  For a member holding [vp] of a total voting power [T] and a late
    fee [L] with [T * (L + 1) <= 2^51], the share
    [int((vp / T) * L)] is computed without an exception, is never
    negative, is the exact floor of [vp * L / T] or one below it, and is
    the exact floor whenever [T] does not divide [vp * L]. *)
Theorem member_share_floor_or_one_below (vp T L : Z) :
  0 < vp <= T -> 0 <= L -> T * (L + 1) <= 2 ^ 51 ->
  exists s : Z,
    member_share vp T L = Ok s
    /\ vp * L / T - 1 <= s <= vp * L / T
    /\ 0 <= s
    /\ ((vp * L) mod T <> 0 -> s = vp * L / T).
Proof.
  intros Hv HL Hb.
  destruct (share_product vp T L Hv HL Hb) as (w & Es & W0 & Wlo & Wup & Wk).
  exists (trunc w). split; [exact Es|]. rewrite (Qfloor_of_nonneg w W0).
  assert (F1 : Qfloor w < vp * L / T + 1).
  { rewrite Zlt_Qlt. pose proof (Qfloor_le w). lra. }
  assert (F2 : vp * L / T - 1 <= Qfloor w).
  { apply Qfloor_resp_le in Wlo. rewrite Qfloor_Z in Wlo. exact Wlo. }
  assert (F3 : 0 <= Qfloor w).
  { apply Qfloor_resp_le in W0. change 0%Q with (inject_Z 0) in W0.
    rewrite Qfloor_Z in W0. exact W0. }
  split; [lia|]. split; [exact F3|].
  intros Hm. specialize (Wk Hm). apply Qfloor_resp_le in Wk.
  rewrite Qfloor_Z in Wk. lia.
Qed.

Lemma member_share_floor_or_one_below_witness :
  exists s : Z,
    member_share 29 100 100 = Ok s
    /\ 29 * 100 / 100 - 1 <= s <= 29 * 100 / 100
    /\ 0 <= s
    /\ ((29 * 100) mod 100 <> 0 -> s = 29 * 100 / 100).
Proof. apply (member_share_floor_or_one_below 29 100 100); [lia | lia | vm_compute; discriminate]. Defined.

Lemma shares_bounded (T L : Z) (dao_members : list Member) :
  0 < T -> 0 <= L -> T * (L + 1) <= 2 ^ 51 ->
  Forall (fun m => 0 <= voting_power m <= T) dao_members ->
  exists l, shares T L dao_members = Ok l
    /\ Forall (fun p => 0 <= snd p) l
    /\ T * foldr Z.add 0 (snd <$> l) <= sum_voting_power dao_members * L.
Proof.
  intros HT HL Hb. unfold sum_voting_power.
  induction 1 as [|m ms Hm _ (l & El & Fl & Sl)].
  - exists []. split; [reflexivity|]. split; [constructor|]. cbn. lia.
  - cbn [shares fmap list_fmap foldr].
    destruct (voting_power m =? 0) eqn:V.
    + exists l. split; [exact El|]. split; [exact Fl|].
      apply Z.eqb_eq in V. rewrite V. cbn in Sl |- *. lia.
    + apply Z.eqb_neq in V.
      destruct (member_share_le_floor (voting_power m) T L) as (s & Es & S0 & Ts);
        [lia | exact HL | exact Hb |].
      rewrite Es. cbn [Py.bind].
      destruct (s =? 0) eqn:S.
      * exists l. split; [exact El|]. split; [exact Fl|]. cbn in Sl |- *. nia.
      * rewrite El. cbn [Py.bind]. exists ((m, s) :: l). split; [reflexivity|].
        split; [constructor; [exact S0 | exact Fl]|].
        cbn [fmap list_fmap foldr snd]. cbn in Sl |- *. nia.
Qed.

Lemma paid_accepted_le (movement_service : MovementService) (l : list (Member * Z)) :
  Forall (fun p => 0 <= snd p) l ->
  forall calls,
    0 <= paid (accepted movement_service calls l) <= foldr Z.add 0 (snd <$> l).
Proof.
  unfold paid. induction 1 as [|[m s] l Hs _ IH]; intros calls.
  - cbn. lia.
  - cbn [accepted fmap list_fmap foldr snd]. cbn [snd] in Hs.
    specialize (IH (calls ++ [SubmitSignedTransaction placeholder_transfer_tx])).
    destruct (submit_signed_transaction movement_service calls placeholder_transfer_tx).
    + cbn [fmap list_fmap foldr share_amount]. cbn in IH. lia.
    + cbn in IH. lia.
Qed.

(** X2.  The late-fee redistribution never pays out more than the late
    fee: when the voting powers are not negative, their total [T] is
    positive and [T * (late_fee_amount + 1) <= 2^51], the activity returns
    with [distributed = True] and [0 <= total_distributed <=
    late_fee_amount], whatever the network answers to the transfers. *)
Theorem late_fees_never_over_distributed (movement_service : MovementService)
    (calls : list Call) (dao_id : string) (late_fee_amount : Z)
    (dao_members : list Member) :
  get_members movement_service calls dao_id = Ok dao_members ->
  Forall (fun m => 0 <= voting_power m) dao_members ->
  0 < sum_voting_power dao_members ->
  0 <= late_fee_amount ->
  sum_voting_power dao_members * (late_fee_amount + 1) <= 2 ^ 51 ->
  exists r calls' d,
    distribute_bnpl_late_fees movement_service calls dao_id late_fee_amount = (Ok r, calls')
    /\ distributed r = true
    /\ total_distributed r = Some d
    /\ 0 <= d <= late_fee_amount.
Proof.
  intros Hg Hv HT HL Hb.
  destruct (shares_bounded (sum_voting_power dao_members) late_fee_amount dao_members
              HT HL Hb) as (l & El & Fl & Sl).
  { apply Forall_forall. intros m Hm. apply voting_power_le_sum; assumption. }
  rewrite (distribute_bnpl_late_fees_all movement_service calls dao_id late_fee_amount
             dao_members l Hg ltac:(lia) El).
  eexists _, _, _. split; [reflexivity|]. split; [reflexivity|]. split; [reflexivity|].
  pose proof (paid_accepted_le movement_service l Fl
                (calls ++ [CallContract dao_id "get_members"])) as P.
  split; [lia|]. nia.
Qed.

Lemma late_fees_never_over_distributed_witness :
  exists r calls' d,
    distribute_bnpl_late_fees (failing_first [member "A" 29; member "B" 71]) []
      "dao" 100 = (Ok r, calls')
    /\ distributed r = true
    /\ total_distributed r = Some d
    /\ 0 <= d <= 100.
Proof.
  apply (late_fees_never_over_distributed
           (failing_first [member "A" 29; member "B" 71]) [] "dao" 100
           [member "A" 29; member "B" 71]).
  - reflexivity.
  - repeat constructor; cbn; lia.
  - reflexivity.
  - lia.
  - vm_compute. discriminate.
Defined.

Lemma submitted_app (a b : nat) : submitted a ++ submitted b = submitted (a + b).
Proof. unfold submitted. symmetry. apply repeat_app. Qed.

(** What the loop leaves behind, whether it returns or raises. *)
Lemma distribute_loop_shape (movement_service : MovementService) (T L : Z)
    (dao_members : list Member) :
  forall calls ds td r calls',
    distribute_loop movement_service T L dao_members calls ds td = (r, calls') ->
    exists n : nat,
      calls' = calls ++ submitted n /\ (n <= length dao_members)%nat
      /\ match r with
         | Raise _ => True
         | Ok (ds', td') =>
             exists new,
               ds' = ds ++ new /\ td' = td + paid new /\ (length new <= n)%nat
               /\ Forall (fun p =>
                    share_amount p <> 0 /\ payout_voting_power p <> 0
                    /\ exists m, m ∈ dao_members
                         /\ address m = member_address p
                         /\ voting_power m = payout_voting_power p
                         /\ member_share (voting_power m) T L = Ok (share_amount p)) new
         end.
Proof.
  induction dao_members as [|m ms IH]; intros calls ds td r calls' H.
  - cbn [distribute_loop] in H. injection H as <- <-. exists 0%nat.
    split; [unfold submitted; cbn; rewrite app_nil_r; reflexivity|]. split; [lia|].
    exists []. rewrite app_nil_r. unfold paid. cbn. split; [reflexivity|].
    split; [lia|]. split; [lia | constructor].
  - cbn [distribute_loop] in H.
    assert (Skip : forall calls0 ds0 td0,
      distribute_loop movement_service T L ms calls0 ds0 td0 = (r, calls') ->
      forall k : nat, calls0 = calls ++ submitted k -> (k <= 1)%nat ->
      forall extra, ds0 = ds ++ extra -> td0 = td + paid extra -> (length extra <= k)%nat ->
      Forall (fun p =>
                share_amount p <> 0 /\ payout_voting_power p <> 0
                /\ exists m', m' ∈ m :: ms
                     /\ address m' = member_address p
                     /\ voting_power m' = payout_voting_power p
                     /\ member_share (voting_power m') T L = Ok (share_amount p)) extra ->
      exists n : nat,
        calls' = calls ++ submitted n /\ (n <= length (m :: ms))%nat
        /\ match r with
           | Raise _ => True
           | Ok (ds', td') =>
               exists new,
                 ds' = ds ++ new /\ td' = td + paid new /\ (length new <= n)%nat
                 /\ Forall (fun p =>
                      share_amount p <> 0 /\ payout_voting_power p <> 0
                      /\ exists m', m' ∈ m :: ms
                           /\ address m' = member_address p
                           /\ voting_power m' = payout_voting_power p
                           /\ member_share (voting_power m') T L = Ok (share_amount p)) new
           end).
    { intros calls0 ds0 td0 H0 k -> Hk extra -> -> Hlen Hex.
      destruct (IH _ _ _ _ _ H0) as (n & -> & Hn & Hr).
      exists (k + n)%nat. rewrite <- app_assoc, submitted_app.
      split; [reflexivity|]. split; [cbn [length]; lia|].
      destruct r as [[ds' td']|e]; [|exact I].
      destruct Hr as (new & -> & -> & Hl & Hf).
      exists (extra ++ new). rewrite app_assoc. split; [reflexivity|].
      split; [unfold paid; rewrite fmap_app, foldr_app;
              generalize (share_amount <$> extra); intros xs;
              induction xs as [|x xs IHx]; cbn; [lia | cbn in IHx; lia]|].
      split; [rewrite length_app; lia|].
      apply Forall_app. split; [exact Hex|].
      eapply Forall_impl; [exact Hf|]. cbn beta.
      intros p (A & B & m' & Hin & C). split; [exact A|]. split; [exact B|].
      exists m'. split; [apply elem_of_cons; right; exact Hin | exact C]. }
    destruct (voting_power m =? 0) eqn:V.
    { apply (Skip _ _ _ H 0%nat) with (extra := []); unfold submitted, paid; cbn;
        [rewrite app_nil_r; reflexivity | lia | rewrite app_nil_r; reflexivity
         | lia | lia | constructor]. }
    destruct (member_share (voting_power m) T L) as [s|e] eqn:Es.
    2:{ injection H as <- <-. exists 0%nat. unfold submitted. cbn.
        rewrite app_nil_r. split; [reflexivity|]. split; [lia | exact I]. }
    destruct (s =? 0) eqn:S.
    { apply (Skip _ _ _ H 0%nat) with (extra := []); unfold submitted, paid; cbn;
        [rewrite app_nil_r; reflexivity | lia | rewrite app_nil_r; reflexivity
         | lia | lia | constructor]. }
    apply Z.eqb_neq in V, S.
    destruct (submit_signed_transaction movement_service calls placeholder_transfer_tx)
      as [h|e].
    + apply (Skip _ _ _ H 1%nat eq_refl ltac:(lia)
               [{| member_address := address m; payout_voting_power := voting_power m;
                   share_amount := s; transaction_hash := h |}] eq_refl).
      * unfold paid. cbn. lia.
      * cbn. lia.
      * constructor; [|constructor]. cbn. split; [exact S|]. split; [exact V|].
        exists m. split; [apply elem_of_cons; left; reflexivity|].
        split; [reflexivity|]. split; [reflexivity | exact Es].
    + apply (Skip _ _ _ H 1%nat eq_refl ltac:(lia) []).
      * rewrite app_nil_r. reflexivity.
      * unfold paid. cbn. lia.
      * cbn. lia.
      * constructor.
Qed.

(** X3.  The record of a late-fee redistribution is consistent: when the
    activity reports [distributed = True], [total_distributed] is the sum
    of the recorded shares, [members_count] is the number of recorded
    payouts, every recorded payout belongs to a listed member of non-zero
    voting power and carries that member's computed, non-zero share, and
    at least as many transfers were requested as were recorded. *)
Theorem late_fee_record_consistent (movement_service : MovementService)
    (calls : list Call) (dao_id : string) (late_fee_amount : Z)
    (r : LateFeeDistribution) (calls' : list Call) :
  distribute_bnpl_late_fees movement_service calls dao_id late_fee_amount = (Ok r, calls') ->
  distributed r = true ->
  exists dao_members ps (n : nat),
    get_members movement_service calls dao_id = Ok dao_members
    /\ distributions r = Some ps
    /\ total_distributed r = Some (paid ps)
    /\ members_count r = length ps
    /\ error r = None
    /\ calls' = calls ++ CallContract dao_id "get_members" :: submitted n
    /\ (length ps <= n <= length dao_members)%nat
    /\ Forall (fun p =>
         share_amount p <> 0 /\ payout_voting_power p <> 0
         /\ exists m, m ∈ dao_members
              /\ address m = member_address p
              /\ voting_power m = payout_voting_power p
              /\ member_share (voting_power m) (sum_voting_power dao_members)
                   late_fee_amount = Ok (share_amount p)) ps.
Proof.
  unfold distribute_bnpl_late_fees. intros H D.
  destruct (get_members movement_service calls dao_id) as [ms|e]; [|discriminate].
  destruct ms as [|m ms]; [injection H as <- <-; discriminate|].
  destruct (sum_voting_power (m :: ms) =? 0); [injection H as <- <-; discriminate|].
  destruct (distribute_loop _ _ _ _ _ _ _) as [[[ds td]|e] c] eqn:E; [|discriminate].
  injection H as <- <-.
  destruct (distribute_loop_shape _ _ _ _ _ _ _ _ _ E) as (n & -> & Hn & new & -> & -> & Hl & Hf).
  exists (m :: ms), new, n. cbn [app distributions total_distributed members_count error].
  split; [reflexivity|]. split; [reflexivity|]. split; [reflexivity|].
  split; [reflexivity|]. split; [reflexivity|].
  split; [rewrite <- app_assoc; reflexivity|]. split; [lia | exact Hf].
Qed.

Lemma late_fee_record_consistent_witness :
  exists dao_members ps (n : nat),
    get_members (failing_first halves) [] "dao" = Ok dao_members
    /\ Some [payout "B" 50 50] = Some ps
    /\ Some 50 = Some (paid ps)
    /\ 1%nat = length ps
    /\ None = (None : option string)
    /\ [CallContract "dao" "get_members";
        SubmitSignedTransaction placeholder_transfer_tx;
        SubmitSignedTransaction placeholder_transfer_tx]
       = [] ++ CallContract "dao" "get_members" :: submitted n
    /\ (length ps <= n <= length dao_members)%nat
    /\ Forall (fun p =>
         share_amount p <> 0 /\ payout_voting_power p <> 0
         /\ exists m, m ∈ dao_members
              /\ address m = member_address p
              /\ voting_power m = payout_voting_power p
              /\ member_share (voting_power m) (sum_voting_power dao_members) 100
                 = Ok (share_amount p)) ps.
Proof.
  apply (late_fee_record_consistent (failing_first halves) [] "dao" 100
           {| lf_dao_id := "dao"; lf_late_fee_amount := 100;
              total_distributed := Some 50; members_count := 1;
              distributions := Some [payout "B" 50 50];
              distributed := true; error := None |}
           [CallContract "dao" "get_members";
            SubmitSignedTransaction placeholder_transfer_tx;
            SubmitSignedTransaction placeholder_transfer_tx]);
    [vm_compute; reflexivity | reflexivity].
Defined.

(** X4.  Whatever the members, their shares and the answers of the
    network, the requests the late-fee redistribution sends are the query
    for the members followed by copies of one and the same placeholder
    transaction, at most one per member: neither the recipient nor the
    share is part of any request, and no [transfer_funds] is ever issued. *)
Theorem late_fee_requests_are_placeholders (movement_service : MovementService)
    (calls : list Call) (dao_id : string) (late_fee_amount : Z) :
  exists n : nat,
    snd (distribute_bnpl_late_fees movement_service calls dao_id late_fee_amount)
    = calls ++ CallContract dao_id "get_members" :: submitted n
    /\ forall dao_members,
         get_members movement_service calls dao_id = Ok dao_members ->
         (n <= length dao_members)%nat.
Proof.
  unfold distribute_bnpl_late_fees.
  destruct (get_members movement_service calls dao_id) as [ms|e].
  2:{ exists 0%nat. split; [reflexivity | discriminate]. }
  destruct ms as [|m ms].
  { exists 0%nat. split; [reflexivity|]. intros ? [= <-]. cbn. lia. }
  destruct (sum_voting_power (m :: ms) =? 0).
  { exists 0%nat. split; [reflexivity|]. intros ? [= <-]. cbn. lia. }
  destruct (distribute_loop _ _ _ _ _ _ _) as [r c] eqn:E.
  destruct (distribute_loop_shape _ _ _ _ _ _ _ _ _ E) as (n & -> & Hn & _).
  exists n. split.
  - destruct r as [[ds td]|e]; cbn [snd]; rewrite <- app_assoc; reflexivity.
  - intros ? [= <-]. exact Hn.
Qed.

End LateFeeTotals.

(** *** Ballots *)

Section Ballots.
Import PyFloat Voting.
Local Open Scope Z_scope.

Lemma count_records_cons (db : DB) (v : VotingRecord) (records : list VotingRecord)
    (dao_id proposal_id : string) (b : bool) :
  voting_records db ≡ₚ v :: records ->
  count_records db dao_id proposal_id b
  = (if bool_decide (vr_dao_id v = dao_id /\ vr_proposal_id v = proposal_id /\ vr_vote v = b)
     then 1 else 0)
    + Z.of_nat (length (filter
        (fun r => vr_dao_id r = dao_id /\ vr_proposal_id r = proposal_id /\ vr_vote r = b)
        records)).
Proof.
  intros P. unfold count_records. rewrite P. rewrite filter_cons.
  destruct (decide _) as [Y|N].
  - rewrite bool_decide_eq_true_2 by exact Y. cbn [length]. lia.
  - rewrite bool_decide_eq_false_2 by exact N. lia.
Qed.

Lemma count_records_nonneg (db : DB) (dao_id proposal_id : string) (b : bool) :
  0 <= count_records db dao_id proposal_id b.
Proof. unfold count_records. lia. Qed.

Lemma count_records_le_length (db : DB) (dao_id proposal_id : string) :
  count_records db dao_id proposal_id true + count_records db dao_id proposal_id false
  <= Z.of_nat (length (voting_records db)).
Proof.
  unfold count_records. induction (voting_records db) as [|x xs IH]; [cbn; lia|].
  rewrite !filter_cons.
  destruct (decide (vr_dao_id x = dao_id /\ vr_proposal_id x = proposal_id
                    /\ vr_vote x = true)) as [A|A];
    destruct (decide (vr_dao_id x = dao_id /\ vr_proposal_id x = proposal_id
                      /\ vr_vote x = false)) as [B|B];
    cbn [length]; try lia.
  destruct A as (_ & _ & A), B as (_ & _ & B). congruence.
Qed.

(** X5.  One more ballot.  When a record [v] is added to the ballots, in
    any position: a record of another DAO or proposal leaves the tally of
    the proposal as it was; a yes for the proposal raises [yes_votes] by one
    and keeps a reached majority reached; a no raises [no_votes] by one and
    keeps a majority that was not reached unreached.  The voter of [v] is
    not looked at: a second ballot of the same voter counts like the
    first.  (Fewer than 2^53 ballots.) *)
Theorem one_more_ballot
    (get_voting_period_by_proposal : DB -> string -> string -> option VotingPeriod)
    (db db' : DB) (v : VotingRecord) (dao_id proposal_id : string) (r : VoteCount) :
  voting_records db' ≡ₚ v :: voting_records db ->
  is_Some (get_voting_period_by_proposal db' dao_id proposal_id) ->
  Z.of_nat (length (voting_records db')) < 2 ^ 53 ->
  count_votes get_voting_period_by_proposal db dao_id proposal_id = Ok r ->
  exists r',
    count_votes get_voting_period_by_proposal db' dao_id proposal_id = Ok r'
    /\ vc_total_votes r' = vc_yes_votes r' + vc_no_votes r'
    /\ (vr_dao_id v <> dao_id \/ vr_proposal_id v <> proposal_id -> r' = r)
    /\ (vr_dao_id v = dao_id -> vr_proposal_id v = proposal_id -> vr_vote v = true ->
        vc_yes_votes r' = vc_yes_votes r + 1 /\ vc_no_votes r' = vc_no_votes r
        /\ (supermajority_reached r = true -> supermajority_reached r' = true))
    /\ (vr_dao_id v = dao_id -> vr_proposal_id v = proposal_id -> vr_vote v = false ->
        vc_yes_votes r' = vc_yes_votes r /\ vc_no_votes r' = vc_no_votes r + 1
        /\ (supermajority_reached r = false -> supermajority_reached r' = false)).
Proof.
  intros P [period' Hp'] Hn Hr. unfold count_votes in *. rewrite Hp'.
  destruct (get_voting_period_by_proposal db dao_id proposal_id) as [period|];
    [|discriminate].
  pose proof (count_records_cons db' v (voting_records db) dao_id proposal_id true P) as Ey.
  pose proof (count_records_cons db' v (voting_records db) dao_id proposal_id false P) as En.
  fold (count_records db dao_id proposal_id true) in Ey.
  fold (count_records db dao_id proposal_id false) in En.
  pose proof (count_records_nonneg db dao_id proposal_id true) as Y0.
  pose proof (count_records_nonneg db dao_id proposal_id false) as N0.
  set (y := count_records db dao_id proposal_id true) in *.
  set (n := count_records db dao_id proposal_id false) in *.
  set (y' := count_records db' dao_id proposal_id true) in *.
  set (n' := count_records db' dao_id proposal_id false) in *.
  assert (Hlen : y + n <= Z.of_nat (length (voting_records db)))
    by apply count_records_le_length.
  assert (Hlen' : Z.of_nat (length (voting_records db'))
                  = Z.of_nat (length (voting_records db)) + 1).
  { rewrite P. cbn [length]. lia. }
  assert (S' : forall a b, 0 <= a -> 0 <= b -> a + b < 2 ^ 53 ->
               supermajority a (a + b) = Ok (a + b <? 2 * a)).
  { intros a b Ha Hb Hab. destruct (Z.eq_dec (a + b) 0) as [Z0|NZ].
    - rewrite Z0. replace a with 0 by lia. reflexivity.
    - apply supermajority_exact. lia. }
  rewrite (S' y n Y0 N0 ltac:(lia)) in Hr. cbn [Py.bind] in Hr. injection Hr as <-.
  cbn [vc_yes_votes vc_no_votes vc_total_votes supermajority_reached].
  assert (Y0' : 0 <= y') by apply count_records_nonneg.
  assert (N0' : 0 <= n') by apply count_records_nonneg.
  assert (B' : y' + n' < 2 ^ 53).
  { rewrite Ey, En. repeat case_bool_decide; try lia. exfalso.
    match goal with
    | A : _ /\ _ /\ vr_vote v = true, B : _ /\ _ /\ vr_vote v = false |- _ =>
        destruct A as (_ & _ & A), B as (_ & _ & B); congruence
    end. }
  rewrite (S' y' n' Y0' N0' B'). cbn [Py.bind]. eexists. split; [reflexivity|].
  cbn [vc_yes_votes vc_no_votes vc_total_votes supermajority_reached].
  split; [reflexivity|]. split; [|split].
  - intros Other.
    rewrite bool_decide_eq_false_2 in Ey by (intros (A & B & _); destruct Other; congruence).
    rewrite bool_decide_eq_false_2 in En by (intros (A & B & _); destruct Other; congruence).
    cbn in Ey, En. rewrite Ey, En. reflexivity.
  - intros Hd Hq Hv.
    rewrite bool_decide_eq_true_2 in Ey by (repeat split; assumption).
    rewrite bool_decide_eq_false_2 in En by (intros (_ & _ & C); congruence).
    split; [lia|]. split; [lia|]. rewrite !Z.ltb_lt. lia.
  - intros Hd Hq Hv.
    rewrite bool_decide_eq_false_2 in Ey by (intros (_ & _ & C); congruence).
    rewrite bool_decide_eq_true_2 in En by (repeat split; assumption).
    split; [lia|]. split; [lia|]. rewrite !Z.ltb_ge. lia.
Qed.

Lemma one_more_ballot_witness :
  let db' := {| voting_records := ballot true "a" :: voting_records six_to_five;
                voting_periods := voting_periods six_to_five |} in
  let r := {| vc_proposal_id := "p1"; vc_yes_votes := 6; vc_no_votes := 5;
              vc_total_votes := 11; supermajority_reached := true |} in
  exists r',
    count_votes by_proposal db' "dao" "p1" = Ok r'
    /\ vc_total_votes r' = vc_yes_votes r' + vc_no_votes r'
    /\ (vr_dao_id (ballot true "a") <> "dao" \/ vr_proposal_id (ballot true "a") <> "p1" ->
        r' = r)
    /\ (vr_dao_id (ballot true "a") = "dao" -> vr_proposal_id (ballot true "a") = "p1" ->
        vr_vote (ballot true "a") = true ->
        vc_yes_votes r' = vc_yes_votes r + 1 /\ vc_no_votes r' = vc_no_votes r
        /\ (supermajority_reached r = true -> supermajority_reached r' = true))
    /\ (vr_dao_id (ballot true "a") = "dao" -> vr_proposal_id (ballot true "a") = "p1" ->
        vr_vote (ballot true "a") = false ->
        vc_yes_votes r' = vc_yes_votes r /\ vc_no_votes r' = vc_no_votes r + 1
        /\ (supermajority_reached r = false -> supermajority_reached r' = false)).
Proof.
  intros db' r.
  apply (one_more_ballot by_proposal six_to_five db' (ballot true "a") "dao" "p1" r).
  - reflexivity.
  - eexists. reflexivity.
  - reflexivity.
  - vm_compute. reflexivity.
Defined.

End Ballots.

(** *** Applications without a yes, and unanimous ones *)

Section Applications.
Import PyFloat Voting.
Local Open Scope Z_scope.

Lemma gt_int_of_value (w : Q) (n m : Z) :
  (w == inject_Z m)%Q -> gt_int (Finite w) n = (n <? m).
Proof.
  intros E. cbn [gt_int]. apply bool_eq_iff. rewrite Qlt_bool_iff, Z.ltb_lt, E.
  symmetry. rewrite Zlt_Qlt. reflexivity.
Qed.

(** [(a / b) * 100 > 50] when the quotient [a / b] is the integer [m]
    (0 or 1 below). *)
Lemma percentage_of_integer_ratio (a b m : Z) :
  b <> 0 -> (inject_Z a / inject_Z b == inject_Z m)%Q -> 0 <= m <= 1 ->
  (ratio <- truediv a b ;; yes_percentage <- mul_int ratio 100 ;;
   Ok (gt_int yes_percentage 50))
  = Ok (50 <? m * 100).
Proof.
  intros Hb E Hm. unfold truediv.
  destruct (b =? 0) eqn:B0; [apply Z.eqb_eq in B0; contradiction|].
  pose proof pow2_53 as P53.
  assert (R : (round64 (inject_Z a / inject_Z b) == inject_Z m)%Q).
  { apply Qeq_trans with (inject_Z a / inject_Z b)%Q; [|exact E].
    apply (round64_exact _ m 0); [|lia | unfold emin; lia].
    rewrite E. change (pow2 0) with 1%Q. ring. }
  assert (M : (0 <= inject_Z m <= 1)%Q).
  { split; [apply inject_Z_nonneg; lia|]. change 1%Q with (inject_Z 1).
    rewrite <- Zle_Qle. lia. }
  rewrite of_Q_finite by (rewrite R; lra). cbn [Py.bind]. unfold mul_int.
  destruct (int_to_float_exact 100) as (c & Ec & Vc); [lia|].
  rewrite Ec. cbn [Py.bind]. unfold mul.
  assert (Pm : (round64 (inject_Z a / inject_Z b) * c == inject_Z (m * 100))%Q).
  { rewrite R, Vc, inject_Z_mult. reflexivity. }
  assert (R2 : (round64 (round64 (inject_Z a / inject_Z b) * c) == inject_Z (m * 100))%Q).
  { apply Qeq_trans with (round64 (inject_Z a / inject_Z b) * c)%Q; [|exact Pm].
    apply (round64_exact _ (m * 100) 0); [|lia | unfold emin; lia].
    rewrite Pm. change (pow2 0) with 1%Q. ring. }
  assert (M2 : (0 <= inject_Z (m * 100) <= 100)%Q).
  { split; [apply inject_Z_nonneg; lia|]. change 100%Q with (inject_Z 100).
    rewrite <- Zle_Qle. lia. }
  rewrite of_Q_finite by (rewrite R2; lra). f_equal.
  apply gt_int_of_value. exact R2.
Qed.

(** X6.  An application whose voting period holds no yes vote ([None] or 0)
    is not approved, whatever its number of no votes; one with a yes vote
    and no no vote ([None] or 0) is approved, however large the number of
    yes votes: the quotient is exactly 0.0 or 1.0, and no count is too large
    for the division. *)
Theorem application_without_opposition (db : DB) (voting_period_id : string)
    (period : VotingPeriod) :
  find (fun p => bool_decide (vp_id p = voting_period_id)) (voting_periods db)
    = Some period ->
  (or_0 (vp_yes_votes period) = 0 ->
   count_application_votes db voting_period_id
   = Ok {| avc_yes_votes := 0;
           avc_no_votes := or_0 (vp_no_votes period);
           avc_total_votes := or_0 (vp_no_votes period);
           approved := false |})
  /\ (0 < or_0 (vp_yes_votes period) -> or_0 (vp_no_votes period) = 0 ->
      count_application_votes db voting_period_id
      = Ok {| avc_yes_votes := or_0 (vp_yes_votes period);
              avc_no_votes := 0;
              avc_total_votes := or_0 (vp_yes_votes period);
              approved := true |}).
Proof.
  intros F. unfold count_application_votes. rewrite F. split.
  - intros ->. rewrite Z.add_0_l. unfold application_approved.
    destruct (0 <? or_0 (vp_no_votes period)) eqn:T; [|reflexivity].
    apply Z.ltb_lt in T.
    rewrite (percentage_of_integer_ratio 0 _ 0); [reflexivity | lia | | lia].
    change (inject_Z 0) with 0%Q. unfold Qdiv. ring.
  - intros Y ->. rewrite Z.add_0_r. unfold application_approved.
    destruct (0 <? or_0 (vp_yes_votes period)) eqn:T; [|apply Z.ltb_ge in T; lia].
    rewrite (percentage_of_integer_ratio _ _ 1); [reflexivity | lia | | lia].
    change (inject_Z 1) with 1%Q. field.
    assert (0 < inject_Z (or_0 (vp_yes_votes period)))%Q by (apply inject_Z_pos; exact Y).
    lra.
Qed.

Lemma application_without_opposition_witness :
  let period := {| vp_id := "vp1"; vp_dao_id := "dao"; vp_proposal_id := "p1";
                   vp_yes_votes := Some (2 ^ 2000); vp_no_votes := None |} in
  let db := {| voting_records := []; voting_periods := [period] |} in
  (or_0 (vp_yes_votes period) = 0 ->
   count_application_votes db "vp1"
   = Ok {| avc_yes_votes := 0;
           avc_no_votes := or_0 (vp_no_votes period);
           avc_total_votes := or_0 (vp_no_votes period);
           approved := false |})
  /\ (0 < or_0 (vp_yes_votes period) -> or_0 (vp_no_votes period) = 0 ->
      count_application_votes db "vp1"
      = Ok {| avc_yes_votes := or_0 (vp_yes_votes period);
              avc_no_votes := 0;
              avc_total_votes := or_0 (vp_yes_votes period);
              approved := true |}).
Proof.
  intros period db.
  apply (application_without_opposition db "vp1" period). reflexivity.
Defined.

End Applications.

(** *** What a late-fee check changes *)

Section LateFeeFrame.
Import Bnpl.
Local Open Scope Z_scope.

Lemma set_late_keeps (p : BNPLPayment) (fee : Z) :
  payment_request_id (set_late p fee) = payment_request_id p
  /\ installment_number (set_late p fee) = installment_number p
  /\ amount (set_late p fee) = amount p
  /\ due_date (set_late p fee) = due_date p
  /\ paid_date (set_late p fee) = paid_date p.
Proof. repeat split. Qed.

(** X7.  A late-fee check of a payment that is not in the table raises
    [ValueError] in both activities.  A check that returns has changed at
    most the row it was asked about, and of that row at most the status and
    the late fee: the amount, the due date, the payment request, the
    installment number and the paid date are as before, and the row is
    either untouched or went from [Pending] to [Late] after its due date,
    with [int(amount * 0.05)] as its fee. *)
Theorem late_fee_check_frame (now : datetime) (db : gmap string BNPLPayment)
    (id : string) :
  (db !! id = None ->
   apply_bnpl_late_fee now db id
   = Raise (ValueError ("BNPL payment " +:+ id +:+ " not found"))
   /\ track_bnpl_payment_status now db id
      = Raise (ValueError ("BNPL payment " +:+ id +:+ " not found")))
  /\ forall db',
       (exists r, apply_bnpl_late_fee now db id = Ok (r, db'))
       \/ (exists t, track_bnpl_payment_status now db id = Ok (t, db')) ->
       (forall id', id' <> id -> db' !! id' = db !! id')
       /\ exists p p',
            db !! id = Some p /\ db' !! id = Some p'
            /\ payment_request_id p' = payment_request_id p
            /\ installment_number p' = installment_number p
            /\ amount p' = amount p
            /\ due_date p' = due_date p
            /\ paid_date p' = paid_date p
            /\ (p' = p
                \/ (status p = Pending /\ due_date p < now /\ status p' = Late
                    /\ late_fee_of (amount p) = Ok (late_fee p'))).
Proof.
  split.
  - intros N. unfold apply_bnpl_late_fee, track_bnpl_payment_status. rewrite N.
    split; reflexivity.
  - intros db' H.
    assert (Changed : forall p fee,
      db !! id = Some p -> is_pending (status p) && (due_date p <? now) = true ->
      late_fee_of (amount p) = Ok fee -> db' = <[id := set_late p fee]> db ->
      (forall id', id' <> id -> db' !! id' = db !! id')
      /\ exists p0 p',
           db !! id = Some p0 /\ db' !! id = Some p'
           /\ payment_request_id p' = payment_request_id p0
           /\ installment_number p' = installment_number p0
           /\ amount p' = amount p0
           /\ due_date p' = due_date p0
           /\ paid_date p' = paid_date p0
           /\ (p' = p0
               \/ (status p0 = Pending /\ due_date p0 < now /\ status p' = Late
                   /\ late_fee_of (amount p0) = Ok (late_fee p')))).
    { intros p fee Hp Hc Hf ->. split.
      - intros id' Hne. apply lookup_insert_ne. congruence.
      - exists p, (set_late p fee). split; [exact Hp|].
        split; [apply lookup_insert_eq|].
        destruct (set_late_keeps p fee) as (A & B & C & D & E).
        repeat (split; [assumption|]). right.
        apply andb_prop in Hc as [Hs Hd]. apply Z.ltb_lt in Hd.
        destruct (status p); try discriminate.
        split; [reflexivity|]. split; [exact Hd|]. split; [reflexivity | exact Hf]. }
    assert (Same : forall p, db !! id = Some p -> db' = db ->
      (forall id', id' <> id -> db' !! id' = db !! id')
      /\ exists p0 p',
           db !! id = Some p0 /\ db' !! id = Some p'
           /\ payment_request_id p' = payment_request_id p0
           /\ installment_number p' = installment_number p0
           /\ amount p' = amount p0
           /\ due_date p' = due_date p0
           /\ paid_date p' = paid_date p0
           /\ (p' = p0
               \/ (status p0 = Pending /\ due_date p0 < now /\ status p' = Late
                   /\ late_fee_of (amount p0) = Ok (late_fee p')))).
    { intros p Hp ->. split; [reflexivity|]. exists p, p.
      repeat (split; [first [assumption | reflexivity] | ]). left. reflexivity. }
    destruct H as [[r H]|[t H]].
    + unfold apply_bnpl_late_fee in H. destruct (db !! id) as [p|] eqn:Hp; [|discriminate].
      destruct (is_pending (status p) && (due_date p <? now)) eqn:Hc.
      * destruct (late_fee_of (amount p)) as [fee|e] eqn:Hf; [|discriminate].
        cbn [Py.bind] in H. injection H as _ <-. exact (Changed p fee eq_refl Hc Hf eq_refl).
      * injection H as _ <-. exact (Same p eq_refl eq_refl).
    + unfold track_bnpl_payment_status in H.
      destruct (db !! id) as [p|] eqn:Hp; [|discriminate].
      destruct (is_pending (status p) && (due_date p <? now)
                && bool_decide (paid_date p = None)) eqn:Hc.
      * apply andb_prop in Hc as [Hc _].
        destruct (late_fee_of (amount p)) as [fee|e] eqn:Hf; [|discriminate].
        cbn [Py.bind] in H. injection H as _ <-. exact (Changed p fee eq_refl Hc Hf eq_refl).
      * injection H as _ <-. exact (Same p eq_refl eq_refl).
Qed.

End LateFeeFrame.

(** *** The payouts of interest and of liquidation funds *)

Section PayoutShape.
Import Chain Distribution.
Local Open Scope Z_scope.
Context {DB Pct : Type}.
Variable movement_service : MovementService.
Variable service : PayoutService DB Pct.

(** What the loop of a payout leaves behind, whether it returns or raises. *)
Lemma pay_members_shape (subject dao_id : string) (total_amount total_investment : Z)
    (members : list (string * Z)) :
  forall db calls ds hs r db' calls',
    pay_members movement_service service subject dao_id total_amount total_investment
      members db calls ds hs = (r, (db', calls')) ->
    exists sent,
      calls' = calls ++ sent
      /\ (length sent <= length members)%nat
      /\ Forall (fun c => exists a s, c = TransferFunds dao_id a s /\ 0 < s
                                      /\ a ∈ members.*1) sent
      /\ match r with
         | Raise _ => True
         | Ok (ds', hs') =>
             exists new,
               hs' = hs ++ new /\ length new = length sent
               /\ (size ds' <= size ds + length sent)%nat
               /\ forall a s, ds' !! a = Some s ->
                    ds !! a = Some s \/ TransferFunds dao_id a s ∈ sent
         end.
Proof.
  induction members as [|[member_address member_investment] rest IH];
    intros db calls ds hs r db' calls' H.
  - cbn [pay_members] in H. injection H as <- <- <-. exists [].
    rewrite app_nil_r. split; [reflexivity|]. split; [cbn; lia|]. split; [constructor|].
    exists []. rewrite app_nil_r. split; [reflexivity|]. split; [reflexivity|].
    split; [cbn; lia|]. intros a s Hs. left. exact Hs.
  - cbn [pay_members] in H.
    destruct (get_member_voting_power_percentage service member_investment
                total_investment) as [pct|e].
    2:{ injection H as <- <- <-. exists []. rewrite app_nil_r.
        split; [reflexivity|]. split; [cbn; lia|]. split; [constructor | exact I]. }
    destruct (calculate_member_share service pct total_amount) as [share|e].
    2:{ injection H as <- <- <-. exists []. rewrite app_nil_r.
        split; [reflexivity|]. split; [cbn; lia|]. split; [constructor | exact I]. }
    destruct (0 <? share) eqn:Pos.
    2:{ destruct (IH _ _ _ _ _ _ _ H) as (sent & -> & Hl & Hf & Hr).
        exists sent. split; [reflexivity|]. split; [cbn [length]; lia|].
        split; [|exact Hr].
        eapply Forall_impl; [exact Hf|]. cbn beta. intros c (a & s & -> & Hs & Hin).
        exists a, s. split; [reflexivity|]. split; [exact Hs|].
        cbn [fmap list_fmap fst]. apply elem_of_cons. right. exact Hin. }
    apply Z.ltb_lt in Pos.
    assert (Here : exists a s,
              TransferFunds dao_id member_address share = TransferFunds dao_id a s
              /\ 0 < s /\ a ∈ ((member_address, member_investment) :: rest).*1).
    { exists member_address, share. split; [reflexivity|]. split; [exact Pos|].
      cbn [fmap list_fmap fst]. apply elem_of_cons. left. reflexivity. }
    destruct (transfer_funds movement_service calls dao_id member_address share)
      as [tx_hash|e].
    2:{ injection H as <- <- <-. exists [TransferFunds dao_id member_address share].
        split; [reflexivity|]. split; [cbn; lia|].
        split; [constructor; [exact Here | constructor] | exact I]. }
    destruct (record_distribution service db subject member_address share) as [db1|e].
    2:{ injection H as <- <- <-. exists [TransferFunds dao_id member_address share].
        split; [reflexivity|]. split; [cbn; lia|].
        split; [constructor; [exact Here | constructor] | exact I]. }
    destruct (IH _ _ _ _ _ _ _ H) as (sent & -> & Hl & Hf & Hr).
    exists (TransferFunds dao_id member_address share :: sent).
    split; [rewrite <- app_assoc; reflexivity|]. split; [cbn [length]; lia|].
    split.
    { constructor; [exact Here|].
      eapply Forall_impl; [exact Hf|]. cbn beta. intros c (a & s & -> & Hs & Hin).
      exists a, s. split; [reflexivity|]. split; [exact Hs|].
      cbn [fmap list_fmap fst]. apply elem_of_cons. right. exact Hin. }
    destruct r as [[ds' hs']|e]; [|exact I].
    destruct Hr as (new & -> & Hn & Hsz & Hd).
    exists (tx_hash :: new). split; [rewrite <- app_assoc; reflexivity|].
    split; [cbn [length]; lia|]. split.
    { pose proof (map_size_insert member_address share ds) as Si.
      destruct (ds !! member_address); cbn in Si; cbn [length]; lia. }
    intros a s Hs. destruct (Hd a s Hs) as [Old|In].
    + destruct (decide (a = member_address)) as [->|Ne].
      * rewrite lookup_insert_eq in Old. injection Old as <-.
        right. apply elem_of_cons. left. reflexivity.
      * rewrite lookup_insert_ne in Old by congruence. left. exact Old.
    + right. apply elem_of_cons. right. exact In.
Qed.

Lemma zip_fst_subset {A B : Type} (l : list A) (k : list B) (a : A) :
  a ∈ (zip l k).*1 -> a ∈ l.
Proof.
  revert k. induction l as [|x l IH]; intros [|y k] H; cbn in H;
    try (apply elem_of_nil in H; contradiction).
  apply elem_of_cons in H as [->|H]; apply elem_of_cons; [left; reflexivity|].
  right. exact (IH k H).
Qed.

Lemma distribute_shape (zero_investment subject dao_id : string) (total_amount : Z)
    (member_addresses : list string) (member_investments : list Z)
    (db : DB) (calls : list Call) :
  exists sent,
    snd (snd (distribute movement_service service zero_investment subject dao_id
                total_amount member_addresses member_investments db calls))
    = calls ++ sent
    /\ (length sent <= length member_addresses)%nat
    /\ (length sent <= length member_investments)%nat
    /\ Forall (fun c => exists a s, c = TransferFunds dao_id a s /\ 0 < s
                                    /\ a ∈ member_addresses) sent
    /\ match fst (distribute movement_service service zero_investment subject dao_id
                    total_amount member_addresses member_investments db calls) with
       | Raise _ => True
       | Ok r =>
           length (transaction_hashes r) = length sent
           /\ (size (payouts r) <= length sent)%nat
           /\ (members_paid r = Some (size (payouts r))
               \/ (members_paid r = None /\ total_amount = 0 /\ sent = []))
           /\ forall a s, payouts r !! a = Some s -> TransferFunds dao_id a s ∈ sent
       end.
Proof.
  unfold distribute.
  destruct (total_amount =? 0) eqn:T0.
  { apply Z.eqb_eq in T0. exists []. cbn [fst snd]. rewrite app_nil_r.
    split; [reflexivity|]. split; [cbn; lia|]. split; [cbn; lia|].
    split; [constructor|]. cbn [transaction_hashes payouts members_paid].
    split; [reflexivity|]. split; [rewrite map_size_empty; cbn; lia|].
    split; [right; repeat split; assumption|].
    intros a s Hs. rewrite lookup_empty in Hs. discriminate. }
  destruct (sum_investments member_investments =? 0).
  { exists []. cbn [fst snd]. rewrite app_nil_r. split; [reflexivity|].
    split; [cbn; lia|]. split; [cbn; lia|]. split; [constructor | exact I]. }
  destruct (pay_members _ _ _ _ _ _ _ _ _ _ _) as [r [db' calls']] eqn:E.
  destruct (pay_members_shape _ _ _ _ _ _ _ _ _ _ _ _ E) as (sent & -> & Hl & Hf & Hr).
  rewrite length_zip in Hl.
  assert (Hf' : Forall (fun c => exists a s, c = TransferFunds dao_id a s /\ 0 < s
                                             /\ a ∈ member_addresses) sent).
  { eapply Forall_impl; [exact Hf|]. cbn beta. intros c (a & s & -> & Hs & Hin).
    exists a, s. split; [reflexivity|]. split; [exact Hs|].
    exact (zip_fst_subset _ _ _ Hin). }
  exists sent.
  destruct r as [[ds hs]|e].
  - destruct Hr as (new & -> & Hn & Hsz & Hd). rewrite map_size_empty in Hsz.
    destruct (validate_distribution_sum service ds total_amount) as [b|e]; cbn [fst snd].
    + split; [reflexivity|]. split; [lia|]. split; [lia|]. split; [exact Hf'|].
      cbn [transaction_hashes payouts members_paid app].
      split; [exact Hn|]. split; [lia|]. split; [left; reflexivity|].
      intros a s Hs. destruct (Hd a s Hs) as [Old|In]; [|exact In].
      rewrite lookup_empty in Old. discriminate.
    + split; [reflexivity|]. split; [lia|]. split; [lia|]. split; [exact Hf' | exact I].
  - cbn [fst snd]. split; [reflexivity|]. split; [lia|]. split; [lia|].
    split; [exact Hf' | exact I].
Qed.

End PayoutShape.

Section PayoutRecords.
Import Chain Distribution.
Local Open Scope Z_scope.
Context {DB Pct : Type}.
Variable movement_service : MovementService.
Variable service : PayoutService DB Pct.
Variable calculate_total_interest : DB -> string -> result Z.
Variable calculate_total_available_funds : DB -> string -> Z -> result Z.


(** X9.  The record of a payout that returns: [transaction_hashes] holds
    one hash for each transfer sent; every entry of [distributions] is the
    recipient and the amount of a transfer that was sent; and
    [members_paid], the number of entries of [distributions], is at most
    the number of transfers, since an address listed twice is paid twice and
    counted once.  ([members_paid] is left out of the record only when the
    total is 0 and nothing was sent.) *)
Theorem payout_record_consistent (db : DB) (calls : list Call)
    (loan_id dao_id : string) (member_addresses : list string)
    (member_investments : list Z) (treasury_balance : Z)
    (r : PayoutResult) (db' : DB) (calls' : list Call) :
  distribute_loan_interest movement_service service calculate_total_interest
    db calls loan_id dao_id member_addresses member_investments = (Ok r, (db', calls'))
  \/ distribute_liquidation_funds movement_service service
       calculate_total_available_funds db calls dao_id member_addresses
       member_investments treasury_balance = (Ok r, (db', calls')) ->
  exists sent,
    calls' = calls ++ sent
    /\ length (transaction_hashes r) = length sent
    /\ (size (payouts r) <= length sent)%nat
    /\ (members_paid r = Some (size (payouts r))
        \/ (members_paid r = None /\ total_amount r = 0 /\ sent = []))
    /\ forall a s, payouts r !! a = Some s -> TransferFunds dao_id a s ∈ sent.
Proof.
  intros [H|H].
  - unfold distribute_loan_interest in H.
    destruct (calculate_total_interest db loan_id) as [t|e]; [|discriminate].
    destruct (distribute_shape movement_service service
                "Total investment is zero, cannot distribute interest"
                loan_id dao_id t member_addresses member_investments db calls)
      as (sent & E & _ & _ & _ & R).
    rewrite H in E, R. cbn [fst snd] in E, R. destruct R as (A & B & C & D).
    exists sent. split; [exact E|]. split; [exact A|]. split; [exact B|].
    split; [|exact D].
    destruct C as [C|(C1 & C2 & C3)]; [left; exact C|]. right.
    split; [exact C1|]. split; [|exact C3].
    unfold distribute in H. rewrite C2 in H. cbn in H. injection H as <- _ _. reflexivity.
  - unfold distribute_liquidation_funds in H.
    destruct (calculate_total_available_funds db dao_id treasury_balance) as [t|e];
      [|discriminate].
    destruct (distribute_shape movement_service service
                "Total investment is zero, cannot distribute funds"
                dao_id dao_id t member_addresses member_investments db calls)
      as (sent & E & _ & _ & _ & R).
    rewrite H in E, R. cbn [fst snd] in E, R. destruct R as (A & B & C & D).
    exists sent. split; [exact E|]. split; [exact A|]. split; [exact B|].
    split; [|exact D].
    destruct C as [C|(C1 & C2 & C3)]; [left; exact C|]. right.
    split; [exact C1|]. split; [|exact C3].
    unfold distribute in H. rewrite C2 in H. cbn in H. injection H as <- _ _. reflexivity.
Qed.

End PayoutRecords.

Section PayoutRecordsWitness.
Import Chain Distribution.
Local Open Scope Z_scope.

Lemma twice_listed_member_paid_twice :
  distribute_loan_interest (accepting []) floor_share_service scenario_interest
    [] [] "loan" "dao" ["A"; "A"] [50; 50]
  = (Ok {| total_amount := 500;
           payouts := <["A" := 250]> (<["A" := 250]> ∅);
           transaction_hashes := ["0xtx"; "0xtx"];
           members_paid := Some 1%nat |},
     ([("loan", "A", 250); ("loan", "A", 250)],
      [TransferFunds "dao" "A" 250; TransferFunds "dao" "A" 250])).
Proof. vm_compute. reflexivity. Qed.

Lemma payout_record_consistent_witness :
  let r := {| total_amount := 500;
              payouts := <["A" := 250]> (<["A" := 250]> ∅);
              transaction_hashes := ["0xtx"; "0xtx"];
              members_paid := Some 1%nat |} in
  exists sent,
    [TransferFunds "dao" "A" 250; TransferFunds "dao" "A" 250] = [] ++ sent
    /\ length (transaction_hashes r) = length sent
    /\ (size (payouts r) <= length sent)%nat
    /\ (members_paid r = Some (size (payouts r))
        \/ (members_paid r = None /\ total_amount r = 0 /\ sent = []))
    /\ forall a s, payouts r !! a = Some s -> TransferFunds "dao" a s ∈ sent.
Proof.
  intros r.
  apply (payout_record_consistent (accepting []) floor_share_service scenario_interest
           whole_treasury [] [] "loan" "dao" ["A"; "A"] [50; 50] 0 r
           [("loan", "A", 250); ("loan", "A", 250)]
           [TransferFunds "dao" "A" 250; TransferFunds "dao" "A" 250]).
  left. vm_compute. reflexivity.
Defined.

End PayoutRecordsWitness.

Section Verdict.
Import Chain Distribution.
Local Open Scope Z_scope.
Context {DB Pct : Type}.
Variable movement_service : MovementService.
Variable service : PayoutService DB Pct.

Lemma pay_members_with_verdict (verdict : gmap string Z -> Z -> bool)
    (subject dao_id : string) (total_amount total_investment : Z)
    (members : list (string * Z)) :
  forall db calls ds hs,
    pay_members movement_service (with_verdict service verdict) subject dao_id
      total_amount total_investment members db calls ds hs
    = pay_members movement_service service subject dao_id
        total_amount total_investment members db calls ds hs.
Proof.
  induction members as [|[a inv] rest IH]; intros db calls ds hs; [reflexivity|].
  cbn [pay_members with_verdict get_member_voting_power_percentage
       calculate_member_share record_distribution].
  destruct (get_member_voting_power_percentage service inv total_investment) as [pct|e];
    [|reflexivity].
  destruct (calculate_member_share service pct total_amount) as [share|e]; [|reflexivity].
  destruct (0 <? share); [|apply IH].
  destruct (transfer_funds movement_service calls dao_id a share) as [h|e]; [|reflexivity].
  destruct (record_distribution service db subject a share) as [db1|e]; [|reflexivity].
  apply IH.
Qed.

(** X10.  The check of the distribution sum is advisory: whether
    [validate_distribution_sum] answers [True] or [False], the two payout
    activities return the same record, leave the same database and have sent
    the same requests. *)
Theorem distribution_sum_check_is_advisory
    (calculate_total_interest : DB -> string -> result Z)
    (calculate_total_available_funds : DB -> string -> Z -> result Z)
    (verdict verdict' : gmap string Z -> Z -> bool)
    (db : DB) (calls : list Call) (loan_id dao_id : string)
    (member_addresses : list string) (member_investments : list Z)
    (treasury_balance : Z) :
  distribute_loan_interest movement_service (with_verdict service verdict)
    calculate_total_interest db calls loan_id dao_id member_addresses member_investments
  = distribute_loan_interest movement_service (with_verdict service verdict')
      calculate_total_interest db calls loan_id dao_id member_addresses member_investments
  /\ distribute_liquidation_funds movement_service (with_verdict service verdict)
       calculate_total_available_funds db calls dao_id member_addresses
       member_investments treasury_balance
     = distribute_liquidation_funds movement_service (with_verdict service verdict')
         calculate_total_available_funds db calls dao_id member_addresses
         member_investments treasury_balance.
Proof.
  assert (D : forall zero subject total,
    distribute movement_service (with_verdict service verdict) zero subject dao_id total
      member_addresses member_investments db calls
    = distribute movement_service (with_verdict service verdict') zero subject dao_id total
        member_addresses member_investments db calls).
  { intros zero subject total. unfold distribute.
    destruct (total =? 0); [reflexivity|].
    destruct (sum_investments member_investments =? 0); [reflexivity|].
    rewrite !pay_members_with_verdict.
    destruct (pay_members _ _ _ _ _ _ _ _ _ _ _) as [[[ds hs]|e] w]; reflexivity. }
  split.
  - unfold distribute_loan_interest.
    destruct (calculate_total_interest db loan_id); [apply D | reflexivity].
  - unfold distribute_liquidation_funds.
    destruct (calculate_total_available_funds db dao_id treasury_balance);
      [apply D | reflexivity].
Qed.

End Verdict.

(** *** Decay in batches *)

Section DecayBatches.
Import Risk.
Local Open Scope Z_scope.
Context {Store : Type} `{RiskProfileService Store}.

Lemma decay_loop_app (us1 us2 : list string) :
  forall (store : Store) (a t : Z),
    decay_loop (us1 ++ us2) store a t
    = match decay_loop us1 store a t with
      | (Ok (a', t'), store') => decay_loop us2 store' a' t'
      | (Raise e, store') => (Raise e, store')
      end.
Proof.
  induction us1 as [|u us IH]; intros store a t; [reflexivity|].
  cbn [app decay_loop].
  destruct (service_apply_decay store u) as [[profile store']|e]; [apply IH | reflexivity].
Qed.

Lemma decay_loop_shift (user_ids : list string) :
  forall (store : Store) (a t : Z),
    decay_loop user_ids store a t
    = match decay_loop user_ids store 0 0 with
      | (Ok (a', t'), store') => (Ok (a + a', t + t'), store')
      | (Raise e, store') => (Raise e, store')
      end.
Proof.
  induction user_ids as [|u us IH]; intros store a t.
  - cbn [decay_loop]. rewrite !Z.add_0_r. reflexivity.
  - cbn [decay_loop].
    destruct (service_apply_decay store u) as [[profile store']|e]; [|reflexivity].
    rewrite (IH store' (a + 1) (t + 2)), (IH store' (0 + 1) (0 + 2)).
    destruct (decay_loop us store' 0 0) as [[[a' t']|e] s]; [|reflexivity].
    f_equal. f_equal. f_equal; lia.
Qed.

(** X11.  Decay in two batches.  When [apply_decay] returns for a first
    batch of users, running it on a second batch from the store it left is
    the same as one run on both batches: the same final store, the counts
    added up.  If the second batch raises, so does the single run, and it
    leaves the same store behind: the users before the failing one keep
    their decay, the users after it are not processed, and no count is
    reported. *)
Theorem decay_in_batches (store store1 : Store) (us1 us2 : list string)
    (r1 : DecayResult) :
  apply_decay store us1 = (Ok r1, store1) ->
  apply_decay store (us1 ++ us2)
  = match apply_decay store1 us2 with
    | (Ok r2, store2) =>
        (Ok {| users_affected := users_affected r1 + users_affected r2;
               total_decay_points := total_decay_points r1 + total_decay_points r2;
               completed := true |}, store2)
    | (Raise e, store2) => (Raise e, store2)
    end.
Proof.
  unfold apply_decay. intros H1. rewrite decay_loop_app.
  destruct (decay_loop us1 store 0 0) as [[[a1 t1]|e] s1]; [|discriminate].
  injection H1 as <- <-. cbn [users_affected total_decay_points].
  rewrite decay_loop_shift.
  destruct (decay_loop us2 s1 0 0) as [[[a2 t2]|e] s2]; reflexivity.
Qed.

End DecayBatches.

Section DecayBatchesWitness.
Import Risk.
Local Open Scope Z_scope.

Lemma decay_in_batches_witness :
  apply_decay idle_and_active (["idle"] ++ ["active"])
  = match apply_decay idle_and_active ["active"] with
    | (Ok r2, store2) =>
        (Ok {| users_affected := 1 + users_affected r2;
               total_decay_points := 2 + total_decay_points r2;
               completed := true |}, store2)
    | (Raise e, store2) => (Raise e, store2)
    end.
Proof.
  apply (decay_in_batches idle_and_active idle_and_active ["idle"] ["active"]
           {| users_affected := 1; total_decay_points := 2; completed := true |}).
  reflexivity.
Defined.

End DecayBatchesWitness.

(** *** Reminders, schedules and late fees *)

Section ReminderCounts.
Import Bnpl Accounts Reminders.
Local Open Scope Z_scope.
Variable payment_requests : gmap string PaymentRequest.
Variable users : gmap string User.

Lemma remind_count (l : list BNPLPayment) :
  forall a,
    remind payment_requests users l a
    = a + Z.of_nat (length (filter
            (fun p => match payment_requests !! payment_request_id p with
                      | None => false
                      | Some payment_request =>
                          bool_decide (is_Some (users !! payer_id payment_request))
                      end = true) l)).
Proof.
  induction l as [|p l IH]; intros a; [cbn; lia|].
  cbn [remind]. rewrite filter_cons.
  destruct (payment_requests !! payment_request_id p) as [payment_request|].
  - destruct (users !! payer_id payment_request) as [payer|] eqn:U.
    + rewrite decide_True by (apply bool_decide_eq_true_2; eexists; reflexivity).
      rewrite IH. cbn [length]. lia.
    + rewrite decide_False
        by (rewrite bool_decide_eq_false_2; [discriminate | intros [? ?]; discriminate]).
      apply IH.
  - rewrite decide_False by discriminate. apply IH.
Qed.

(** The number of reminders is the number of payments that are pending,
    due within the window, and whose request and payer are found. *)
Lemma reminders_sent_count (now : datetime) (payments : gmap string BNPLPayment) :
  reminders_sent (check_bnpl_installment_reminders payment_requests users now payments)
  = Z.of_nat (length (filter
      (fun p => reminded payment_requests users now p = true) (map_to_list payments).*2)).
Proof.
  unfold check_bnpl_installment_reminders. cbn [reminders_sent]. rewrite remind_count.
  rewrite Z.add_0_l. f_equal. f_equal.
  rewrite list_filter_filter. apply list_filter_iff. intros p.
  unfold reminded. rewrite andb_true_iff. tauto.
Qed.

Lemma reminders_insert_fresh (now : datetime) (payments : gmap string BNPLPayment)
    (id : string) (p : BNPLPayment) :
  payments !! id = None ->
  reminders_sent (check_bnpl_installment_reminders payment_requests users now
                    (<[id := p]> payments))
  = reminders_sent (check_bnpl_installment_reminders payment_requests users now payments)
    + (if reminded payment_requests users now p then 1 else 0).
Proof.
  intros F. rewrite !reminders_sent_count.
  rewrite (map_to_list_insert payments id p F). cbn [fmap list_fmap snd].
  rewrite filter_cons.
  destruct (reminded payment_requests users now p).
  - rewrite decide_True by reflexivity. cbn [length]. lia.
  - rewrite decide_False by discriminate. lia.
Qed.

Lemma reminders_insert_over (now : datetime) (payments : gmap string BNPLPayment)
    (id : string) (p p' : BNPLPayment) :
  payments !! id = Some p ->
  reminded payment_requests users now p = false ->
  reminded payment_requests users now p' = false ->
  check_bnpl_installment_reminders payment_requests users now (<[id := p']> payments)
  = check_bnpl_installment_reminders payment_requests users now payments.
Proof.
  intros F N N'.
  assert (E : reminders_sent
                (check_bnpl_installment_reminders payment_requests users now
                   (<[id := p']> payments))
              = reminders_sent
                  (check_bnpl_installment_reminders payment_requests users now payments)).
  { rewrite <- (insert_delete_eq payments id p') at 1.
    rewrite <- (insert_delete_id payments id p F) at 2.
    rewrite !reminders_insert_fresh by apply lookup_delete_eq.
    rewrite N, N'. reflexivity. }
  unfold check_bnpl_installment_reminders in *. cbn [reminders_sent] in E.
  rewrite E. reflexivity.
Qed.

End ReminderCounts.

Section ReminderClaims.
Import Bnpl Accounts Reminders.
Local Open Scope Z_scope.

(** X12.  Reminders for a fresh schedule.  After
    [schedule_bnpl_installments] has added its two rows at clock reading
    [t0], a reminder check at clock reading [now] counts what it counted
    on the table before, plus one for the second installment from day 27
    to day 30 after [t0], plus one for the third from day 57 to day 60:
    both only when the payment request and, through it, the payer are
    found, and never both at one reading. *)
Theorem reminders_for_a_fresh_schedule
    (payment_requests : gmap string PaymentRequest) (users : gmap string User)
    (t0 now : datetime) (id_2 id_3 : string) (db db' : gmap string BNPLPayment)
    (payment_request_id payer_id recipient_id : string) (installment_2 installment_3 : Z)
    (s : Scheduled) :
  db !! id_2 = None -> db !! id_3 = None -> id_2 <> id_3 ->
  schedule_bnpl_installments t0 id_2 id_3 db payment_request_id payer_id recipient_id
    installment_2 installment_3 = Ok (s, db') ->
  let known :=
    match payment_requests !! payment_request_id with
    | None => false
    | Some payment_request => bool_decide (is_Some (users !! Accounts.payer_id payment_request))
    end in
  let second :=
    known && (t0 + timedelta_days 27 <=? now) && (now <=? t0 + timedelta_days 30) in
  let third :=
    known && (t0 + timedelta_days 57 <=? now) && (now <=? t0 + timedelta_days 60) in
  reminders_sent (check_bnpl_installment_reminders payment_requests users now db')
  = reminders_sent (check_bnpl_installment_reminders payment_requests users now db)
    + (if second then 1 else 0) + (if third then 1 else 0)
  /\ second && third = false.
Proof.
  intros F2 F3 Ne H known second third.
  unfold schedule_bnpl_installments in H. injection H as _ <-.
  split.
  - rewrite reminders_insert_fresh by (rewrite lookup_insert_ne by congruence; exact F3).
    rewrite reminders_insert_fresh by exact F2.
    unfold reminded, upcoming.
    cbn [status due_date Bnpl.payment_request_id is_pending andb]. fold known.
    assert (E2 : (now <=? t0 + timedelta_days 30)
                 && (t0 + timedelta_days 30 <=? now + timedelta_days 3) && known = second).
    { unfold second. unfold timedelta_days.
      destruct known; rewrite ?andb_true_r, ?andb_false_r, ?andb_true_l, ?andb_false_l;
        [|reflexivity].
      apply bool_eq_iff. rewrite !andb_true_iff, !Z.leb_le. lia. }
    assert (E3 : (now <=? t0 + timedelta_days 60)
                 && (t0 + timedelta_days 60 <=? now + timedelta_days 3) && known = third).
    { unfold third. unfold timedelta_days.
      destruct known; rewrite ?andb_true_r, ?andb_false_r, ?andb_true_l, ?andb_false_l;
        [|reflexivity].
      apply bool_eq_iff. rewrite !andb_true_iff, !Z.leb_le. lia. }
    rewrite E2, E3. lia.
  - unfold second, third, timedelta_days.
    destruct (_ && _ && _ && _) eqn:B; [|reflexivity].
    rewrite !andb_true_iff, !Z.leb_le in B. lia.
Qed.

Lemma reminders_for_a_fresh_schedule_witness :
  let db' := <["b3" := {| payment_request_id := "req"; installment_number := 3;
                          amount := 33; due_date := 0 + timedelta_days 60;
                          status := Pending; late_fee := 0; paid_date := None |}]>
             (<["b2" := {| payment_request_id := "req"; installment_number := 2;
                           amount := 33; due_date := 0 + timedelta_days 30;
                           status := Pending; late_fee := 0; paid_date := None |}]> ∅) in
  let now := timedelta_days 28 in
  let known :=
    match known_request !! "req" with
    | None => false
    | Some payment_request => bool_decide (is_Some (known_payer !! payer_id payment_request))
    end in
  let second :=
    known && (0 + timedelta_days 27 <=? now) && (now <=? 0 + timedelta_days 30) in
  let third :=
    known && (0 + timedelta_days 57 <=? now) && (now <=? 0 + timedelta_days 60) in
  reminders_sent (check_bnpl_installment_reminders known_request known_payer now db')
  = reminders_sent (check_bnpl_installment_reminders known_request known_payer now ∅)
    + (if second then 1 else 0) + (if third then 1 else 0)
  /\ second && third = false.
Proof.
  intros db' now.
  apply (reminders_for_a_fresh_schedule known_request known_payer 0 now "b2" "b3" ∅ db'
           "req" "payer" "merchant" 33 33
           {| bnpl_payment_2_id := "b2"; bnpl_payment_3_id := "b3";
              installment_2_due_date := 0 + timedelta_days 30;
              installment_3_due_date := 0 + timedelta_days 60;
              scheduled := true |}).
  - reflexivity.
  - reflexivity.
  - discriminate.
  - reflexivity.
Defined.

(** One reminder is due on day 28 of the schedule above and none on the
    day it is made. *)
Example reminder_on_day_28 :
  let db' := snd <$> schedule_bnpl_installments 0 "b2" "b3" ∅ "req" "payer" "merchant" 33 33 in
  (reminders_sent <$>
     (check_bnpl_installment_reminders known_request known_payer (timedelta_days 28) <$> db'))
  = Ok 1
  /\ (reminders_sent <$>
        (check_bnpl_installment_reminders known_request known_payer 0 <$> db'))
     = Ok 0.
Proof. vm_compute. split; reflexivity. Qed.

(** What a late-fee check that returns did to the table. *)
Lemma late_fee_check_change (now : datetime) (db db' : gmap string BNPLPayment)
    (id : string) :
  (exists r, apply_bnpl_late_fee now db id = Ok (r, db'))
  \/ (exists t, track_bnpl_payment_status now db id = Ok (t, db')) ->
  db' = db
  \/ exists p fee,
       db !! id = Some p /\ status p = Pending /\ due_date p < now
       /\ db' = <[id := set_late p fee]> db.
Proof.
  intros [[r H]|[t H]].
  - unfold apply_bnpl_late_fee in H. destruct (db !! id) as [p|]; [|discriminate].
    destruct (is_pending (status p) && (due_date p <? now)) eqn:C.
    + destruct (late_fee_of (amount p)) as [fee|e]; [|discriminate].
      cbn [Py.bind] in H. injection H as _ <-. right. exists p, fee.
      apply andb_prop in C as [C1 C2]. apply Z.ltb_lt in C2.
      destruct (status p); try discriminate. repeat split; [exact C2].
    + injection H as _ <-. left. reflexivity.
  - unfold track_bnpl_payment_status in H. destruct (db !! id) as [p|]; [|discriminate].
    destruct (is_pending (status p) && (due_date p <? now)
              && bool_decide (paid_date p = None)) eqn:C.
    + destruct (late_fee_of (amount p)) as [fee|e]; [|discriminate].
      cbn [Py.bind] in H. injection H as _ <-. right. exists p, fee.
      apply andb_prop in C as [C _]. apply andb_prop in C as [C1 C2].
      apply Z.ltb_lt in C2.
      destruct (status p); try discriminate. repeat split; [exact C2].
    + injection H as _ <-. left. reflexivity.
Qed.

(** X13.  Late fees and reminders do not meet.  A late-fee check
    ([apply_bnpl_late_fee] or [track_bnpl_payment_status]) at clock reading
    [now] changes no reminder check made at that reading or later: the
    only row it can change was overdue already, so that it was not
    reminded of before the change, and is [Late] after it. *)
Theorem late_fee_leaves_reminders
    (payment_requests : gmap string PaymentRequest) (users : gmap string User)
    (now later : datetime) (db db' : gmap string BNPLPayment) (id : string) :
  (exists r, apply_bnpl_late_fee now db id = Ok (r, db'))
  \/ (exists t, track_bnpl_payment_status now db id = Ok (t, db')) ->
  now <= later ->
  check_bnpl_installment_reminders payment_requests users later db'
  = check_bnpl_installment_reminders payment_requests users later db.
Proof.
  intros H Hl.
  destruct (late_fee_check_change now db db' id H) as [->|(p & fee & F & S & D & ->)];
    [reflexivity|].
  apply (reminders_insert_over payment_requests users later db id p (set_late p fee) F).
  - unfold reminded, upcoming.
    replace (later <=? due_date p) with false by (symmetry; apply Z.leb_gt; lia).
    rewrite andb_false_r. reflexivity.
  - unfold reminded, upcoming. reflexivity.
Qed.

Lemma late_fee_leaves_reminders_witness :
  check_bnpl_installment_reminders known_request known_payer 30
    (<["b" := set_late overdue_installment 5]> {[ "b" := overdue_installment ]})
  = check_bnpl_installment_reminders known_request known_payer 30
      {[ "b" := overdue_installment ]}.
Proof.
  apply (late_fee_leaves_reminders known_request known_payer 20 30
           {[ "b" := overdue_installment ]}
           (<["b" := set_late overdue_installment 5]> {[ "b" := overdue_installment ]})
           "b").
  - left. eexists. vm_compute. reflexivity.
  - lia.
Defined.

End ReminderClaims.

(** *** Applications for BNPL access *)

Section AccessClaims.
Import Bnpl Accounts Access.
Local Open Scope Z_scope.

Lemma check_daos_filter (daos : gmap string DAORow) (dao_ids : list string) :
  forall valid_daos invalid_daos,
    check_daos daos dao_ids valid_daos invalid_daos
    = (valid_daos ++ filter (fun d => acceptable daos d = true) dao_ids,
       invalid_daos ++ filter (fun d => acceptable daos d = false) dao_ids).
Proof.
  induction dao_ids as [|d rest IH]; intros v i.
  - cbn. rewrite !app_nil_r. reflexivity.
  - cbn [check_daos]. rewrite !filter_cons.
    destruct (acceptable daos d) eqn:A.
    + rewrite decide_True by reflexivity. rewrite decide_False by discriminate.
      unfold acceptable in A. destruct (daos !! d) as [dao|]; [|discriminate].
      apply andb_prop in A as [A An]. apply andb_prop in A as [Ag Ap].
      apply negb_true_iff in Ap, An. rewrite Ag, Ap, An. cbn [negb orb].
      rewrite IH, <- app_assoc. reflexivity.
    + rewrite decide_False by discriminate. rewrite decide_True by reflexivity.
      unfold acceptable in A. destruct (daos !! d) as [dao|].
      * destruct (bool_decide (goal dao = "BNPL")); cbn [negb andb] in A |- *.
        -- destruct (bool_decide (bnpl_payment_period_days (terms dao) = None));
             cbn [negb andb orb] in A |- *.
           ++ rewrite IH, <- app_assoc. reflexivity.
           ++ apply negb_false_iff in A. rewrite A.
              rewrite IH, <- app_assoc. reflexivity.
        -- rewrite IH, <- app_assoc. reflexivity.
      * rewrite IH, <- app_assoc. reflexivity.
Qed.

Lemma filter_all (P : string -> bool) (l : list string) :
  forallb P l = true -> filter (fun d => P d = true) l = l
                        /\ filter (fun d => P d = false) l = [].
Proof.
  induction l as [|d l IH]; [split; reflexivity|].
  cbn [forallb]. intros H. apply andb_prop in H as [Hd Hl].
  destruct (IH Hl) as [A B]. rewrite !filter_cons.
  rewrite decide_True by exact Hd. rewrite decide_False by (rewrite Hd; discriminate).
  rewrite A, B. split; reflexivity.
Qed.

Lemma filter_some (P : string -> bool) (l : list string) :
  forallb P l = false -> filter (fun d => P d = false) l <> [].
Proof.
  induction l as [|d l IH]; [discriminate|].
  cbn [forallb]. rewrite filter_cons. destruct (P d) eqn:Hd.
  - cbn [andb]. rewrite decide_False by discriminate. exact IH.
  - intros _. rewrite decide_True by reflexivity. discriminate.
Qed.

(** X14.  An application is validated all or nothing.  For a user that
    exists, [validate_bnpl_application] returns exactly when every listed DAO
    is found with goal ["BNPL"] and both payment terms set, and then
    [valid_daos] is the list it was given, in order and with its
    repetitions (the empty list is valid); otherwise it raises
    [ValueError] naming all the DAOs that fail, in the order listed. *)
Theorem application_valid_all_or_nothing (repr : list string -> string)
    (users : gmap string User)
    (daos : gmap string DAORow) (user_id : string) (dao_ids : list string) (user : User) :
  users !! user_id = Some user ->
  validate_bnpl_application repr users daos user_id dao_ids
  = if forallb (acceptable daos) dao_ids
    then Ok {| valid := true; validated_user_id := user_id; valid_daos := dao_ids |}
    else Raise (ValueError ("Invalid or unconfigured DAOs: "
                            +:+ repr (filter (fun d => acceptable daos d = false) dao_ids))).
Proof.
  intros U. unfold validate_bnpl_application. rewrite U, check_daos_filter.
  cbn [app]. destruct (forallb (acceptable daos) dao_ids) eqn:A.
  - destruct (filter_all _ _ A) as [-> ->]. reflexivity.
  - pose proof (filter_some _ _ A) as N.
    destruct (filter (fun d => acceptable daos d = false) dao_ids); [contradiction|].
    reflexivity.
Qed.

Lemma application_valid_all_or_nothing_witness :
  validate_bnpl_application comma_separated applicant zero_installments "user"
    ["dao"; "other"; "dao"; "none"]
  = if forallb (acceptable zero_installments) ["dao"; "other"; "dao"; "none"]
    then Ok {| valid := true; validated_user_id := "user";
               valid_daos := ["dao"; "other"; "dao"; "none"] |}
    else Raise (ValueError ("Invalid or unconfigured DAOs: "
                            +:+ comma_separated
                                  (filter (fun d => acceptable zero_installments d = false)
                                     ["dao"; "other"; "dao"; "none"]))).
Proof.
  apply (application_valid_all_or_nothing comma_separated applicant zero_installments "user"
           ["dao"; "other"; "dao"; "none"] {| email := "user@example.org" |}).
  reflexivity.
Defined.

(** Two unknown DAOs among four listed ones. *)
Example application_names_the_invalid_daos :
  validate_bnpl_application comma_separated applicant zero_installments "user"
    ["dao"; "other"; "dao"; "none"]
  = Raise (ValueError "Invalid or unconfigured DAOs: [other, none]")
  /\ validate_bnpl_application comma_separated applicant zero_installments "user" []
     = Ok {| valid := true; validated_user_id := "user"; valid_daos := [] |}.
Proof. vm_compute. split; reflexivity. Qed.

(** X15.  A validated DAO need not have usable payment terms.  For every
    DAO of an application that [validate_bnpl_application] accepts,
    [get_dao_payment_terms] finds the metadata and both terms set, but it
    returns only if neither term is 0: the validation tests the terms with
    [is None], the lookup with [not], so that a DAO configured with 0 days
    or 0 installments is validated and then refused with "has not
    configured BNPL payment terms". *)
Theorem validated_dao_may_lack_terms (repr : list string -> string)
    (users : gmap string User)
    (daos : gmap string DAORow) (user_id : string) (dao_ids : list string)
    (r : Validated) (dao_id : string) :
  validate_bnpl_application repr users daos user_id dao_ids = Ok r ->
  dao_id ∈ dao_ids ->
  exists period n,
    (terms <$> daos) !! dao_id = Some (configured period n)
    /\ get_dao_payment_terms (terms <$> daos) dao_id
       = if (period =? 0) || (n =? 0)
         then Raise (ValueError ("DAO " +:+ dao_id
                                 +:+ " has not configured BNPL payment terms"))
         else Ok {| pt_dao_id := dao_id;
                    payment_period_days := period;
                    num_installments := n;
                    days_between_installments := period / n |}.
Proof.
  intros V Hin. unfold validate_bnpl_application in V.
  destruct (users !! user_id) as [user|]; [|discriminate].
  rewrite check_daos_filter in V. cbn [app] in V.
  destruct (forallb (acceptable daos) dao_ids) eqn:A.
  2:{ pose proof (filter_some _ _ A) as N.
      destruct (filter (fun d => acceptable daos d = false) dao_ids);
        [contradiction | discriminate]. }
  assert (Hd : acceptable daos dao_id = true).
  { rewrite forallb_forall in A. apply A. apply list_elem_of_In. exact Hin. }
  unfold acceptable in Hd. destruct (daos !! dao_id) as [dao|] eqn:D; [|discriminate].
  apply andb_prop in Hd as [Hd Hn]. apply andb_prop in Hd as [_ Hp].
  destruct dao as [g [[period|] [n|]]]; cbn in Hp, Hn; try discriminate.
  exists period, n. rewrite lookup_fmap, D. cbn [fmap option_fmap option_map terms].
  split; [reflexivity|].
  unfold get_dao_payment_terms. rewrite lookup_fmap, D.
  cbn [fmap option_fmap option_map terms bnpl_payment_period_days bnpl_num_installments
       configured falsy default].
  destruct ((period =? 0) || (n =? 0)); reflexivity.
Qed.

Lemma validated_dao_may_lack_terms_witness :
  exists period n,
    (terms <$> zero_installments) !! "dao" = Some (configured period n)
    /\ get_dao_payment_terms (terms <$> zero_installments) "dao"
       = if (period =? 0) || (n =? 0)
         then Raise (ValueError ("DAO " +:+ "dao"
                                 +:+ " has not configured BNPL payment terms"))
         else Ok {| pt_dao_id := "dao";
                    payment_period_days := period;
                    num_installments := n;
                    days_between_installments := period / n |}.
Proof.
  apply (validated_dao_may_lack_terms comma_separated applicant zero_installments "user" ["dao"]
           {| valid := true; validated_user_id := "user"; valid_daos := ["dao"] |} "dao").
  - reflexivity.
  - apply elem_of_cons. left. reflexivity.
Defined.

End AccessClaims.

Section MembershipClaims.
Import Access.

Lemma membership_loop_acc (get_account_resources : nat -> string -> result (list string))
    (user_address : string) (dao_ids : list string) :
  forall n member_of_daos,
    membership_loop get_account_resources user_address dao_ids n member_of_daos
    = member_of_daos ++ membership_loop get_account_resources user_address dao_ids n [].
Proof.
  induction dao_ids as [|d rest IH]; intros n acc.
  - cbn. rewrite app_nil_r. reflexivity.
  - cbn [membership_loop].
    destruct (get_account_resources n user_address) as [resources|e]; [|apply IH].
    destruct (existsb _ resources); [|apply IH].
    rewrite (IH (S n) (acc ++ [d])), (IH (S n) ([] ++ [d])), <- app_assoc. reflexivity.
Qed.

Lemma membership_loop_nil (get_account_resources : nat -> string -> result (list string))
    (user_address : string) (dao_ids : list string) :
  forall n,
    membership_loop get_account_resources user_address dao_ids n [] = []
    <-> forall k d resources,
          dao_ids !! k = Some d ->
          get_account_resources (n + k)%nat user_address = Ok resources ->
          existsb (String.prefix (d +:+ "::dao::MemberResource")) resources = false.
Proof.
  induction dao_ids as [|d rest IH]; intros n.
  - cbn. split; [intros _ k d resources H; discriminate | reflexivity].
  - cbn [membership_loop].
    assert (Shift : (forall k d' resources,
                       rest !! k = Some d' ->
                       get_account_resources (S n + k)%nat user_address = Ok resources ->
                       existsb (String.prefix (d' +:+ "::dao::MemberResource")) resources
                       = false)
                    <-> (forall k d' resources,
                           (d :: rest) !! S k = Some d' ->
                           get_account_resources (n + S k)%nat user_address = Ok resources ->
                           existsb (String.prefix (d' +:+ "::dao::MemberResource")) resources
                           = false)).
    { split; intros H k d' resources Hk Hg.
      - apply (H k d' resources Hk). rewrite <- Hg. f_equal. lia.
      - apply (H k d' resources Hk). rewrite <- Hg. f_equal. lia. }
    destruct (get_account_resources n user_address) as [resources|e] eqn:G.
    + destruct (existsb _ resources) eqn:M.
      * rewrite membership_loop_acc. split; [discriminate|].
        intros H. specialize (H 0%nat d resources eq_refl).
        rewrite Nat.add_0_r in H. specialize (H G). congruence.
      * rewrite IH, Shift. split.
        -- intros H [|k] d' resources' Hk Hg; [|exact (H k d' resources' Hk Hg)].
           injection Hk as <-. rewrite Nat.add_0_r, G in Hg. injection Hg as <-. exact M.
        -- intros H k d' resources' Hk Hg. exact (H (S k) d' resources' Hk Hg).
    + rewrite IH, Shift. split.
      * intros H [|k] d' resources' Hk Hg; [|exact (H k d' resources' Hk Hg)].
        rewrite Nat.add_0_r, G in Hg. discriminate.
      * intros H k d' resources' Hk Hg. exact (H (S k) d' resources' Hk Hg).
Qed.

(** X16.  The membership check fails open.  For a user with a wallet,
    [check_dao_membership] returns, with [is_member = False] and no DAO
    named, exactly when no query that the network answers shows a resource
    whose type starts with ["<dao_id>::dao::MemberResource"] for the DAO it
    was made for; a query that raises counts as "not a member", so that on
    a network that answers nothing every applicant passes.  The activity
    never returns a record that reports a membership. *)
Theorem membership_check_fails_open (repr : list string -> string)
    (get_account_resources : nat -> string -> result (list string))
    (wallets : gmap string string) (user_id : string) (dao_ids : list string)
    (address : string) :
  wallets !! user_id = Some address ->
  let check := check_dao_membership repr get_account_resources wallets user_id dao_ids in
  let clear := {| is_member := false; member_of_daos := []; user_address := address |} in
  (check = Ok clear
   <-> forall k d resources,
         dao_ids !! k = Some d ->
         get_account_resources k address = Ok resources ->
         existsb (String.prefix (d +:+ "::dao::MemberResource")) resources = false)
  /\ ((forall k, is_ok (get_account_resources k address) = false) -> check = Ok clear)
  /\ (forall r, check = Ok r -> r = clear).
Proof.
  intros W check clear. unfold check, check_dao_membership. rewrite W.
  pose proof (membership_loop_nil get_account_resources address dao_ids 0) as N.
  cbn [Nat.add] in N.
  destruct (membership_loop get_account_resources address dao_ids 0 []) as [|m ms].
  - split; [|split].
    + split; [intros _; apply N; reflexivity | reflexivity].
    + reflexivity.
    + intros r [= <-]. reflexivity.
  - split; [|split].
    + split; [discriminate|]. intros H. apply N in H. discriminate.
    + intros H. exfalso. assert (E : m :: ms = []); [|discriminate]. apply N.
      intros k d resources _ Hg. specialize (H k). rewrite Hg in H. discriminate.
    + discriminate.
Qed.

Lemma membership_check_fails_open_witness :
  let check :=
    check_dao_membership comma_separated unreachable {[ "user" := "0xabc" ]} "user"
      ["0xdao1"; "0xdao2"] in
  let clear := {| is_member := false; member_of_daos := []; user_address := "0xabc" |} in
  (check = Ok clear
   <-> forall k d resources,
         ["0xdao1"; "0xdao2"] !! k = Some d ->
         unreachable k "0xabc" = Ok resources ->
         existsb (String.prefix (d +:+ "::dao::MemberResource")) resources = false)
  /\ ((forall k, is_ok (unreachable k "0xabc") = false) -> check = Ok clear)
  /\ (forall r, check = Ok r -> r = clear).
Proof.
  apply (membership_check_fails_open comma_separated unreachable {[ "user" := "0xabc" ]}
           "user" ["0xdao1"; "0xdao2"] "0xabc").
  reflexivity.
Defined.

End MembershipClaims.

(** *** Pre-signed treasury operations *)

Section TreasuryClaims.
Import Chain Treasury.
Local Open Scope Z_scope.

(** X17.  The merchant and the amount are not part of the payment.
    [execute_dao_merchant_payment] sends nothing and raises, or sends one
    request: the pre-signed operation stored with an approved access of
    the user to the DAO, as it is stored.  The merchant address, the amount
    and the payment request it is called with change neither the requests
    sent nor whether it returns; they are only copied to the record
    returned. *)
Theorem merchant_payment_submits_the_stored_operation
    (movement_service : MovementService) (now : Z) (table : list BNPLAccess)
    (calls : list Call) (dao_id merchant_address : string) (amount_token : Z)
    (user_id payment_request_id : string) :
  let run := execute_dao_merchant_payment movement_service now table calls dao_id
               merchant_address amount_token user_id payment_request_id in
  (exists sent,
     snd run = calls ++ sent
     /\ ((sent = [] /\ is_ok (fst run) = false)
         \/ exists row operation,
              row ∈ table /\ access_dao_id row = dao_id /\ access_user_id row = user_id
              /\ access_status row = "Approved"
              /\ treasury_operation_bcs row = Some operation /\ operation <> ""
              /\ sent = [SubmitSignedTransaction operation]))
  /\ (forall merchant_address' amount_token' payment_request_id',
        let run' := execute_dao_merchant_payment movement_service now table calls dao_id
                      merchant_address' amount_token' user_id payment_request_id' in
        snd run' = snd run /\ is_ok (fst run') = is_ok (fst run))
  /\ (forall r, fst run = Ok r ->
        executed_merchant_address r = merchant_address
        /\ executed_amount_token r = amount_token
        /\ executed_transaction_hash r <> "").
Proof.
  unfold execute_dao_merchant_payment.
  destruct (list_find _ table) as [[i row]|] eqn:F.
  2:{ cbn. split; [|split].
      - exists []. rewrite app_nil_r. split; [reflexivity|]. left. split; reflexivity.
      - intros; split; reflexivity.
      - discriminate. }
  apply list_find_Some in F as (Hi & (Hd & Hu & Hs) & _).
  destruct (treasury_operation_bcs row) as [[|a operation]|] eqn:Op.
  1,3: cbn; (split; [|split]);
    [exists []; rewrite app_nil_r; split; [reflexivity|]; left; split; reflexivity
    | intros; split; reflexivity | discriminate].
  assert (Sent : exists row0 operation0,
            row0 ∈ table /\ access_dao_id row0 = dao_id /\ access_user_id row0 = user_id
            /\ access_status row0 = "Approved"
            /\ treasury_operation_bcs row0 = Some operation0 /\ operation0 <> ""
            /\ [SubmitSignedTransaction (String a operation)]
               = [SubmitSignedTransaction operation0]).
  { exists row, (String a operation).
    split; [eapply list_elem_of_lookup_2; exact Hi|].
    repeat (split; [assumption|]). split; [discriminate | reflexivity]. }
  destruct (submit_signed_transaction movement_service calls (String a operation))
    as [[|b h]|e]; cbn; (split; [|split]);
    try (eexists; split; [reflexivity|]; right; exact Sent);
    try (intros; split; reflexivity); try discriminate.
  intros r [= <-]. cbn. repeat split. discriminate.
Qed.

Lemma NoDup_fmap_lookup {A B : Type} (f : A -> B) (l : list A) (i j : nat) (x y : A) :
  NoDup (f <$> l) -> l !! i = Some x -> l !! j = Some y -> f x = f y -> i = j.
Proof.
  intros N Hi Hj E. apply (NoDup_lookup (f <$> l) i j (f x) N).
  - rewrite list_lookup_fmap, Hi. reflexivity.
  - rewrite list_lookup_fmap, Hj, E. reflexivity.
Qed.

(** X18.  Store, then execute.  When application ids are unique and the
    application is the user's first approved access to the DAO,
    [store_treasury_operation] returns, and a following
    [execute_dao_merchant_payment] for the user and the DAO submits exactly
    the operation that was stored, whatever was stored before; a stored
    empty operation makes it raise [ValueError] and send nothing. *)
Theorem stored_operation_is_the_one_executed
    (movement_service : MovementService) (now : Z) (table : list BNPLAccess)
    (calls : list Call) (application_id dao_id user_id operation : string)
    (merchant_address : string) (amount_token : Z) (payment_request_id : string)
    (i : nat) (row : BNPLAccess) :
  NoDup (access_id <$> table) ->
  list_find (fun row => access_dao_id row = dao_id /\ access_user_id row = user_id
                        /\ access_status row = "Approved") table = Some (i, row) ->
  access_id row = application_id ->
  exists st table',
    store_treasury_operation table application_id dao_id user_id operation = Ok (st, table')
    /\ length table' = length table
    /\ (operation <> "" ->
        snd (execute_dao_merchant_payment movement_service now table' calls dao_id
               merchant_address amount_token user_id payment_request_id)
        = calls ++ [SubmitSignedTransaction operation])
    /\ (operation = "" ->
        execute_dao_merchant_payment movement_service now table' calls dao_id
          merchant_address amount_token user_id payment_request_id
        = (Raise (ValueError ("No pre-signed treasury operation found for BNPL access "
                              +:+ application_id)), calls)).
Proof.
  intros N F Hid. apply list_find_Some in F as (Hi & (Hd & Hu & Hs) & Hmin).
  assert (FS : list_find (fun row => access_id row = application_id
                                     /\ access_dao_id row = dao_id
                                     /\ access_user_id row = user_id) table
               = Some (i, row)).
  { apply list_find_Some. split; [exact Hi|]. split; [repeat split; assumption|].
    intros j y Hj Hlt (Hy & _).
    assert (j = i); [|lia].
    apply (NoDup_fmap_lookup access_id table j i y row N Hj Hi). congruence. }
  unfold store_treasury_operation. rewrite FS.
  eexists _, _. split; [reflexivity|]. split; [apply length_insert|].
  assert (FE : list_find (fun row => access_dao_id row = dao_id
                                     /\ access_user_id row = user_id
                                     /\ access_status row = "Approved")
                 (<[i := with_operation row operation]> table)
               = Some (i, with_operation row operation)).
  { apply list_find_Some. split; [|split].
    - apply list_lookup_insert_eq. eapply lookup_lt_Some. exact Hi.
    - cbn. repeat split; assumption.
    - intros j y Hj Hlt. rewrite list_lookup_insert_ne in Hj by lia.
      exact (Hmin j y Hj Hlt). }
  unfold execute_dao_merchant_payment. rewrite FE.
  cbn [treasury_operation_bcs with_operation access_id]. rewrite Hid. split.
  - intros Ne. destruct operation as [|a operation]; [contradiction|].
    destruct (submit_signed_transaction movement_service calls (String a operation))
      as [[|b h]|e]; reflexivity.
  - intros ->. reflexivity.
Qed.

Lemma stored_operation_is_the_one_executed_witness :
  exists st table',
    store_treasury_operation [approved_access] "app" "dao" "user" "0xsigned"
    = Ok (st, table')
    /\ length table' = length [approved_access]
    /\ ("0xsigned" <> "" ->
        snd (execute_dao_merchant_payment (accepting []) 0 table' [] "dao"
               "0xmerchant" 100 "user" "req")
        = [] ++ [SubmitSignedTransaction "0xsigned"])
    /\ ("0xsigned" = "" ->
        execute_dao_merchant_payment (accepting []) 0 table' [] "dao"
          "0xmerchant" 100 "user" "req"
        = (Raise (ValueError ("No pre-signed treasury operation found for BNPL access "
                              +:+ "app")), [])).
Proof.
  apply (stored_operation_is_the_one_executed (accepting []) 0 [approved_access] []
           "app" "dao" "user" "0xsigned" "0xmerchant" 100 "req" 0%nat approved_access).
  - cbn. apply NoDup_singleton.
  - reflexivity.
  - reflexivity.
Defined.

(** X19.  The balance check raises nothing but [ValueError], whatever the
    network or the parsing of the balance raises, and it returns only with
    [sufficient_balance = True] and a balance, read from the first coin
    store of [AptosCoin] (0 when the account has none), that covers the
    amount: so an account without a coin store passes exactly the amounts
    that are not positive. *)
Theorem balance_check_raises_only_value_errors
    (get_account_resources : string -> result (list Resource))
    (payer_address : string) (amount_token : Z) :
  match check_installment_balance get_account_resources payer_address amount_token with
  | Raise e => exists msg, e = ValueError msg
  | Ok r =>
      sufficient_balance r = true
      /\ required_amount r = amount_token
      /\ amount_token <= available_balance r
      /\ exists resources,
           get_account_resources payer_address = Ok resources
           /\ find_move_balance resources = Ok (available_balance r)
           /\ (Forall (fun resource =>
                 contains "CoinStore" (resource_type resource)
                 && contains "AptosCoin" (resource_type resource) = false) resources ->
               available_balance r = 0 /\ amount_token <= 0)
  end.
Proof.
  unfold check_installment_balance.
  destruct (get_account_resources payer_address) as [resources|e]; cbn [Py.bind].
  2:{ destruct e; eexists; reflexivity. }
  destruct (find_move_balance resources) as [balance|e] eqn:B; cbn [Py.bind].
  2:{ destruct e; eexists; reflexivity. }
  destruct (balance <? amount_token) eqn:L.
  - eexists. reflexivity.
  - apply Z.ltb_ge in L. cbn. split; [reflexivity|]. split; [reflexivity|].
    split; [exact L|]. exists resources. split; [reflexivity|]. split; [exact B|].
    intros None. assert (balance = 0); [|lia].
    clear L. induction None as [|resource rest Hr _ IH].
    + cbn in B. congruence.
    + cbn [find_move_balance] in B. rewrite Hr in B. exact (IH B).
Qed.

End TreasuryClaims.

(** *** Wallet addresses *)

Section WalletAddresses.
Import Privy.
Local Open Scope string_scope.

Lemma append_cons (c : ascii) (a b : string) : String c a ++ b = String c (a ++ b).
Proof. reflexivity. Qed.

Lemma list_ascii_of_string_append (a b : string) :
  list_ascii_of_string (a ++ b) = (list_ascii_of_string a ++ list_ascii_of_string b)%list.
Proof.
  induction a as [|c a IH]; [reflexivity|].
  rewrite append_cons. cbn [list_ascii_of_string app]. rewrite IH. reflexivity.
Qed.

Lemma string_length_append (a b : string) :
  String.length (a ++ b) = (String.length a + String.length b)%nat.
Proof.
  induction a as [|c a IH]; [reflexivity|].
  rewrite append_cons. cbn [String.length Nat.add]. rewrite IH. reflexivity.
Qed.

Lemma times_space_length (k : nat) : String.length (times " " k) = k.
Proof.
  induction k as [|k IH]; [reflexivity|].
  change (times " " (S k)) with (String " " (times " " k)).
  cbn [String.length]. rewrite IH. reflexivity.
Qed.

Lemma times_space_ascii (k : nat) :
  forallb is_ascii (list_ascii_of_string (times " " k)) = true.
Proof. induction k as [|k IH]; [reflexivity|]. exact IH. Qed.

Lemma times_space_skipped (k : nat) : skip_spaces (times " " k) = "".
Proof. induction k as [|k IH]; [reflexivity|]. exact IH. Qed.

Lemma hex_digit_bounds (c : ascii) :
  hex_digit c = true ->
  (48 <= nat_of_ascii c <= 57 \/ 65 <= nat_of_ascii c <= 70
   \/ 97 <= nat_of_ascii c <= 102)%nat.
Proof.
  unfold hex_digit. rewrite !orb_true_iff, !andb_true_iff, !Nat.leb_le. tauto.
Qed.

Lemma hex_digit_is_ascii (c : ascii) : hex_digit c = true -> is_ascii c = true.
Proof.
  intros H. apply hex_digit_bounds in H. unfold is_ascii. apply Nat.ltb_lt. lia.
Qed.

Lemma hex_digit_no_underscore (c : ascii) :
  hex_digit c = true -> Ascii.eqb c "_" = false.
Proof.
  intros H. destruct (Ascii.eqb_spec c "_") as [->|]; [discriminate | reflexivity].
Qed.

Lemma hex_digits_are_ascii (h : string) :
  forallb hex_digit (list_ascii_of_string h) = true ->
  forallb is_ascii (list_ascii_of_string h) = true.
Proof.
  induction h as [|c h IH]; [reflexivity|]. cbn [list_ascii_of_string forallb].
  intros H. apply andb_prop in H as [Hc Hh].
  rewrite (hex_digit_is_ascii c Hc), (IH Hh). reflexivity.
Qed.

(** The loop over the digits reads a run of hexadecimal digits to its end. *)
Lemma scan_digits_hex (h : string) (k : nat) :
  forall prev,
    forallb hex_digit (list_ascii_of_string h) = true -> hex_digit prev = true ->
    exists last,
      scan_digits (h ++ times " " k) prev = Some (last, times " " k)
      /\ hex_digit last = true.
Proof.
  induction h as [|c h IH]; intros prev Hh Hp.
  - exists prev. split; [|exact Hp]. destruct k as [|k]; reflexivity.
  - cbn [list_ascii_of_string forallb] in Hh. apply andb_prop in Hh as [Hc Hh].
    rewrite append_cons. cbn [scan_digits].
    rewrite Hc, (hex_digit_no_underscore c Hc).
    cbn [orb andb]. exact (IH c Hh Hc).
Qed.

Lemma prefix_0x (rest : string) : String.prefix "0x" ("0x" ++ rest) = true.
Proof. destruct rest; reflexivity. Qed.

Lemma int_16_returns_0x (rest : string) :
  int_16_returns (String "0" (String "x" rest))
  = match long_from_string_base (if starts_with "_" rest then advance rest else rest) with
    | None => false
    | Some rest' =>
        match skip_spaces rest' with
        | EmptyString => true
        | String _ _ => false
        end
    end.
Proof. reflexivity. Qed.

(** X20.  [validate_wallet_address] accepts every address made of [0x] and
    40 hexadecimal digits of either case, and with them every shorter
    hexadecimal number, down to one digit, that white space pads to 42
    characters: [int(address, 16)] skips the white space at the end.  The
    placeholder address of [create_embedded_wallet], the same for every
    user, is among the accepted ones. *)
Theorem wallet_validation_accepts_padded_hex (h : string) (chain : Z) :
  (1 <= String.length h <= 40)%nat ->
  forallb hex_digit (list_ascii_of_string h) = true ->
  validate_wallet_address ("0x" ++ h ++ times " " (40 - String.length h)) chain
  = Some true
  /\ (forall input,
        validate_wallet_address (wallet_address (create_embedded_wallet input))
          (chain_id input) = Some true).
Proof.
  intros Hl Hh. split; [|intros input; reflexivity].
  unfold validate_wallet_address.
  rewrite !list_ascii_of_string_append, !forallb_app.
  rewrite (hex_digits_are_ascii h Hh), times_space_ascii.
  cbn [list_ascii_of_string forallb andb negb].
  change (is_ascii "0") with true. change (is_ascii "x") with true. cbn [andb negb].
  rewrite (prefix_0x (h ++ times " " (40 - String.length h))). cbn [negb].
  assert (L : String.length ("0x" ++ h ++ times " " (40 - String.length h)) = 42%nat).
  { rewrite !string_length_append, times_space_length. cbn [String.length]. lia. }
  rewrite L. cbn [Nat.eqb negb]. f_equal.
  destruct h as [|c h]; [cbn in Hl; lia|].
  cbn [list_ascii_of_string forallb] in Hh. apply andb_prop in Hh as [Hc Hh].
  change ("0x" ++ String c h ++ times " " (40 - String.length (String c h)))
    with (String "0" (String "x"
            (String c (h ++ times " " (40 - String.length (String c h)))))).
  rewrite int_16_returns_0x. set (k := (40 - String.length (String c h))%nat).
  cbn [starts_with]. rewrite (hex_digit_no_underscore c Hc).
  unfold long_from_string_base. cbn [starts_with scan_digits].
  rewrite (hex_digit_no_underscore c Hc), Hc. cbn [orb andb].
  destruct (scan_digits_hex h k c Hh Hc) as (last & -> & Hlast).
  rewrite (hex_digit_no_underscore last Hlast).
  replace (String.length (times " " k) =? String.length (String c (h ++ times " " k)))%nat
    with false.
  - rewrite times_space_skipped. reflexivity.
  - symmetry. apply Nat.eqb_neq. cbn [String.length].
    rewrite string_length_append, times_space_length. lia.
Qed.

Lemma wallet_validation_accepts_padded_hex_witness :
  validate_wallet_address ("0x" ++ "1" ++ times " " (40 - String.length "1")) 126
  = Some true
  /\ (forall input,
        validate_wallet_address (wallet_address (create_embedded_wallet input))
          (chain_id input) = Some true).
Proof.
  apply (wallet_validation_accepts_padded_hex "1" 126); [cbn; lia | reflexivity].
Defined.

End WalletAddresses.

Section WalletAddressShape.
Import Privy.
Local Open Scope string_scope.

Lemma prefix_0x_inv (address : string) :
  String.prefix "0x" address = true -> exists body, address = "0x" ++ body.
Proof.
  destruct address as [|a [|b body]].
  - discriminate.
  - change (String.prefix "0x" (String a ""))
      with (if ascii_dec "0" a then false else false).
    destruct (ascii_dec "0" a); discriminate.
  - change (String.prefix "0x" (String a (String b body)))
      with (if ascii_dec "0" a
            then if ascii_dec "x" b then String.prefix "" body else false
            else false).
    destruct (ascii_dec "0" a) as [<-|]; [|discriminate].
    destruct (ascii_dec "x" b) as [<-|]; [|discriminate].
    intros _. exists body. reflexivity.
Qed.

Lemma scan_digits_consumed (p : string) :
  forall prev last rest,
    scan_digits p prev = Some (last, rest) ->
    exists consumed,
      p = consumed ++ rest
      /\ Forall (fun c => hex_digit c = true \/ c = "_"%char)
           (list_ascii_of_string consumed).
Proof.
  induction p as [|c p IH]; intros prev last rest H.
  - cbn in H. injection H as <- <-. exists "". split; [reflexivity | constructor].
  - cbn [scan_digits] in H. destruct (hex_digit c || Ascii.eqb c "_") eqn:D.
    + destruct (Ascii.eqb c "_" && Ascii.eqb prev "_"); [discriminate|].
      destruct (IH _ _ _ H) as (consumed & -> & F).
      exists (String c consumed). split; [reflexivity|].
      cbn [list_ascii_of_string]. constructor; [|exact F].
      apply orb_prop in D as [D|D]; [left; exact D|].
      right. apply Ascii.eqb_eq. exact D.
    + injection H as <- <-. exists "". split; [reflexivity | constructor].
Qed.

Lemma skip_spaces_nil (r : string) :
  skip_spaces r = "" -> Forall (fun c => py_isspace c = true) (list_ascii_of_string r).
Proof.
  induction r as [|c r IH]; [constructor|].
  cbn [skip_spaces list_ascii_of_string]. destruct (py_isspace c) eqn:S; [|discriminate].
  intros H. constructor; [exact S | exact (IH H)].
Qed.

(** What [long_from_string_base] has read when it accepts. *)
Lemma long_from_string_base_read (str rest : string) :
  long_from_string_base str = Some rest ->
  exists c consumed,
    str = String c consumed ++ rest
    /\ hex_digit c = true
    /\ Forall (fun c => hex_digit c = true \/ c = "_"%char)
         (list_ascii_of_string consumed).
Proof.
  unfold long_from_string_base. intros H.
  destruct (starts_with "_" str) eqn:U; [discriminate|].
  destruct (scan_digits str "000") as [[last rest']|] eqn:S; [|discriminate].
  destruct (Ascii.eqb last "_"); [discriminate|].
  destruct (String.length rest' =? String.length str)%nat eqn:L; [discriminate|].
  injection H as <-. apply Nat.eqb_neq in L.
  destruct (scan_digits_consumed _ _ _ _ S) as (consumed & -> & F).
  destruct consumed as [|c consumed]; [exfalso; apply L; reflexivity|].
  exists c, consumed. split; [reflexivity|].
  cbn [list_ascii_of_string] in F. inversion F as [|? ? Hc Hrest]; subst.
  split; [|exact Hrest].
  destruct Hc as [Hc| ->]; [exact Hc|]. cbn in U. discriminate.
Qed.

(** X21.  What [validate_wallet_address] accepts has the form [0x] and 40
    more characters, at least one of them a hexadecimal digit and every one
    a hexadecimal digit, an underscore or white space: an upper-case
    prefix [0X], another length and any other character are refused, but
    40 hexadecimal digits are not required. *)
Theorem wallet_validation_accepts_only (address : string) (chain : Z) :
  validate_wallet_address address chain = Some true ->
  exists body,
    address = "0x" ++ body
    /\ String.length body = 40%nat
    /\ Forall (fun c => hex_digit c = true \/ c = "_"%char \/ py_isspace c = true)
         (list_ascii_of_string body)
    /\ Exists (fun c => hex_digit c = true) (list_ascii_of_string body).
Proof.
  unfold validate_wallet_address. intros H.
  destruct (forallb is_ascii (list_ascii_of_string address)); [|discriminate].
  cbn [negb] in H.
  destruct (String.prefix "0x" address) eqn:P; [|discriminate]. cbn [negb] in H.
  destruct (String.length address =? 42)%nat eqn:L; [|discriminate]. cbn [negb] in H.
  injection H as H. apply Nat.eqb_eq in L.
  destruct (prefix_0x_inv address P) as (body & ->).
  exists body. split; [reflexivity|].
  rewrite string_length_append in L. cbn [String.length] in L.
  split; [lia|].
  change ("0x" ++ body) with (String "0" (String "x" body)) in H.
  rewrite int_16_returns_0x in H.
  destruct (long_from_string_base
              (if starts_with "_" body then advance body else body))
    as [rest|] eqn:B; [|discriminate].
  destruct (skip_spaces rest) eqn:S; [|discriminate].
  apply skip_spaces_nil in S.
  destruct (long_from_string_base_read _ _ B) as (c & consumed & E & Hc & F).
  assert (Shape :
    Forall (fun c => hex_digit c = true \/ c = "_"%char \/ py_isspace c = true)
      (list_ascii_of_string (String c consumed ++ rest))
    /\ Exists (fun c => hex_digit c = true)
         (list_ascii_of_string (String c consumed ++ rest))).
  { rewrite append_cons. cbn [list_ascii_of_string].
    split; [|apply Exists_cons_hd; exact Hc].
    constructor; [left; exact Hc|].
    rewrite list_ascii_of_string_append. apply Forall_app. split.
    - eapply Forall_impl; [exact F|]. cbn beta. intros x [Hx|Hx]; tauto.
    - eapply Forall_impl; [exact S|]. cbn beta. intros x Hx. tauto. }
  destruct body as [|b body]; [cbn in E; rewrite <- E in Shape; exact Shape|].
  cbn [starts_with advance] in E.
  destruct (Ascii.eqb_spec b "_") as [->|_].
  - rewrite <- E in Shape. destruct Shape as [A X].
    cbn [list_ascii_of_string]. split.
    + constructor; [right; left; reflexivity | exact A].
    + apply Exists_cons_tl. exact X.
  - rewrite <- E in Shape. exact Shape.
Qed.

Lemma wallet_validation_accepts_only_witness :
  exists body,
    "0x_dead_beef                              " = "0x" ++ body
    /\ String.length body = 40%nat
    /\ Forall (fun c => hex_digit c = true \/ c = "_"%char \/ py_isspace c = true)
         (list_ascii_of_string body)
    /\ Exists (fun c => hex_digit c = true) (list_ascii_of_string body).
Proof.
  apply (wallet_validation_accepts_only "0x_dead_beef                              " 126).
  reflexivity.
Defined.

End WalletAddressShape.

(** *** A purchase in three installments *)

Section PurchaseFlow.
Import Bnpl Chain Purchase.
Local Open Scope Z_scope.

Lemma calculate_bnpl_installments_value (amount_token : Z) :
  calculate_bnpl_installments amount_token
  = Ok {| installment_1 := amount_token / 3 + amount_token mod 3;
          installment_2 := amount_token / 3;
          installment_3 := amount_token / 3;
          total := amount_token / 3 + amount_token mod 3 + amount_token / 3
                   + amount_token / 3 |}.
Proof.
  unfold calculate_bnpl_installments.
  replace (amount_token / 3 + amount_token mod 3 + amount_token / 3 + amount_token / 3
           =? amount_token) with true; [reflexivity|].
  symmetry. apply Z.eqb_eq. pose proof (Z.div_mod amount_token 3 ltac:(lia)). lia.
Qed.

(** X22.  A purchase in three installments.  For an amount [A] the
    calculation returns; the first installment, [A // 3 + A % 3], goes into
    no request: [process_first_bnpl_payment] sends one fixed placeholder
    transaction whatever payer, recipient and amount it is given; the
    schedule then holds two pending rows of [A // 3] each, without late fee
    or paid date, and the three installments add up to [A].  For [A >= 0]
    no installment is negative and the first exceeds the others by at most
    2. *)
Theorem purchase_in_three_installments (movement_service : MovementService)
    (calls : list Call) (now : datetime) (id_2 id_3 : string)
    (db : gmap string BNPLPayment)
    (payment_request_id payer_id recipient_id payer_address recipient_address : string)
    (A : Z) :
  id_2 <> id_3 ->
  exists i s db' p2 p3,
    calculate_bnpl_installments A = Ok i
    /\ snd (process_first_bnpl_payment movement_service calls payer_address
              recipient_address (installment_1 i))
       = calls ++ [SubmitSignedTransaction "0xplaceholder_signed_tx"]
    /\ schedule_bnpl_installments now id_2 id_3 db payment_request_id payer_id
         recipient_id (installment_2 i) (installment_3 i) = Ok (s, db')
    /\ db' !! id_2 = Some p2 /\ db' !! id_3 = Some p3
    /\ amount p2 = A / 3 /\ amount p3 = A / 3
    /\ installment_1 i + amount p2 + amount p3 = A
    /\ (status p2, late_fee p2, paid_date p2) = (Pending, 0, None)
    /\ (status p3, late_fee p3, paid_date p3) = (Pending, 0, None)
    /\ (0 <= A -> 0 <= A / 3 <= installment_1 i /\ installment_1 i <= A / 3 + 2).
Proof.
  intros Ne. rewrite calculate_bnpl_installments_value.
  unfold schedule_bnpl_installments.
  eexists _, _, _, _, _. split; [reflexivity|]. split; [reflexivity|].
  split; [reflexivity|].
  split; [rewrite lookup_insert_ne by congruence; apply lookup_insert_eq|].
  split; [apply lookup_insert_eq|].
  cbn [amount status late_fee paid_date installment_1 installment_2 installment_3].
  pose proof (Z.div_mod A 3 ltac:(lia)) as D.
  pose proof (Z.mod_pos_bound A 3 ltac:(lia)) as M.
  do 5 (split; [first [reflexivity | lia]|]).
  intros HA. pose proof (Z.div_pos A 3 HA ltac:(lia)). lia.
Qed.

Lemma purchase_in_three_installments_witness :
  exists i s db' p2 p3,
    calculate_bnpl_installments 100 = Ok i
    /\ snd (process_first_bnpl_payment (accepting []) [] "0xpayer" "0xmerchant"
              (installment_1 i))
       = [] ++ [SubmitSignedTransaction "0xplaceholder_signed_tx"]
    /\ schedule_bnpl_installments 0 "b2" "b3" ∅ "req" "payer" "merchant"
         (installment_2 i) (installment_3 i) = Ok (s, db')
    /\ db' !! "b2" = Some p2 /\ db' !! "b3" = Some p3
    /\ amount p2 = 100 / 3 /\ amount p3 = 100 / 3
    /\ installment_1 i + amount p2 + amount p3 = 100
    /\ (status p2, late_fee p2, paid_date p2) = (Pending, 0, None)
    /\ (status p3, late_fee p3, paid_date p3) = (Pending, 0, None)
    /\ (0 <= 100 -> 0 <= 100 / 3 <= installment_1 i /\ installment_1 i <= 100 / 3 + 2).
Proof.
  apply (purchase_in_three_installments (accepting []) [] 0 "b2" "b3" ∅
           "req" "payer" "merchant" "0xpayer" "0xmerchant" 100).
  discriminate.
Defined.

(** X23.  The late fee of a scheduled installment.  Of a purchase of [A]
    tokens ([0 <= A < 2^52]) scheduled at clock reading [t0], the second
    installment is charged no late fee by a check up to 30 days after [t0]
    and [A // 60] by a check after that; the third likewise with 60 days.
    So a check that charges the third installment would charge the
    second. *)
Theorem scheduled_installment_late_fee (t0 now : datetime) (id_2 id_3 : string)
    (db db' : gmap string BNPLPayment)
    (payment_request_id payer_id recipient_id : string) (A : Z)
    (i : Installments) (s : Scheduled) :
  0 <= A < 2 ^ 52 -> id_2 <> id_3 ->
  calculate_bnpl_installments A = Ok i ->
  schedule_bnpl_installments t0 id_2 id_3 db payment_request_id payer_id recipient_id
    (installment_2 i) (installment_3 i) = Ok (s, db') ->
  let charge (id : string) (days : Z) :=
    let overdue := t0 + timedelta_days days <? now in
    exists p,
      db' !! id = Some p
      /\ apply_bnpl_late_fee now db' id
         = Ok ({| late_fee_applied := overdue;
                  late_fee_amount := if overdue then A / 60 else 0;
                  overdue_amount := if overdue then Some (A / 3) else None |},
               if overdue then <[id := set_late p (A / 60)]> db' else db') in
  charge id_2 30 /\ charge id_3 60
  /\ ((t0 + timedelta_days 60 <? now) = true -> (t0 + timedelta_days 30 <? now) = true).
Proof.
  intros HA Ne Hc Hs charge. rewrite calculate_bnpl_installments_value in Hc.
  injection Hc as <-. unfold schedule_bnpl_installments in Hs. injection Hs as _ <-.
  cbn [installment_2 installment_3].
  assert (Fee : late_fee_of (A / 3) = Ok (A / 60)).
  { rewrite late_fee_of_exact.
    - rewrite Z.div_div by lia. reflexivity.
    - split; [apply Z.div_pos; lia|].
      apply Z.le_lt_trans with A; [|lia]. apply Z.div_le_upper_bound; lia. }
  unfold charge. split; [|split].
  - eexists. split; [rewrite lookup_insert_ne by congruence; apply lookup_insert_eq|].
    unfold apply_bnpl_late_fee.
    rewrite lookup_insert_ne by congruence. rewrite lookup_insert_eq.
    cbn [status due_date amount is_pending andb].
    destruct (t0 + timedelta_days 30 <? now); [|reflexivity].
    rewrite Fee. reflexivity.
  - eexists. split; [apply lookup_insert_eq|].
    unfold apply_bnpl_late_fee. rewrite lookup_insert_eq.
    cbn [status due_date amount is_pending andb].
    destruct (t0 + timedelta_days 60 <? now); [|reflexivity].
    rewrite Fee. reflexivity.
  - rewrite !Z.ltb_lt. unfold timedelta_days. lia.
Qed.

Lemma scheduled_installment_late_fee_witness :
  let db' := <["b3" := {| payment_request_id := "req"; installment_number := 3;
                          amount := 33; due_date := 0 + timedelta_days 60;
                          status := Pending; late_fee := 0; paid_date := None |}]>
             (<["b2" := {| payment_request_id := "req"; installment_number := 2;
                           amount := 33; due_date := 0 + timedelta_days 30;
                           status := Pending; late_fee := 0; paid_date := None |}]> ∅) in
  let now := timedelta_days 31 in
  let charge (id : string) (days : Z) :=
    let overdue := 0 + timedelta_days days <? now in
    exists p,
      db' !! id = Some p
      /\ apply_bnpl_late_fee now db' id
         = Ok ({| late_fee_applied := overdue;
                  late_fee_amount := if overdue then 100 / 60 else 0;
                  overdue_amount := if overdue then Some (100 / 3) else None |},
               if overdue then <[id := set_late p (100 / 60)]> db' else db') in
  charge "b2" 30 /\ charge "b3" 60
  /\ ((0 + timedelta_days 60 <? now) = true -> (0 + timedelta_days 30 <? now) = true).
Proof.
  intros db' now.
  apply (scheduled_installment_late_fee 0 now "b2" "b3" ∅ db' "req" "payer" "merchant" 100
           {| installment_1 := 34; installment_2 := 33; installment_3 := 33; total := 100 |}
           {| bnpl_payment_2_id := "b2"; bnpl_payment_3_id := "b3";
              installment_2_due_date := 0 + timedelta_days 30;
              installment_3_due_date := 0 + timedelta_days 60;
              scheduled := true |}).
  - lia.
  - discriminate.
  - reflexivity.
  - reflexivity.
Defined.

(** X24.  [collect_dao_treasury_operation] raises nothing but a plain
    [Exception], whose message names the DAO, whatever the contract call
    raises; and it returns only a pre-signed operation that is not empty,
    the one the DAO contract answered, so that a collected operation, once
    stored, is not the empty one that [execute_dao_merchant_payment]
    refuses. *)
Theorem collected_operation_is_not_empty
    (get_treasury_operation : string -> string -> Z -> result string)
    (dao_id user_id : string) (max_amount : Z) :
  match collect_dao_treasury_operation get_treasury_operation dao_id user_id max_amount with
  | Ok r =>
      collected_operation_bcs r <> ""
      /\ get_treasury_operation dao_id user_id max_amount = Ok (collected_operation_bcs r)
      /\ collected r = true
      /\ (collected_dao_id r, collected_user_id r, Purchase.max_amount r)
         = (dao_id, user_id, max_amount)
  | Raise e =>
      exists why,
        e = Exception ("Failed to collect pre-signed treasury operation from DAO "
                       +:+ dao_id +:+ ": " +:+ why)
        /\ (get_treasury_operation dao_id user_id max_amount = Ok ""
            \/ exists e', get_treasury_operation dao_id user_id max_amount = Raise e'
                          /\ why = Treasury.str_of_exn e')
  end.
Proof.
  unfold collect_dao_treasury_operation.
  destruct (get_treasury_operation dao_id user_id max_amount) as [operation|e'];
    cbn [Py.bind].
  - case_bool_decide as E.
    + eexists. split; [reflexivity|]. left. rewrite E. reflexivity.
    + cbn. repeat split. exact E.
  - eexists. split; [reflexivity|]. right. exists e'. split; reflexivity.
Qed.

End PurchaseFlow.

(** *** What a late-fee redistribution leaves undistributed *)

Section LateFeeRemainder.
Import PyFloat Chain Distribution.
Local Open Scope Z_scope.

Lemma member_share_ge (vp T L : Z) :
  0 < vp <= T -> 0 <= L -> T * (L + 1) <= 2 ^ 51 ->
  exists s : Z, member_share vp T L = Ok s /\ vp * L - T <= T * s.
Proof.
  intros Hv HL Hb.
  destruct (share_product vp T L Hv HL Hb) as (w & Es & W0 & Wlo & _ & Wk).
  exists (trunc w). split; [exact Es|]. rewrite (Qfloor_of_nonneg w W0).
  pose proof (Z.div_mod (vp * L) T ltac:(lia)) as D.
  pose proof (Z.mod_pos_bound (vp * L) T ltac:(lia)) as M.
  apply Qfloor_resp_le in Wlo. rewrite Qfloor_Z in Wlo.
  destruct (Z.eq_dec ((vp * L) mod T) 0) as [Z0|NZ]; [nia|].
  specialize (Wk NZ). apply Qfloor_resp_le in Wk. rewrite Qfloor_Z in Wk. nia.
Qed.

Lemma shares_lower (T L : Z) (dao_members : list Member) :
  0 < T -> 0 <= L -> T * (L + 1) <= 2 ^ 51 ->
  Forall (fun m => 0 <= voting_power m <= T) dao_members ->
  exists l, shares T L dao_members = Ok l
    /\ sum_voting_power dao_members * L - T * Z.of_nat (length dao_members)
       <= T * foldr Z.add 0 (snd <$> l).
Proof.
  intros HT HL Hb. unfold sum_voting_power.
  induction 1 as [|m ms Hm _ (l & El & Sl)].
  - exists []. split; [reflexivity|]. cbn. lia.
  - cbn [shares fmap list_fmap foldr length].
    destruct (voting_power m =? 0) eqn:V.
    + exists l. split; [exact El|]. apply Z.eqb_eq in V. rewrite V. cbn in Sl |- *. lia.
    + apply Z.eqb_neq in V.
      destruct (member_share_ge (voting_power m) T L) as (s & Es & Ts);
        [lia | exact HL | exact Hb |].
      rewrite Es. cbn [Py.bind]. destruct (s =? 0) eqn:S.
      * apply Z.eqb_eq in S. exists l. split; [exact El|]. cbn in Sl |- *. nia.
      * rewrite El. cbn [Py.bind]. exists ((m, s) :: l). split; [reflexivity|].
        cbn [fmap list_fmap foldr snd]. cbn in Sl |- *. nia.
Qed.

Lemma paid_accepted_all (movement_service : MovementService) (l : list (Member * Z)) :
  (forall calls tx, is_ok (submit_signed_transaction movement_service calls tx) = true) ->
  forall calls,
    paid (accepted movement_service calls l) = foldr Z.add 0 (snd <$> l)
    /\ length (accepted movement_service calls l) = length l.
Proof.
  intros Hok. unfold paid. induction l as [|[m s] l IH]; intros calls; [split; reflexivity|].
  cbn [accepted fmap list_fmap foldr snd].
  specialize (Hok calls placeholder_transfer_tx).
  destruct (submit_signed_transaction movement_service calls placeholder_transfer_tx);
    [|discriminate].
  destruct (IH (calls ++ [SubmitSignedTransaction placeholder_transfer_tx])) as [A B].
  cbn [fmap list_fmap foldr share_amount length]. rewrite A, B. split; reflexivity.
Qed.

(** X25.  What stays undistributed.  On a network that accepts every
    transfer, with voting powers that are not negative and of positive
    total [T], and [T * (late_fee_amount + 1) <= 2^51], the late-fee
    redistribution hands out all of the late fee but at most one token for
    each member: [late_fee_amount - len(dao_members) <= total_distributed
    <= late_fee_amount]. *)
Theorem late_fee_remainder_at_most_one_per_member (movement_service : MovementService)
    (calls : list Call) (dao_id : string) (late_fee_amount : Z)
    (dao_members : list Member) :
  get_members movement_service calls dao_id = Ok dao_members ->
  (forall calls tx, is_ok (submit_signed_transaction movement_service calls tx) = true) ->
  Forall (fun m => 0 <= voting_power m) dao_members ->
  0 < sum_voting_power dao_members ->
  0 <= late_fee_amount ->
  sum_voting_power dao_members * (late_fee_amount + 1) <= 2 ^ 51 ->
  exists r calls' d,
    distribute_bnpl_late_fees movement_service calls dao_id late_fee_amount = (Ok r, calls')
    /\ total_distributed r = Some d
    /\ late_fee_amount - Z.of_nat (length dao_members) <= d <= late_fee_amount.
Proof.
  intros Hg Hok Hv HT HL Hb.
  assert (Hvs : Forall (fun m => 0 <= voting_power m <= sum_voting_power dao_members)
                  dao_members).
  { apply Forall_forall. intros m Hm. apply voting_power_le_sum; assumption. }
  destruct (shares_lower (sum_voting_power dao_members) late_fee_amount dao_members
              HT HL Hb Hvs) as (l & El & Lo).
  destruct (shares_bounded (sum_voting_power dao_members) late_fee_amount dao_members
              HT HL Hb Hvs) as (l' & El' & _ & Up).
  rewrite El in El'. injection El' as <-.
  rewrite (distribute_bnpl_late_fees_all movement_service calls dao_id late_fee_amount
             dao_members l Hg ltac:(lia) El).
  eexists _, _, _. split; [reflexivity|]. split; [reflexivity|].
  destruct (paid_accepted_all movement_service l Hok
              (calls ++ [CallContract dao_id "get_members"])) as [-> _].
  split; nia.
Qed.

Lemma late_fee_remainder_at_most_one_per_member_witness :
  exists r calls' d,
    distribute_bnpl_late_fees (accepting [member "A" 29; member "B" 71]) [] "dao" 100
    = (Ok r, calls')
    /\ total_distributed r = Some d
    /\ 100 - Z.of_nat (length [member "A" 29; member "B" 71]) <= d <= 100.
Proof.
  apply (late_fee_remainder_at_most_one_per_member
           (accepting [member "A" 29; member "B" 71]) [] "dao" 100
           [member "A" 29; member "B" 71]).
  - reflexivity.
  - intros calls tx. reflexivity.
  - repeat constructor; cbn; lia.
  - reflexivity.
  - lia.
  - vm_compute. discriminate.
Defined.

End LateFeeRemainder.
